(** * gluu-patch: planner, bundler, fetcher, applier and cleaner

    A shallow embedding of the Python sources under [src/] and the
    properties of the patching engine that are stated about them.

    Conventions.
    - A Python [bytes] value is a [list byte]; a [str] is a [string].
    - A [dict] whose iteration order does not influence the result is a
      [gmap]; a [dict] whose order is observable (bundle member maps, the
      producer's ordered block set, the bundle table) is an association list.
    - A Python exception is the [Raise] branch of [result].
    - The install tree is a finite map from POSIX relative paths to files.
    - SHA-256, the content-defined chunker, the Zstandard trainer and
      compressor, [random.sample] and [tempfile.mkstemp] are external; they
      are section variables. The chunker and the trainer can raise: they
      return a [result]. *)

From Stdlib Require Import ZArith QArith Lia List String Ascii Strings.Byte.
From stdpp Require Import base option list sorting gmap strings pretty.

Set Default Proof Using "Type".
Local Open Scope string_scope.
Local Open Scope list_scope.
Local Open Scope nat_scope.

Abbreviation bytes := (list byte).

(** ** Exceptions *)

Inductive exn :=
  | KeyError (key : string)
  | ZeroDivisionError
  | ValueError
  | IndexError
  | OSError (path : string)
  | SystemExit
  | ClientError (url : string)
  | ZstdError
  | TypeError.

Inductive result (A : Type) :=
  | Ok (a : A)
  | Raise (e : exn).
Arguments Ok {A} a.
Arguments Raise {A} e.

Definition rbind {A B} (r : result A) (k : A → result B) : result B :=
  match r with
  | Ok a => k a
  | Raise e => Raise e
  end.

Notation "x ←r c ; k" := (rbind c (λ x, k))
  (at level 20, c at level 100, k at level 200, right associativity,
   format "x  ←r  c ;  '/' k").
Notation "' p ←r c ; k" := (rbind c (λ p, k))
  (at level 20, p pattern, c at level 100, k at level 200, only parsing).

(** [d[k]] on a dictionary. *)
Definition getitem {V} (d : gmap string V) (k : string) : result V :=
  match d !! k with
  | Some v => Ok v
  | None => Raise (KeyError k)
  end.

(** ** [bytes] and [str] methods

    A [str] that is searched or split is handled as its UTF-8 bytes. *)

#[global] Instance byte_eq_dec : EqDecision byte := Byte.byte_eq_dec.

Module py.

Definition startswith (prefix l : bytes) : bool :=
  bool_decide (take (length prefix) l = prefix).

(** [l.find(sub)]; [None] is [-1]. *)
Fixpoint find (sub l : bytes) : option nat :=
  match l with
  | [] => if startswith sub [] then Some 0 else None
  | _ :: l' => if startswith sub l then Some 0 else S <$> find sub l'
  end.

(** [sub in l] *)
Definition contains (sub l : bytes) : bool := bool_decide (is_Some (find sub l)).

Definition str_contains (sub s : string) : bool :=
  contains (list_byte_of_string sub) (list_byte_of_string s).

(** [l.split(sep)] for a non-empty [sep]: [skip] counts the bytes of a
    separator still to pass over, [cur] is the current piece, reversed. *)
Fixpoint split_go (sep : bytes) (skip : nat) (cur l : bytes) : list bytes :=
  match l with
  | [] => [reverse cur]
  | x :: l' =>
      match skip with
      | S n => split_go sep n cur l'
      | O =>
          if startswith sep l
          then reverse cur :: split_go sep (length sep - 1) [] l'
          else split_go sep 0 (x :: cur) l'
      end
  end.

Definition split (sep l : bytes) : list bytes := split_go sep 0 [] l.

Fixpoint lstrip (chars l : bytes) : bytes :=
  match l with
  | [] => []
  | x :: l' => if bool_decide (x ∈ chars) then lstrip chars l' else l
  end.

Definition rstrip (chars l : bytes) : bytes := reverse (lstrip chars (reverse l)).

Definition strip (chars l : bytes) : bytes := lstrip chars (rstrip chars l).

Definition digit (b : byte) : option Z :=
  let n := Byte.to_N b in
  if bool_decide (48 ≤ n ≤ 57)%N then Some (Z.of_N n - 48)%Z else None.

(** Space, tab, line feed, vertical tab, form feed, carriage return. *)
Definition whitespace : bytes := [x20; x09; x0a; x0b; x0c; x0d].

(** [int(s)]: surrounding whitespace and a leading [+] are accepted;
    anything else but decimal digits is a [ValueError]. *)
Definition int (s : bytes) : result Z :=
  let s := strip whitespace s in
  let s := match s with x2b :: s' => s' | _ => s end in
  match s with
  | [] => Raise ValueError
  | _ =>
      foldl (λ acc b,
               n ←r acc;
               match digit b with
               | Some d => Ok (10 * n + d)%Z
               | None => Raise ValueError
               end)
            (Ok 0%Z) s
  end.

(** [sep.join(l)] *)
Fixpoint join (sep : string) (l : list string) : string :=
  match l with
  | [] => ""
  | [s] => s
  | s :: l' => s +:+ sep +:+ join sep l'
  end.

(** [os.path.dirname] of a relative POSIX path. *)
Fixpoint dirname_go (s : string) : option string :=
  match s with
  | EmptyString => None
  | String c s' =>
      match dirname_go s' with
      | Some d => Some (String c d)
      | None => if bool_decide (c = "/"%char) then Some "" else None
      end
  end.

Definition dirname (s : string) : string := default "" (dirname_go s).

End py.

(** ** The manifest ([patchData.json]) *)

Record file_record := FileRecord {
  fr_hash : string;
  fr_blocks : list string
}.

Record member := Member {
  bm_hash : string;
  bm_length : nat;
  bm_blockOffset : nat
}.

(** A bundle's member map [{"0": {...}, "1": {...}, ...}] in the order in
    which the JSON object lists it. *)
Abbreviation bundle := (list (string * member)).

Definition bundle_hashes (b : bundle) : list string := map (λ kv, bm_hash kv.2) b.

Record manifest := Manifest {
  compression_enabled : bool;
  files : gmap string file_record;
  bundles : gmap string bundle
}.

(** [{'bundles': {}, 'files': {}}] *)
Definition empty_manifest : manifest :=
  {| compression_enabled := false; files := ∅; bundles := ∅ |}.

(** ** The install tree *)

(** [f_lastMod] is the text [str(os.path.getmtime(path))]. A file that is
    listed by [os.walk] but whose [open] raises [IOError]/[OSError] has
    [f_readable = false]. *)
Record file := File {
  f_content : bytes;
  f_lastMod : string;
  f_readable : bool
}.

Abbreviation tree := (gmap string file).

(** ** [patcher/change_log.py] *)

Module ChangeLog.

Record metadata := Metadata {
  size : string;
  lastMod : string
}.

Abbreviation data := (gmap string metadata).

Definition _get_file_metadata (f : file) : metadata :=
  {| size := pretty (length (f_content f)); lastMod := f_lastMod f |}.

(** [os.path.exists] fails first; a missing entry is the [KeyError]
    branch. *)
Definition is_valid (fs : tree) (d : data) (filename : string) : bool :=
  match fs !! filename with
  | None => false
  | Some f =>
      let current_metadata := _get_file_metadata f in
      match d !! filename with
      | Some stored_metadata =>
          bool_decide (size stored_metadata = size current_metadata)
          && bool_decide (lastMod stored_metadata = lastMod current_metadata)
      | None => false
      end
  end.

(** [update_metadata] is called by the cleaner's worker threads, whose
    exceptions are never retrieved: for a file that is gone the entry stays
    as it is. *)
Definition update_metadata (fs : tree) (d : data) (filename : string) : data :=
  if py.str_contains ".DS_Store" filename then d
  else match fs !! filename with
       | Some f => <[filename := _get_file_metadata f]> d
       | None => d
       end.

Definition remove_file (d : data) (filename : string) : data := delete filename d.

Definition validate_current_installation (fs : tree) (d : data) : bool :=
  map_fold (λ filename _ ok,
              if py.str_contains ".DS_Store" filename then ok
              else ok && is_valid fs d filename)
           true d.

End ChangeLog.

(** ** [patcher/block_generator.py] and [Patcher._get_local_file_hashes] *)

Section LocalScan.

(** [hashlib.sha256(...).hexdigest()] *)
Variable sha256 : bytes → string.

(** The hasher is fed the successive 8192-byte reads of the handle; the
    digest is that of their concatenation, the file's content. *)
Definition _hash_file (file_handle : file) : string :=
  sha256 (f_content file_handle).

(** One entry per file of the tree whose [open] succeeds; the others are
    skipped by the [except (IOError, OSError): continue]. *)
Definition _get_local_file_hashes (install_directory : tree) : gmap string string :=
  map_fold (λ rel_path f local_files,
              if f_readable f
              then <[rel_path := _hash_file f]> local_files
              else local_files)
           ∅ install_directory.

End LocalScan.

(** ** [patcher/patch_data.py] *)

Module PatchData.

Record bundle_info := BundleInfo {
  percentNeeded : Q;
  blocksNeeded : list string
}.

(** [a / b] on two [int]s. The quotient is kept as an exact rational;
    the double that Python computes compares with [0.5] the same way for
    every member count below 2^53. *)
Definition truediv (a b : nat) : result Q :=
  match b with
  | O => Raise ZeroDivisionError
  | S _ => Ok (Z.of_nat a # Pos.of_nat b)
  end.

Definition get_files_to_patch (new_build : manifest)
    (local_files : gmap string string) (change_log_is_valid : string → bool)
    : list string :=
  map_fold (λ filename rec files_to_patch,
              if bool_decide (local_files !! filename = None)
                 || negb (bool_decide (Some (fr_hash rec) = local_files !! filename))
                 || negb (change_log_is_valid filename)
              then files_to_patch ++ [filename]
              else files_to_patch)
           [] (files new_build).

Definition get_missing_blocks (files_to_patch : list string)
    (new_build : manifest) (local_blocks : gmap string bytes)
    : result (gset string) :=
  foldl (λ acc filename,
           missing_blocks ←r acc;
           rec ←r getitem (files new_build) filename;
           Ok (foldl (λ (s : gset string) block,
                        if bool_decide (local_blocks !! block = None)
                        then s ∪ {[block]} else s)
                     missing_blocks (fr_blocks rec)))
        (Ok ∅) files_to_patch.

(** The body of the outer loop of [_analyze_bundles] for one bundle. *)
Definition analyze_bundle (missing_blocks : gset string) (b : bundle)
    : result (option bundle_info) :=
  let '(bundle_size, blocks_needed) :=
    foldl (λ '(bundle_size, blocks_needed) kv,
             let block_hash := bm_hash kv.2 in
             (bundle_size + 1,
              if bool_decide (block_hash ∈ missing_blocks)
              then blocks_needed ++ [block_hash] else blocks_needed))
          (0, []) b in
  if bool_decide (0 < bundle_size) then
    p ←r truediv (length blocks_needed) bundle_size;
    Ok (Some {| percentNeeded := p; blocksNeeded := blocks_needed |})
  else Ok None.

Definition _analyze_bundles (new_build : manifest) (missing_blocks : gset string)
    : result (gmap string bundle_info) :=
  map_fold (λ bundle b acc,
              bundle_info ←r acc;
              r ←r analyze_bundle missing_blocks b;
              match r with
              | Some info => Ok (<[bundle := info]> bundle_info)
              | None => Ok bundle_info
              end)
           (Ok ∅) (bundles new_build).

Definition discard_all (remaining_blocks : gset string) (blocks : list string)
    : gset string :=
  foldl (λ s block, s ∖ {[block]}) remaining_blocks blocks.

Definition _bundles_to_download (bundle_info : gmap string bundle_info)
    (missing_blocks : gset string)
    : gmap string (list string) * gset string :=
  map_fold (λ bundle info '(bundles_to_download, remaining_blocks),
              if Qle_bool (1 # 2) (percentNeeded info)
              then (<[bundle := blocksNeeded info]> bundles_to_download,
                    discard_all remaining_blocks (blocksNeeded info))
              else (bundles_to_download, remaining_blocks))
           (∅, missing_blocks) bundle_info.

(** Called with [return_mapping=True] by [Patcher.patch]. *)
Definition find_bundles_and_blocks_to_fetch (new_build : manifest)
    (missing_blocks : gset string)
    : result (gmap string (list string) * gset string) :=
  bundle_info ←r _analyze_bundles new_build missing_blocks;
  Ok (_bundles_to_download bundle_info missing_blocks).

End PatchData.

(** ** Insertion-ordered dictionaries ([OrderedDict], [dict]) *)

Module od.
Section od.
Context {V : Type}.

Definition keys (d : list (string * V)) : list string := d.*1.

Fixpoint get (k : string) (d : list (string * V)) : option V :=
  match d with
  | [] => None
  | (k', v) :: d' => if decide (k = k') then Some v else get k d'
  end.

(** [d[k] = v]: an existing key keeps its position. *)
Fixpoint set (k : string) (v : V) (d : list (string * V)) : list (string * V) :=
  match d with
  | [] => [(k, v)]
  | (k', v') :: d' =>
      if decide (k = k') then (k, v) :: d' else (k', v') :: set k v d'
  end.

(** [del d[k]] for a key that is present. *)
Definition del (k : string) (d : list (string * V)) : list (string * V) :=
  filter (λ kv, kv.1 ≠ k) d.
End od.
End od.

(** ** [util.py]: dictionary training *)

Section Zstd.

(** [zstd.train_dictionary(block_size, samples).as_bytes()]; the call
    raises [ZstdError] when it cannot build a dictionary from the
    samples. *)
Variable train_dictionary : N → list bytes → result bytes.
(** [random.sample(population, k)] *)
Variable random_sample : list bytes → nat → list bytes.

(** [os.makedirs(os.path.dirname(path), exist_ok=True)]: the directory
    part is [''] exactly when the path has no [/], and [os.makedirs('')]
    raises [FileNotFoundError]. Directories are not part of the disk. *)
Definition makedirs_dirname (path : string) : result unit :=
  if py.str_contains "/" path then Ok () else Raise (OSError "").

(** [samples] is [None] for an unbounded sample. Returns the dictionary
    and the disk, on which a trained dictionary is written. *)
Definition load_or_train_dict (disk : gmap string bytes) (dict_path : string)
    (uncompressed_data : list bytes) (block_size : N) (samples : option nat)
    : result (bytes * gmap string bytes) :=
  match disk !! dict_path with
  | Some d => Ok (d, disk)
  | None =>
      let training_sample :=
        match samples with
        | Some n =>
            if bool_decide (n < length uncompressed_data)
            then random_sample uncompressed_data n
            else uncompressed_data
        | None => uncompressed_data
        end in
      dict_bytes ←r train_dictionary block_size training_sample;
      _ ←r makedirs_dirname dict_path;
      Ok (dict_bytes, <[dict_path := dict_bytes]> disk)
  end.

End Zstd.

(** ** [create/blockBuilder.py] *)

Module BlockBuilder.

(** The class attributes, shared by every instance in a process. *)
Record state := State {
  blockSize : N;
  uncompressed_block_data : list bytes;
  data : gmap string file_record;
  blockSet : list (string * bytes)
}.

Definition init (blockSize : N) : state :=
  {| blockSize := blockSize; uncompressed_block_data := [];
     data := ∅; blockSet := [] |}.

(** [BlockBuilder(blockSize)] in a process whose class attributes are
    those of [cls]: [__init__] gives the instance its block size; the list
    and the dictionaries stay those of the class, with what earlier
    instances left in them. *)
Definition new (cls : state) (blockSize : N) : state :=
  {| blockSize := blockSize;
     uncompressed_block_data := uncompressed_block_data cls;
     data := data cls; blockSet := blockSet cls |}.

Section BlockBuilder.

Variable sha256 : bytes → string.
(** The cut points of [fastcdc(path, min, avg, max)] on a file that
    could be opened: the successive chunks of its content, or the
    exception of the call (it raises [ValueError] on an empty file). *)
Variable fastcdc : N → N → N → bytes → result (list bytes).
Variable train_dictionary : N → list bytes → result bytes.
Variable random_sample : list bytes → nat → list bytes.
(** [ZstdCompressor(level, dict_data).compress] *)
Variable zstd_compress : bytes → Z → bytes → bytes.

(** [util.extract_blocks]; [int(block_size * 0.5)] is [block_size / 2]. *)
Definition extract_blocks (content : bytes) (block_size : N)
    : result (list (string * bytes)) :=
  chunks ←r fastcdc (block_size / 2)%N block_size (block_size * 2)%N content;
  Ok (map (λ chunk, (sha256 chunk, chunk)) chunks).

Definition join_hashes (hashes : list string) : string :=
  foldr String.app "" hashes.

(** The body of the loop of [__processFile]. *)
Definition block_step
    (acc : list bytes * list (string * bytes) * list string)
    (blk : string * bytes) : list bytes * list (string * bytes) * list string :=
  let '(unc, bs, fileHash) := acc in
  let '(block_hash, block_data) := blk in
  (unc ++ [block_data], od.set block_hash block_data bs, fileHash ++ [block_hash]).

Definition __processFile (st : state) (relPath : string) (content : bytes)
    : result state :=
  blocks ←r extract_blocks content (blockSize st);
  let '(unc, bs, fileHash) :=
    foldl block_step (uncompressed_block_data st, blockSet st, []) blocks in
  let fileData :=
    {| fr_hash := sha256 (list_byte_of_string (join_hashes fileHash));
       fr_blocks := fileHash |} in
  Ok {| blockSize := blockSize st; uncompressed_block_data := unc;
        data := <[relPath := fileData]> (data st); blockSet := bs |}.

(** Returns the state; the caller reads [data] (sorted by path, as a
    [gmap] is) and [blockSet] from it. A file that cannot be opened, or
    on which the chunker raises, ends the walk with that exception; the
    class attributes then keep what the files before it added, which the
    result does not show: what is proved about a call holds from any
    class attributes. *)
Definition processDir (st : state) (directory : tree) : result state :=
  map_fold (λ relPath f acc,
              st ←r acc;
              if f_readable f then __processFile st relPath (f_content f)
              else Raise (OSError relPath))
           (Ok st) directory.

(** The dictionary and the blocks are the only outputs kept: the block
    files written under [outputPath] are named by their hash and hold
    the value stored back in [blockSet]. *)
(** [dict_path] is [None] or a path; [if dict_path:] holds for a path
    that is not ['']. With [compress] and no path, [os.path.exists(None)]
    raises [TypeError]. *)
Definition writeBlockFiles (st : state) (disk : gmap string bytes)
    (compress regenDict : bool) (compressionLevel : Z) (dict_path : option string)
    : result (state * gmap string bytes) :=
  _ ←r match dict_path with
       | Some path => if bool_decide (path = "") then Ok () else makedirs_dirname path
       | None => Ok ()
       end;
  if compress then
    path ←r match dict_path with
            | Some path => Ok path
            | None => Raise TypeError
            end;
    ' (dict_data, disk) ←r
      load_or_train_dict train_dictionary random_sample disk path
        (uncompressed_block_data st) (blockSize st)
        (if negb regenDict then Some 2000 else None);
    Ok ({| blockSize := blockSize st;
           uncompressed_block_data := uncompressed_block_data st;
           data := data st;
           blockSet := map (λ '(block, blockBinary),
                              (block, zstd_compress dict_data compressionLevel blockBinary))
                           (blockSet st) |},
        disk)
  else Ok (st, disk).

End BlockBuilder.
End BlockBuilder.

(** ** [create/bundleBuilder.py] *)

Module BundleBuilder.

(** [__data] is kept as the sequence of its assignments
    [self.__data[id] = bundleList]; a later assignment to the same id
    replaces an earlier one. A [bundleList] [{0: m0, 1: m1, ...}] is the
    list of its members. *)
Record state := State {
  blockSet : list (string * bytes);
  data : list (string * list member);
  bundle_files : gmap string bytes
}.

Definition init (blockSet : list (string * bytes)) : state :=
  {| blockSet := blockSet; data := []; bundle_files := ∅ |}.

(** [BundleBuilder(blockSet, opd)] in a process whose class attribute
    [__data] holds [table]: [__init__] sets the block set of the instance;
    the bundle table stays that of the class. *)
Definition new (table : list (string * list member))
    (blockSet : list (string * bytes)) : state :=
  {| blockSet := blockSet; data := table; bundle_files := ∅ |}.

(** [str(bundleList)] for hex hashes. *)
Definition str_member (i : nat) (m : member) : string :=
  pretty i +:+ ": {'hash': '" +:+ bm_hash m +:+ "', 'length': "
  +:+ pretty (bm_length m) +:+ ", 'blockOffset': "
  +:+ pretty (bm_blockOffset m) +:+ "}".

Definition str_bundleList (bundleList : list member) : string :=
  "{" +:+ py.join ", " (imap str_member bundleList) +:+ "}".

(** The member map with its keys as strings, as it is written to JSON. *)
Definition normalize (bundleList : list member) : bundle :=
  imap (λ idx meta, (pretty idx, meta)) bundleList.

Definition data_table (data : list (string * list member)) : gmap string (list member) :=
  foldl (λ t '(id, bundleList), <[id := bundleList]> t) ∅ data.

Section BundleBuilder.

Variable sha256 : bytes → string.

Definition canMakeBundle (st : state) (bundle : bundle) : bool :=
  forallb (λ kv, bool_decide (is_Some (od.get (bm_hash kv.2) (blockSet st)))) bundle.

Definition getBundleId (bundleList : list member) : string :=
  sha256 (list_byte_of_string (str_bundleList bundleList)).

Definition createBundle (st : state) (bundleList : list member)
    (bundleData : bytes) : state :=
  let id := getBundleId bundleList in
  {| blockSet := blockSet st;
     data := data st ++ [(id, bundleList)];
     bundle_files := <[id := bundleData]> (bundle_files st) |}.

(** The body of the loop of [makeBundle]. [bundleList[i] = ...] with
    [i = len(bundleList)] appends; [self.__blockSet[hash]] raises
    [KeyError] for a hash that was already deleted. *)
Definition makeBundle_step
    (acc : result (list (string * bytes) * list member * list bytes * nat))
    (kv : string * member)
    : result (list (string * bytes) * list member * list bytes * nat) :=
  '(bs, bundleList, bundleData, length) ←r acc;
  let hash := bm_hash kv.2 in
  match od.get hash bs with
  | None => Raise (KeyError hash)
  | Some result =>
      Ok (od.del hash bs,
          bundleList ++ [Member hash (List.length result) length],
          bundleData ++ [result],
          length + List.length result)
  end.

Definition makeBundle (st : state) (bundle : bundle) : result state :=
  r ←r foldl makeBundle_step (Ok (blockSet st, [], [], 0)) bundle;
  let '(bs, bundleList, bundleData, _) := r in
  Ok (createBundle {| blockSet := bs; data := data st;
                      bundle_files := bundle_files st |}
                   bundleList (concat bundleData)).

(** The first loop of [buildBundles], over the prior manifest's bundles
    in the order of its JSON object. *)
Definition reuse_step (acc : result state) (old : string * bundle) : result state :=
  st ←r acc;
  if canMakeBundle st old.2 then makeBundle st old.2 else Ok st.

Definition reuse_old_bundles (st : state) (oldBundles : list (string * bundle))
    : result state :=
  foldl reuse_step (Ok st) oldBundles.

(** The body of the second loop, over the blocks that are left. *)
Definition pack_step
    (acc : state * list member * list bytes * nat * nat)
    (entry : string * bytes)
    : state * list member * list bytes * nat * nat :=
  let '(st, bundleList, bundleData, blocksProcessed, length) := acc in
  let '(block, result) := entry in
  let bundleList := bundleList ++ [Member block (List.length result) length] in
  let length := length + List.length result in
  let bundleData := bundleData ++ [result] in
  if bool_decide (blocksProcessed = 59)
  then (createBundle st bundleList (concat bundleData), [], [], 0, 0)
  else (st, bundleList, bundleData, blocksProcessed + 1, length).

Definition bundle_remaining (st : state) : state :=
  let '(st, bundleList, bundleData, _, _) :=
    foldl pack_step (st, [], [], 0, 0) (blockSet st) in
  if bool_decide (0 < List.length bundleList)
  then createBundle st bundleList (concat bundleData)
  else st.

(** [util.cleanup(path, self.__data)] *)
Definition cleanup (st : state) : state :=
  {| blockSet := blockSet st; data := data st;
     bundle_files :=
       filter (λ kv, is_Some (data_table (data st) !! kv.1)) (bundle_files st) |}.

Definition buildBundles (st : state) (oldBundles : list (string * bundle))
    : result (state * gmap string bundle) :=
  st ←r reuse_old_bundles st oldBundles;
  let st := cleanup (bundle_remaining st) in
  Ok (st, normalize <$> data_table (data st)).

End BundleBuilder.
End BundleBuilder.

(** ** [create/create.py] *)

(** The class attributes of the two builders ([__uncompressed_block_data],
    [__data] and [__blockSet] of [BlockBuilder], [__data] of
    [BundleBuilder]). They are created when the modules are loaded and are
    never reset: a call of [create_patch] finds what the earlier calls of
    the process left in them. *)
Record process := Process {
  block_builder : BlockBuilder.state;
  bundle_builder : list (string * list member)
}.

(** The class attributes when the modules have just been loaded. *)
Definition fresh_process : process :=
  {| block_builder := BlockBuilder.init 65536; bundle_builder := [] |}.

Section CreatePatch.

Variable sha256 : bytes → string.
Variable fastcdc : N → N → N → bytes → result (list bytes).
Variable train_dictionary : N → list bytes → result bytes.
Variable random_sample : list bytes → nat → list bytes.
Variable zstd_compress : bytes → Z → bytes → bytes.

(** One call in a process whose class attributes are [cls].
    [old_patch_data] is what [util.getPatchData] loaded; [dict_path] is
    the path in effect when [compress] holds (the argument, or
    [{output}/dictionary]): without [compress] the path is [None].
    Returns the manifest, the bundle builder's final state, the disk and
    the class attributes as the call leaves them: the block set is the
    one object that both builders hold. *)
Definition create_patch (cls : process) (directory : tree) (disk : gmap string bytes)
    (old_patch_data : manifest) (block_size : N) (compress : bool)
    (compression_level : Z) (dict_path : string) (regen_dict : bool)
    : result (manifest * BundleBuilder.state * gmap string bytes * process) :=
  let dict_path := if compress then Some dict_path else None in
  st ←r BlockBuilder.processDir sha256 fastcdc
          (BlockBuilder.new (block_builder cls) block_size) directory;
  if bool_decide (size (BlockBuilder.data st) = 0)
     || bool_decide (length (BlockBuilder.blockSet st) = 0)
  then Raise ValueError
  else
    ' (st, disk) ←r
      BlockBuilder.writeBlockFiles train_dictionary random_sample zstd_compress
        st disk compress regen_dict compression_level dict_path;
    r ←r BundleBuilder.buildBundles sha256
           (BundleBuilder.new (bundle_builder cls) (BlockBuilder.blockSet st))
           (map_to_list (bundles old_patch_data));
    let '(bst, bundle_data) := r in
    Ok ({| compression_enabled := compress;
           files := BlockBuilder.data st;
           bundles := bundle_data |}, bst, disk,
        {| block_builder :=
             {| BlockBuilder.blockSize := BlockBuilder.blockSize (block_builder cls);
                BlockBuilder.uncompressed_block_data :=
                  BlockBuilder.uncompressed_block_data st;
                BlockBuilder.data := BlockBuilder.data st;
                BlockBuilder.blockSet := BundleBuilder.blockSet bst |};
           bundle_builder := BundleBuilder.data bst |}).

End CreatePatch.

(** ** [util.py]: the patch-data source *)

(** What a session's GET returns. [content_type] is
    [headers.get('Content-Type', '')]. *)
Record response := Response {
  status : nat;
  content_type : string;
  body : bytes
}.

(** The world outside the install tree, as one apply sees it.
    [patch_data_json] and [dictionary] are what [{loc}/patchData.json] and
    [{loc}/dictionary] hold, [None] when [urlopen] raises [URLError] or the
    local file cannot be read. [session_get url range] is the outcome of
    [session.get(url, headers={'Range': range})]; a transport error is a
    [Raise]. [read_file] is the local file system of the source; [cwd] the
    files reachable by a path relative to the working directory. *)
Record world := World {
  patch_data_json : option manifest;
  dictionary : option bytes;
  session_get : string → option string → result response;
  read_file : string → option bytes;
  cwd : tree
}.

Definition isURL (url : string) : bool :=
  py.str_contains "http://" url || py.str_contains "https://" url.

Definition getPatchData (w : world) (loc : string) : manifest :=
  if bool_decide (loc = "") then empty_manifest
  else if isURL loc then
    match patch_data_json w with
    | Some pd => pd
    | None => empty_manifest
    end
  else
    match patch_data_json w with
    | Some pd => pd
    | None => empty_manifest
    end.

(** Both branches print a message and call [exit()] on a failure. *)
Definition getDictionary (w : world) (loc : string) : result bytes :=
  match dictionary w with
  | Some d => Ok d
  | None => Raise SystemExit
  end.

Definition loadBinFile (w : world) (loc : string) : result bytes :=
  match read_file w loc with
  | Some d => Ok d
  | None => Raise (OSError loc)
  end.

(** [util.fetch]: [raise_for_status] raises for a status of 400 and above. *)
Definition fetch (w : world) (url : string) : result bytes :=
  r ←r session_get w url None;
  if bool_decide (status r ≠ 200) && bool_decide (400 ≤ status r)
  then Raise (ClientError url)
  else Ok (body r).

(** ** [patcher/downloader.py] *)

Module Downloader.

Record RangeRequest := Range {
  start : Z;
  end_ : Z;
  block_hash : string
}.

Record t := Make {
  patch_data_path : string;
  use_compression : bool;
  (** [Some] of the dictionary when compression is in use. *)
  decompressor : option bytes;
  bundle_index : gmap string (list (string * (nat * nat)))
}.

Section Downloader.

(** [ZstdDecompressor(dict_data).decompress] *)
Variable zstd_decompress : bytes → bytes → bytes.
Variable w : world.

(** [{meta["hash"]: (meta["blockOffset"], meta["length"]) for meta in ...}]:
    a later member with the same hash replaces an earlier one. *)
Definition index_of (blkmap : bundle) : list (string * (nat * nat)) :=
  foldl (λ idx kv, od.set (bm_hash kv.2) (bm_blockOffset kv.2, bm_length kv.2) idx)
        [] blkmap.

Definition new (patch_data_path : string) (use_compression : bool) : result t :=
  dec ←r (if use_compression
          then d ←r getDictionary w patch_data_path; Ok (Some d)
          else Ok None);
  Ok {| patch_data_path := patch_data_path;
        use_compression := use_compression;
        decompressor := dec;
        bundle_index := index_of <$> bundles (getPatchData w patch_data_path) |}.

Definition _decompress_if_needed (self : t) (data : bytes) : bytes :=
  match use_compression self, decompressor self with
  | true, Some d => zstd_decompress d data
  | _, _ => data
  end.

Definition _get_block_info (self : t) (bundle_id block_hash : string)
    : option (nat * nat) :=
  idx ← bundle_index self !! bundle_id; od.get block_hash idx.

(** [bundle_data[offset:offset + length]] *)
Definition slice (data : bytes) (offset length : nat) : bytes :=
  take length (drop offset data).

(** [_process_bundle] and [_process_bundle_sync] have the same body. *)
Definition _process_bundle (self : t) (bundle_id : string) (bundle_data : bytes)
    (needed_blocks : list string) (local_blocks : gmap string bytes)
    : gmap string bytes :=
  foldl (λ (local_blocks : gmap string bytes) block_hash,
           match local_blocks !! block_hash with
           | Some _ => local_blocks
           | None =>
               match _get_block_info self bundle_id block_hash with
               | Some (offset, length) =>
                   <[block_hash := _decompress_if_needed self (slice bundle_data offset length)]>
                     local_blocks
               | None => local_blocks
               end
           end)
        local_blocks needed_blocks.

(** The order of [sorted(ranges, key=lambda r: r.start)]. *)
Definition starts_before (r1 r2 : RangeRequest) : Prop := (start r1 ≤ start r2)%Z.

#[global] Instance starts_before_dec : RelDecision starts_before :=
  λ r1 r2, decide (start r1 ≤ start r2)%Z.

Definition _create_range_requests (self : t) (bundle_id : string)
    (needed_blocks : list string) : list RangeRequest :=
  let bundle_blocks := default [] (bundle_index self !! bundle_id) in
  let ranges :=
    foldl (λ ranges block_hash,
             match od.get block_hash bundle_blocks with
             | Some (offset, length) =>
                 ranges ++ [Range (Z.of_nat offset)
                                  (Z.of_nat offset + Z.of_nat length - 1) block_hash]
             | None => ranges
             end)
          [] needed_blocks in
  merge_sort starts_before ranges.

Definition _process_single_range (self : t) (data : bytes) (range_req : RangeRequest)
    (local_blocks : gmap string bytes) : gmap string bytes :=
  <[block_hash range_req := _decompress_if_needed self data]> local_blocks.

Definition crlf : bytes := [x0d; x0a].

(** The first header line that starts with [Content-Range:], or [''].  *)
Definition content_range_of (headers : bytes) : bytes :=
  default [] (head (filter (λ h, py.startswith (list_byte_of_string "Content-Range:") h = true)
                           (py.split crlf headers))).

(** [list[1]] *)
Definition second (l : list bytes) : result bytes :=
  match l !! 1 with
  | Some x => Ok x
  | None => Raise IndexError
  end.

(** [list[0]] of a [split], which is never empty. *)
Definition first (l : list bytes) : bytes := default [] (head l).

(** The body of the loop of [_process_multipart_response] for one part. *)
Definition process_part (self : t) (ranges : list RangeRequest)
    (local_blocks : gmap string bytes) (part : bytes) : result (gmap string bytes) :=
  match py.find (crlf ++ crlf) part with
  | None => Ok local_blocks
  | Some header_end =>
      let headers := take header_end part in
      let content := py.rstrip crlf (drop (header_end + 4) part) in
      let content_range := content_range_of headers in
      match content_range with
      | [] => Ok local_blocks
      | _ =>
          after ←r second (py.split (list_byte_of_string "bytes ") content_range);
          let range_info := first (py.split (list_byte_of_string "/") after) in
          match py.split (list_byte_of_string "-") range_info with
          | [a; b] =>
              start ←r py.int a;
              end_ ←r py.int b;
              match filter (λ r, Downloader.start r = start ∧ Downloader.end_ r = end_)
                           ranges with
              | matching_range :: _ =>
                  Ok (<[block_hash matching_range := _decompress_if_needed self content]>
                        local_blocks)
              | [] => Ok local_blocks
              end
          | _ => Raise ValueError
          end
      end
  end.

(** [parts[1:-1]] *)
Definition inner_parts (parts : list bytes) : list bytes :=
  take (length parts - 2) (drop 1 parts).

Definition _process_multipart_response (self : t) (body : bytes) (boundary : string)
    (ranges : list RangeRequest) (local_blocks : gmap string bytes)
    : result (gmap string bytes) :=
  let parts := py.split (list_byte_of_string ("--" +:+ boundary)) body in
  foldl (λ acc part, local_blocks ←r acc; process_part self ranges local_blocks part)
        (Ok local_blocks) (inner_parts parts).

Definition range_header (ranges : list RangeRequest) : string :=
  py.join "," (map (λ r, "bytes=" +:+ pretty (start r) +:+ "-" +:+ pretty (end_ r)) ranges).

Definition quote : bytes := [x22].

Definition _fetch_bundle_ranges (self : t) (bundle_id : string)
    (ranges : list RangeRequest) (local_blocks : gmap string bytes)
    : result (gmap string bytes) :=
  match ranges with
  | [] => Ok local_blocks
  | range0 :: _ =>
      let url := patch_data_path self +:+ "/bundles/" +:+ bundle_id in
      response ←r session_get w url (Some (range_header ranges));
      if bool_decide (status response = 206) then
        if py.str_contains "multipart/byteranges" (content_type response) then
          b ←r second (py.split (list_byte_of_string "boundary=")
                                (list_byte_of_string (content_type response)));
          let boundary := string_of_list_byte (py.strip quote b) in
          _process_multipart_response self (body response) boundary ranges local_blocks
        else Ok (_process_single_range self (body response) range0 local_blocks)
      else
        resp ←r fetch w url;
        Ok (_process_bundle self bundle_id resp (map block_hash ranges) local_blocks)
  end.

(** The tasks are awaited one after the other; the first exception ends
    the fetch. *)
Definition _fetch_remote (self : t) (bundles : gmap string (list string))
    (blocks_to_download : gset string) (local_blocks : gmap string bytes)
    : result (gmap string bytes) :=
  local_blocks ←r
    map_fold (λ bundle_id needed_blocks acc,
                local_blocks ←r acc;
                _fetch_bundle_ranges self bundle_id
                  (_create_range_requests self bundle_id needed_blocks) local_blocks)
             (Ok local_blocks) bundles;
  set_fold (λ block acc,
              local_blocks ←r acc;
              resp ←r fetch w (patch_data_path self +:+ "/blocks/" +:+ block);
              Ok (<[block := _decompress_if_needed self resp]> local_blocks))
           (Ok local_blocks) blocks_to_download.

Definition _fetch_local (self : t) (bundles : gmap string (list string))
    (blocks_to_download : gset string) (local_blocks : gmap string bytes)
    : result (gmap string bytes) :=
  local_blocks ←r
    map_fold (λ bundle needed_blocks acc,
                local_blocks ←r acc;
                resp ←r loadBinFile w (patch_data_path self +:+ "/bundles/" +:+ bundle);
                Ok (_process_bundle self bundle resp needed_blocks local_blocks))
             (Ok local_blocks) bundles;
  set_fold (λ block acc,
              local_blocks ←r acc;
              resp ←r loadBinFile w (patch_data_path self +:+ "/blocks/" +:+ block);
              Ok (<[block := _decompress_if_needed self resp]> local_blocks))
           (Ok local_blocks) blocks_to_download.

(** [Downloader.fetch] *)
Definition fetch_all (self : t) (bundles : gmap string (list string))
    (blocks_to_download : gset string) (local_blocks : gmap string bytes)
    : result (gmap string bytes) :=
  if isURL (patch_data_path self)
  then _fetch_remote self bundles blocks_to_download local_blocks
  else _fetch_local self bundles blocks_to_download local_blocks.

End Downloader.
End Downloader.

(** ** [patcher/file_patcher.py] *)

Module FilePatcher.
Section FilePatcher.

(** [tempfile.mkstemp(dir=dest_dir)]: the path, relative to the install
    directory, of the empty file it creates. *)
Variable mkstemp : tree → string → string.
(** The modification time that a file written by this apply shows. *)
Variable clock : string.

Definition empty_file : file := {| f_content := []; f_lastMod := clock; f_readable := true |}.

(** [f.write(data)] on the open temporary file. *)
Definition write (fs : tree) (path : string) (data : bytes) : tree :=
  match fs !! path with
  | Some f => <[path := {| f_content := f_content f ++ data; f_lastMod := clock;
                           f_readable := f_readable f |}]> fs
  | None => fs
  end.

(** The loop over the record's blocks; [local_blocks[block]] raises
    [KeyError] for a hash that is not in the pool. *)
Definition write_blocks (fs : tree) (temp_path : string) (blocks : list string)
    (local_blocks : gmap string bytes) : tree * result unit :=
  foldl (λ '(fs, r) block,
           match r with
           | Raise e => (fs, Raise e)
           | Ok _ =>
               match local_blocks !! block with
               | Some data => (write fs temp_path data, Ok ())
               | None => (fs, Raise (KeyError block))
               end
           end)
        (fs, Ok ()) blocks.

(** The body of the [try]. *)
Definition patch_body (fs : tree) (temp_path filename : string) (new_build : manifest)
    (local_blocks : gmap string bytes) : tree * result unit :=
  (* open(temp_path, 'wb') *)
  let fs := <[temp_path := empty_file]> fs in
  match files new_build !! filename with
  | None => (fs, Raise (KeyError filename))
  | Some rec =>
      let '(fs, r) := write_blocks fs temp_path (fr_blocks rec) local_blocks in
      match r with
      | Raise e => (fs, Raise e)
      | Ok _ =>
          let final_path := filename in
          (* if os.path.exists(final_path): os.remove(final_path) *)
          let fs := delete final_path fs in
          (* os.replace(temp_path, final_path) *)
          match fs !! temp_path with
          | Some f => (<[final_path := f]> (delete temp_path fs), Ok ())
          | None => (fs, Raise (OSError temp_path))
          end
      end
  end.

(** The state of the install tree after the call, and how the call ended. *)
Definition apply_patch_to_file (fs : tree) (filename : string) (new_build : manifest)
    (local_blocks : gmap string bytes) : tree * result unit :=
  let dest_dir := py.dirname filename in
  let temp_path := mkstemp fs dest_dir in
  let fs := <[temp_path := empty_file]> fs in
  let '(fs, r) := patch_body fs temp_path filename new_build local_blocks in
  (* finally: if os.path.exists(temp_path): os.remove(temp_path) *)
  (delete temp_path fs, r).

Definition apply (fs : tree) (new_build : manifest) (local_blocks : gmap string bytes)
    (files_to_patch : list string) : tree * result unit :=
  foldl (λ '(fs, r) filename,
           match r with
           | Raise e => (fs, Raise e)
           | Ok _ => apply_patch_to_file fs filename new_build local_blocks
           end)
        (fs, Ok ()) files_to_patch.

End FilePatcher.
End FilePatcher.

(** ** [patcher/cleaner.py] *)

Module Cleaner.

(** [rel_path] is the path of the file relative to the install directory,
    with [/] as separator. *)
Definition _cleanup_file (st : tree * ChangeLog.data) (rel_path : string)
    (new_build : manifest) : tree * ChangeLog.data :=
  let '(fs, change_log) := st in
  match files new_build !! rel_path with
  | None =>
      if bool_decide (rel_path = ".DS_Store") then (fs, change_log)
      else (delete rel_path fs, ChangeLog.remove_file change_log rel_path)
  | Some _ => (fs, ChangeLog.update_metadata fs change_log rel_path)
  end.

(** The files are the ones that [os.walk] listed before any was removed.
    Directories are not part of the tree: an empty one has no entry. *)
Definition run (fs : tree) (change_log : ChangeLog.data) (new_build : manifest)
    : tree * ChangeLog.data :=
  map_fold (λ rel_path _ st, _cleanup_file st rel_path new_build)
           (fs, change_log) fs.

End Cleaner.

(** ** [patcher/__init__.py] *)

Module Patcher.

(** What an apply works on: the install tree and the [changelog.json] on
    disk ([None] when there is no such file). *)
Record state := State {
  install : tree;
  changelog_json : option ChangeLog.data
}.

Section Patcher.

Variable sha256 : bytes → string.
Variable fastcdc : N → N → N → bytes → result (list bytes).
Variable zstd_decompress : bytes → bytes → bytes.
Variable mkstemp : tree → string → string.
Variable clock : string.
Variable w : world.

(** [BlockGenerator.scan]: the paths are opened as they are given, that is
    relative to the working directory; a path that does not exist there is
    skipped. For a file that exists there and cannot be opened, or on
    which the chunker raises, [_run_fastcdc_on_file] re-raises, and the
    loop over [executor.map] raises the exception of the first such path
    of the list. *)
Definition scan (files_to_patch : list string) : result (gmap string bytes) :=
  foldl (λ acc filepath,
           blocks ←r acc;
           match cwd w !! filepath with
           | None => Ok blocks
           | Some f =>
               if f_readable f then
                 chunks ←r fastcdc (65536 / 2)%N 65536%N (65536 * 2)%N (f_content f);
                 Ok (foldl (λ (blocks : gmap string bytes) chunk,
                              <[sha256 chunk := chunk]> blocks)
                           blocks chunks)
               else Raise (OSError filepath)
           end)
        (Ok ∅) files_to_patch.

(** [Patcher.__init__] followed by [Patcher.patch]. [ChangeLog.load] gives
    the empty changelog when there is no file. *)
Definition patch (patch_data_path : string) (st : state) : state * result unit :=
  let change_log := default ∅ (changelog_json st) in
  let use_compression := compression_enabled (getPatchData w patch_data_path) in
  match (if use_compression then getDictionary w patch_data_path else Ok []) with
  | Raise e => (st, Raise e)
  | Ok _ =>
      match Downloader.new w patch_data_path use_compression with
      | Raise e => (st, Raise e)
      | Ok downloader =>
          let new_build := getPatchData w patch_data_path in
          let local_files := _get_local_file_hashes sha256 (install st) in
          let files_to_patch :=
            PatchData.get_files_to_patch new_build local_files
              (ChangeLog.is_valid (install st) change_log) in
          match
            (local_blocks ←r scan files_to_patch;
             missing_blocks ←r PatchData.get_missing_blocks files_to_patch new_build local_blocks;
             '(bundles, blocks_to_download) ←r
               PatchData.find_bundles_and_blocks_to_fetch new_build missing_blocks;
             Downloader.fetch_all zstd_decompress w downloader bundles blocks_to_download
               local_blocks)
          with
          | Raise e => (st, Raise e)
          | Ok local_blocks =>
              let '(fs, r) :=
                FilePatcher.apply mkstemp clock (install st) new_build local_blocks
                  files_to_patch in
              match r with
              | Raise e => ({| install := fs; changelog_json := changelog_json st |}, Raise e)
              | Ok _ =>
                  let '(fs, log) := Cleaner.run fs change_log new_build in
                  ({| install := fs; changelog_json := Some log |}, Ok ())
              end
          end
      end
  end.

End Patcher.
End Patcher.

(** ** More of [util.py], [create/blockBuilder.py] and [gluu.py] *)

Module Util.

(** [util.slice_bundle]: [decompressor] is [None] or the decompression
    function. A later member with the same hash replaces an earlier one. *)
Definition slice_bundle (bundle_data : bytes) (metadata : bundle)
    (blocks_needed : list string) (decompressor : option (bytes → bytes))
    : gmap string bytes :=
  foldl (λ (out : gmap string bytes) entry,
           let h := bm_hash entry.2 in
           if bool_decide (h ∈ blocks_needed) then
             let chunk := Downloader.slice bundle_data (bm_blockOffset entry.2)
                            (bm_length entry.2) in
             let chunk := match decompressor with
                          | Some d => d chunk
                          | None => chunk
                          end in
             <[h := chunk]> out
           else out)
        ∅ metadata.

(** [util.cleanup(path, data)] on the files of one directory, by name. *)
Definition cleanup (dir_files : gmap string bytes) (names : list string)
    : gmap string bytes :=
  filter (λ kv, kv.1 ∈ names) dir_files.

End Util.

Module BlockFiles.



End BlockFiles.


(** * Specification vocabulary *)

(** ** The planner *)

Module PatchDataSpec.
Import PatchData.

Definition needed_of (missing_blocks : gset string) (b : bundle) : list string :=
  filter (λ h, h ∈ missing_blocks) (bundle_hashes b).

Definition info_of (missing_blocks : gset string) (b : bundle) : option bundle_info :=
  match b with
  | [] => None
  | _ :: _ =>
      Some {| percentNeeded :=
                Z.of_nat (length (needed_of missing_blocks b)) # Pos.of_nat (length b);
              blocksNeeded := needed_of missing_blocks b |}
  end.

Definition selected (info : bundle_info) : option (list string) :=
  if Qle_bool (1 # 2) (percentNeeded info) then Some (blocksNeeded info) else None.

Definition fraction_needed (missing_blocks : gset string) (b : bundle) : Q :=
  Z.of_nat (length (needed_of missing_blocks b)) # Pos.of_nat (length b).

(** No block hash is a member of two bundles. *)
Definition bundles_disjoint (new_build : manifest) : Prop :=
  ∀ id1 id2 b1 b2 h,
    bundles new_build !! id1 = Some b1 → bundles new_build !! id2 = Some b2 →
    h ∈ bundle_hashes b1 → h ∈ bundle_hashes b2 → id1 = id2.

Definition threshold_policy (new_build : manifest) (missing_blocks : gset string)
    (plan : gmap string (list string)) (rem : gset string) : Prop :=
  (∀ id b, bundles new_build !! id = Some b → b ≠ [] →
     ((1 # 2 <= fraction_needed missing_blocks b)%Q →
        plan !! id = Some (needed_of missing_blocks b)
        ∧ ∀ h, h ∈ needed_of missing_blocks b → h ∉ rem)
     ∧ (¬ (1 # 2 <= fraction_needed missing_blocks b)%Q →
        plan !! id = None
        ∧ ∀ h, h ∈ needed_of missing_blocks b → h ∈ rem))
  ∧ (∀ h, h ∈ missing_blocks ↔ h ∈ rem ∨ ∃ id l, plan !! id = Some l ∧ h ∈ l).

(** Scenario S4: one bundle of two members, one of them missing. *)
Definition s4_build : manifest :=
  {| compression_enabled := false;
     files := ∅;
     bundles := {[ "bundle" := [("0", Member "x" 1 0); ("1", Member "y" 1 1)] ]} |}.

(** A manifest in which the hash [x] is a member of two bundles. *)
Definition overlapping_build : manifest :=
  {| compression_enabled := false;
     files := ∅;
     bundles := {[ "A" := [("0", Member "x" 1 0); ("1", Member "y" 1 1);
                           ("2", Member "z" 1 2)];
                   "B" := [("0", Member "x" 1 0)] ]} |}.

(** The file is in the install tree and the scan could read it. *)
Definition present_locally (fs : tree) (filename : string) : Prop :=
  ∃ f, fs !! filename = Some f ∧ f_readable f = true.

(** The changelog has an entry for the file, the file exists, and the
    recorded size and modification time are the current ones. *)
Definition changelog_entry_valid (fs : tree) (log : ChangeLog.data)
    (filename : string) : Prop :=
  ∃ f e, fs !! filename = Some f ∧ log !! filename = Some e
         ∧ ChangeLog.size e = pretty (length (f_content f))
         ∧ ChangeLog.lastMod e = f_lastMod f.

End PatchDataSpec.

(** ** The producer *)

Module ProducerSpec.

Definition hashes_of (l : list member) : list string := map bm_hash l.

Definition emitted_hashes (ws : list (string * list member)) : list string :=
  concat (map (λ w, hashes_of w.2) ws).

(** The member list that [makeBundle] computes for a sequence of hashes:
    lengths are those of the payloads in the block set, offsets are the
    running sums. *)
Fixpoint rebuild (bs : list (string * bytes)) (offset : nat) (hs : list string)
    : list member :=
  match hs with
  | [] => []
  | h :: hs' =>
      match od.get h bs with
      | Some r => Member h (length r) offset :: rebuild bs (offset + length r) hs'
      | None => []
      end
  end.

(** No two different member lists were stored under one id. *)
Definition no_collisions (ws : list (string * list member)) : Prop :=
  ∀ id l l', (id, l) ∈ ws → (id, l') ∈ ws → l = l'.

(** Every key of the block set is in exactly one bundle of the table. *)
Definition table_partitions (keys : list string) (table : gmap string bundle) : Prop :=
  ∀ h, h ∈ keys →
    ∃ id b, table !! id = Some b ∧ h ∈ bundle_hashes b ∧ NoDup (bundle_hashes b)
            ∧ ∀ id' b', table !! id' = Some b' → h ∈ bundle_hashes b' → id' = id.

(** The block set has no repeated key and holds every hash that a file
    record references. *)
Definition covers (st : BlockBuilder.state) : Prop :=
  NoDup (od.keys (BlockBuilder.blockSet st))
  ∧ ∀ p rec h, BlockBuilder.data st !! p = Some rec → h ∈ fr_blocks rec →
               h ∈ od.keys (BlockBuilder.blockSet st).

(** The bundles of a manifest partition their members: no hash is listed
    twice, in one bundle or in two. *)
Definition bundles_partitioned (m : manifest) : Prop :=
  NoDup (concat (map (λ o, bundle_hashes o.2) (map_to_list (bundles m)))).

(** The partition property: every block hash referenced by a file record
    is a member of exactly one bundle, once. *)
Definition partition_property (m : manifest) : Prop :=
  ∀ p rec h, files m !! p = Some rec → h ∈ fr_blocks rec →
    ∃ id b, bundles m !! id = Some b ∧ h ∈ bundle_hashes b
            ∧ NoDup (bundle_hashes b)
            ∧ ∀ id' b', bundles m !! id' = Some b' → h ∈ bundle_hashes b' → id' = id.

(** The offsets of a member list are the running sums of the lengths. *)
Fixpoint offsets_from (offset : nat) (l : list member) : Prop :=
  match l with
  | [] => True
  | m :: l' => bm_blockOffset m = offset ∧ offsets_from (offset + bm_length m) l'
  end.

(** The bundle is as the bundler writes it: keys ["0"], ["1"], ..., offsets
    the running sums of the lengths, id the digest of the rendered member
    list. *)
Definition emitted_form (sha256 : bytes → string) (id : string) (b : bundle) : Prop :=
  b = BundleBuilder.normalize b.*2
  ∧ offsets_from 0 b.*2
  ∧ id = BundleBuilder.getBundleId sha256 b.*2.

(** Each member's recorded length is the length of the payload that the
    block set holds for its hash. *)
Definition lengths_match (bs : list (string * bytes)) (b : bundle) : Prop :=
  ∀ m, m ∈ b.*2 → ∃ r, od.get (bm_hash m) bs = Some r ∧ length r = bm_length m.

(** The hash is referenced by a file record of the manifest. *)
Definition referenced (m : manifest) (h : string) : Prop :=
  ∃ p rec, files m !! p = Some rec ∧ h ∈ fr_blocks rec.

(** The block set that a call hands to the bundler: the blocks of the
    class attribute after the scan, with their (compressed) payloads. *)
Definition bundler_input (sha256 : bytes → string)
    (fastcdc : N → N → N → bytes → result (list bytes))
    (train_dictionary : N → list bytes → result bytes)
    (random_sample : list bytes → nat → list bytes)
    (zstd_compress : bytes → Z → bytes → bytes)
    (cls : process) (directory : tree) (disk : gmap string bytes) (block_size : N)
    (compress : bool) (compression_level : Z) (dict_path : string)
    (regen_dict : bool) : result (list (string * bytes)) :=
  st ←r BlockBuilder.processDir sha256 fastcdc
          (BlockBuilder.new (block_builder cls) block_size) directory;
  r ←r BlockBuilder.writeBlockFiles train_dictionary random_sample zstd_compress
         st disk compress regen_dict compression_level
         (if compress then Some dict_path else None);
  Ok (BlockBuilder.blockSet r.1).

(** *** A small source tree and stand-ins for the external functions *)

(** The digest of a text is the text: distinct inputs, distinct digests. *)
Definition text_digest (b : bytes) : string := string_of_list_byte b.

(** Every non-empty file is one chunk; an empty file makes the chunker
    raise, as the library does. *)
Definition whole_file (min_size avg_size max_size : N) (content : bytes)
    : result (list bytes) :=
  match content with
  | [] => Raise ValueError
  | _ => Ok [content]
  end.

(** A trainer that finds its samples too few to build a dictionary, as
    the library does for the small trees below: a run with these
    stand-ins compresses only with a dictionary that is already on the
    disk. *)
Definition training_fails (block_size : N) (samples : list bytes) : result bytes :=
  Raise ZstdError.

(** A disk on which the dictionary file exists. *)
Definition dictionary_disk : gmap string bytes :=
  {[ "patchData/dictionary" := list_byte_of_string "a trained dictionary" ]}.

Definition first_samples (population : list bytes) (k : nat) : list bytes :=
  take k population.

(** A compressor that changes the payload length. *)
Definition framed (dict_data : bytes) (level : Z) (b : bytes) : bytes :=
  dict_data ++ b.

(** Scenario S1. *)
Definition s1_tree : tree :=
  {[ "foo.txt" := File (list_byte_of_string "hello world") "1.0" true;
     "bar.txt" := File (list_byte_of_string "another file content") "1.0" true ]}.

(** A call with the stand-ins and a block size of 1024, in a process with
    the class attributes [cls], on a disk [disk]. *)
Abbreviation run cls disk directory old_patch_data compress :=
  (create_patch text_digest whole_file training_fails first_samples framed
     cls directory disk old_patch_data 1024%N compress 5%Z "patchData/dictionary" false).

Definition produced
    (r : result (manifest * BundleBuilder.state * gmap string bytes * process))
    : manifest :=
  match r with
  | Ok (m, _, _, _) => m
  | Raise _ => empty_manifest
  end.

(** The bundle table of the class after a call. *)
Definition bundler_writes
    (r : result (manifest * BundleBuilder.state * gmap string bytes * process))
    : list (string * list member) :=
  match r with
  | Ok (_, bst, _, _) => BundleBuilder.data bst
  | Raise _ => []
  end.

(** The class attributes that a call that returned leaves to the next
    call of the process (it is read only from calls shown to return). *)
Definition left_behind
    (r : result (manifest * BundleBuilder.state * gmap string bytes * process))
    : process :=
  match r with
  | Ok (_, _, _, cls) => cls
  | Raise _ => fresh_process
  end.

Definition succeeded {A} (r : result A) : bool :=
  match r with
  | Ok _ => true
  | Raise _ => false
  end.

(** V1: no prior manifest, no compression. V2: the same tree with V1 as the
    prior manifest, with compression (the dictionary file exists) and
    without. Each is the first call of its process. *)
Definition v1 : manifest :=
  produced (run fresh_process ∅ s1_tree empty_manifest false).
Definition v2_compressed : manifest :=
  produced (run fresh_process dictionary_disk s1_tree v1 true).
Definition v2_plain : manifest :=
  produced (run fresh_process ∅ s1_tree v1 false).

(** Two calls in one process, each on a tree of one file and into an
    output directory of its own (no prior manifest, no compression). *)
Definition tree_a : tree :=
  {[ "a.txt" := File (list_byte_of_string "alpha") "1.0" true ]}.
Definition tree_b : tree :=
  {[ "b.txt" := File (list_byte_of_string "beta") "1.0" true ]}.

Definition first_call := run fresh_process ∅ tree_a empty_manifest false.
Definition second_call := run (left_behind first_call) ∅ tree_b empty_manifest false.

End ProducerSpec.

(** ** The applier *)

Module ApplierSpec.








End ApplierSpec.

(** ** The cleaner *)

Module CleanerSpec.

(** What [_cleanup_file] leaves at a path [p] that the walk visits, for
    the file [o] at [p] and the changelog entry [old] of [p]. *)
Definition file_after (new_build : manifest) (p : string) (o : option file)
    : option file :=
  match files new_build !! p with
  | Some _ => o
  | None => if bool_decide (p = ".DS_Store") then o else None
  end.

Definition entry_after (new_build : manifest) (p : string) (o : option file)
    (old : option ChangeLog.metadata) : option ChangeLog.metadata :=
  match files new_build !! p with
  | Some _ =>
      if py.str_contains ".DS_Store" p then old
      else match o with
           | Some f => Some (ChangeLog._get_file_metadata f)
           | None => old
           end
  | None => if bool_decide (p = ".DS_Store") then old else None
  end.

Definition ds_store : file :=
  {| f_content := list_byte_of_string "Bud1"; f_lastMod := "1.0"; f_readable := true |}.

(** An install tree with a [.DS_Store] in a sub-directory and one at the
    root; neither is in the manifest. *)
Definition mac_tree : tree :=
  {[ ".DS_Store" := ds_store; "assets/.DS_Store" := ds_store ]}.

Definition mac_log : ChangeLog.data :=
  {[ ".DS_Store" := ChangeLog.Metadata "4" "1.0";
     "assets/.DS_Store" := ChangeLog.Metadata "4" "1.0" ]}.

End CleanerSpec.

(** ** The fetcher and the apply operation *)

Module ApplySpec.

(** A downloader for an uncompressed source. *)
Definition plain_downloader : Downloader.t :=
  {| Downloader.patch_data_path := "http://patches.example/app";
     Downloader.use_compression := false;
     Downloader.decompressor := None;
     Downloader.bundle_index := ∅ |}.

Definition ascii (s : string) : bytes := list_byte_of_string s.

(** Scenario S5: the body of the mocked 206 response. *)
Definition s5_body : bytes :=
  ascii "--test_boundary" ++ Downloader.crlf
  ++ ascii "Content-Range: bytes 0-99/1000" ++ Downloader.crlf ++ Downloader.crlf
  ++ ascii "block1_data" ++ Downloader.crlf
  ++ ascii "--test_boundary" ++ Downloader.crlf
  ++ ascii "Content-Range: bytes 100-299/1000" ++ Downloader.crlf ++ Downloader.crlf
  ++ ascii "block2_data" ++ Downloader.crlf
  ++ ascii "--test_boundary--" ++ Downloader.crlf.

Definition s5_ranges : list Downloader.RangeRequest :=
  [Downloader.Range 0 99 "block1"; Downloader.Range 100 299 "block2"].

(** A block of three bytes that ends in a line feed. *)
Definition lf_block : bytes := [x61; x62; x0a].

(** A 206 body with one part, for the range 0-2, that carries [lf_block]. *)
Definition lf_body : bytes :=
  ascii "--B" ++ Downloader.crlf
  ++ ascii "Content-Range: bytes 0-2/3" ++ Downloader.crlf ++ Downloader.crlf
  ++ lf_block ++ Downloader.crlf
  ++ ascii "--B--" ++ Downloader.crlf.

(** A source at a URL for which every request fails in transport. *)
Definition unreachable : world :=
  {| patch_data_json := None;
     dictionary := None;
     session_get := λ url _, Raise (ClientError url);
     read_file := λ _, None;
     cwd := ∅ |}.

Definition app_file : file :=
  {| f_content := ascii "application"; f_lastMod := "1.0"; f_readable := true |}.

(** A consistent installation of one file. *)
Definition app_installed : Patcher.state :=
  {| Patcher.install := {[ "bin/app" := app_file ]};
     Patcher.changelog_json := Some {[ "bin/app" := ChangeLog.Metadata "11" "1.0" ]} |}.

(** A manifest of one file of one block, in no bundle, and a source that
    serves the manifest but fails in transport on every block. *)
Definition one_block_build : manifest :=
  {| compression_enabled := false;
     files := {[ "bin/app" := FileRecord "r" ["h1"] ]};
     bundles := ∅ |}.

Definition blocks_unreachable : world :=
  {| patch_data_json := Some one_block_build;
     dictionary := None;
     session_get := λ url _, Raise (ClientError url);
     read_file := λ _, None;
     cwd := ∅ |}.

(** ** Dictionary training *)

(** A block builder that has scanned one block, and a disk on which a
    dictionary file exists. *)
Definition scanned : BlockBuilder.state :=
  {| BlockBuilder.blockSize := 1024;
     BlockBuilder.uncompressed_block_data := [ascii "hello world"];
     BlockBuilder.data := {[ "foo.txt" := FileRecord "r" ["h"] ]};
     BlockBuilder.blockSet := [("h", ascii "hello world")] |}.

Definition disk_with_dictionary : gmap string bytes :=
  {[ "patchData/dictionary" := ascii "old dictionary" ]}.

End ApplySpec.

(** ** Vocabulary for the further properties *)

Module MoreSpec.

Definition tracked_file : file :=
  {| f_content := list_byte_of_string "application"; f_lastMod := "1.0";
     f_readable := true |}.

(** The same bytes, written later. *)
Definition touched_file : file :=
  {| f_content := list_byte_of_string "application"; f_lastMod := "2.0";
     f_readable := true |}.

Definition tracked_tree : tree := {[ "bin/app" := tracked_file ]}.

Definition tracked_log : ChangeLog.data :=
  {[ "bin/app" := ChangeLog.Metadata "11" "1.0" ]}.

(** A changelog with an entry for a file that is not in the tree. *)
Definition stale_log : ChangeLog.data :=
  {[ "bin/app" := ChangeLog.Metadata "11" "1.0";
     "bin/gone" := ChangeLog.Metadata "3" "1.0" ]}.

Definition tracked_build : manifest :=
  {| compression_enabled := false;
     files := {[ "bin/app" := FileRecord "r" ["h1"] ]};
     bundles := ∅ |}.

(** What [_process_bundle] stores for a hash that is not yet in the pool:
    the slice that the bundle index gives, decompressed when compression
    is in use. *)
Definition extracted (zstd_decompress : bytes → bytes → bytes) (self : Downloader.t)
    (bundle_id : string) (bundle_data : bytes) (h : string) : option bytes :=
  info ← Downloader._get_block_info self bundle_id h;
  Some (Downloader._decompress_if_needed zstd_decompress self
          (Downloader.slice bundle_data info.1 info.2)).

(** *** Producer *)

(** The chunks that [util.extract_blocks] cuts a file into, or the
    exception of the chunker. *)
Definition chunks_of (fastcdc : N → N → N → bytes → result (list bytes))
    (block_size : N) (content : bytes) : result (list bytes) :=
  fastcdc (block_size / 2)%N block_size (block_size * 2)%N content.

(** The file can be opened and the chunker cuts it. *)
Definition scannable (fastcdc : N → N → N → bytes → result (list bytes))
    (block_size : N) (f : file) : Prop :=
  f_readable f = true ∧ ∃ chunks, chunks_of fastcdc block_size (f_content f) = Ok chunks.

(** The record that [__processFile] stores for a file cut into [chunks]:
    the digests of the chunks in order, and the digest of their
    concatenation. *)
Definition record_of (sha256 : bytes → string) (chunks : list bytes) : file_record :=
  {| fr_hash := sha256 (list_byte_of_string
                          (BlockBuilder.join_hashes (map sha256 chunks)));
     fr_blocks := map sha256 chunks |}.

(** The record of a file, when the chunker cuts it. *)
Definition record_at (sha256 : bytes → string)
    (fastcdc : N → N → N → bytes → result (list bytes)) (block_size : N) (f : file)
    : option file_record :=
  match chunks_of fastcdc block_size (f_content f) with
  | Ok chunks => Some (record_of sha256 chunks)
  | Raise _ => None
  end.

(** The records of the class dictionary after a scan: that of the file for
    a path of the tree, what the dictionary held before for any other
    path. *)
Definition records_after (sha256 : bytes → string)
    (fastcdc : N → N → N → bytes → result (list bytes)) (block_size : N)
    (before : gmap string file_record) (directory : tree) (p : string)
    : option file_record :=
  match directory !! p with
  | Some f => record_at sha256 fastcdc block_size f
  | None => before !! p
  end.

(** The payload is a chunk of a file of the tree. *)
Definition chunk_of_tree (fastcdc : N → N → N → bytes → result (list bytes))
    (block_size : N) (directory : tree) (c : bytes) : Prop :=
  ∃ p f chunks, directory !! p = Some f
                ∧ chunks_of fastcdc block_size (f_content f) = Ok chunks
                ∧ c ∈ chunks.

(** What a scan that starts from the class attributes [st0] has built when
    it returns, and the file that made it raise otherwise. *)
Definition scan_outcome (sha256 : bytes → string)
    (fastcdc : N → N → N → bytes → result (list bytes))
    (st0 : BlockBuilder.state) (r : result BlockBuilder.state) (directory : tree)
    : Prop :=
  match r with
  | Ok st =>
      BlockBuilder.blockSize st = BlockBuilder.blockSize st0
      ∧ (∀ p f, directory !! p = Some f →
                scannable fastcdc (BlockBuilder.blockSize st0) f)
      ∧ (∀ p, BlockBuilder.data st !! p
              = records_after sha256 fastcdc (BlockBuilder.blockSize st0)
                  (BlockBuilder.data st0) directory p)
      ∧ (NoDup (od.keys (BlockBuilder.blockSet st0)) →
         NoDup (od.keys (BlockBuilder.blockSet st)))
      ∧ (∀ h d, od.get h (BlockBuilder.blockSet st) = Some d →
                (h = sha256 d
                 ∧ chunk_of_tree fastcdc (BlockBuilder.blockSize st0) directory d)
                ∨ (od.get h (BlockBuilder.blockSet st0) = Some d
                   ∧ ∀ c, chunk_of_tree fastcdc (BlockBuilder.blockSize st0)
                            directory c → sha256 c ≠ h))
      ∧ (∀ c, chunk_of_tree fastcdc (BlockBuilder.blockSize st0) directory c →
              is_Some (od.get (sha256 c) (BlockBuilder.blockSet st)))
      ∧ (∀ h, is_Some (od.get h (BlockBuilder.blockSet st0)) →
              is_Some (od.get h (BlockBuilder.blockSet st)))
  | Raise e =>
      ∃ q f, directory !! q = Some f
             ∧ ((f_readable f = false ∧ e = OSError q)
                ∨ (f_readable f = true
                   ∧ chunks_of fastcdc (BlockBuilder.blockSize st0) (f_content f)
                     = Raise e))
  end.


(** A source tree with a file that the scan cannot open. *)
Definition locked_file : file :=
  {| f_content := list_byte_of_string "secret"; f_lastMod := "1.0";
     f_readable := false |}.

Definition locked_tree : tree :=
  {[ "foo.txt" := File (list_byte_of_string "hello world") "1.0" true;
     "secret.bin" := locked_file ]}.

(** The payload that a block set holds for a hash. *)
Definition payload_of (bs : list (string * bytes)) (h : string) : bytes :=
  default [] (od.get h bs).


(** Each member's [(blockOffset, length)] slice of [data] is the payload
    that the block set holds for the member's hash, and has the recorded
    length. *)
Definition laid_out (bs : list (string * bytes)) (l : list member) (data : bytes)
    : Prop :=
  ∀ m, m ∈ l →
    od.get (bm_hash m) bs
    = Some (Downloader.slice data (bm_blockOffset m) (bm_length m))
    ∧ length (Downloader.slice data (bm_blockOffset m) (bm_length m)) = bm_length m.

Definition resolves (bs : list (string * bytes)) (b : bundle) (data : bytes) : Prop :=
  laid_out bs b.*2 data.





(** A block set of two blocks. *)
Definition two_blocks : list (string * bytes) :=
  [("h1", list_byte_of_string "ab"); ("h2", list_byte_of_string "c")].


(** A working directory that holds the file of the build under the path
    that the manifest gives it, and nothing else. *)
Definition app_in_cwd : tree :=
  {[ "bin/app" := File (list_byte_of_string "abc") "1.0" true ]}.

(** *** Applier *)


(** A stand-in for [mkstemp] that returns a path that is not in the tree
    and is none of [avoid]. *)
Definition unused_temp (avoid : gset string) (fs : tree) (dest_dir : string) : string :=
  fresh (dom fs ∪ avoid).




(** A downloader for an uncompressed source with the given bundle table. *)
Definition downloader_for (loc : string) (table : gmap string bundle) : Downloader.t :=
  {| Downloader.patch_data_path := loc;
     Downloader.use_compression := false;
     Downloader.decompressor := None;
     Downloader.bundle_index := Downloader.index_of <$> table |}.

(** The bundle of the two blocks, and its file. *)
Definition ab_bundle : bundle :=
  BundleBuilder.normalize [Member "h1" 2 0; Member "h2" 1 2].

Definition ab_file : bytes := list_byte_of_string "abc".

Definition no_decompression (dict_data data : bytes) : bytes := data.

(** A local source that holds one block file. *)
Definition local_source : world :=
  {| patch_data_json := Some tracked_build;
     dictionary := None;
     session_get := λ url _, Raise (ClientError url);
     read_file := λ path, if bool_decide (path = "src/blocks/h1")
                          then Some (list_byte_of_string "application") else None;
     cwd := ∅ |}.

(** *** A whole apply *)

(** The files that [Patcher.patch] selects. *)
Definition selected_files (sha256 : bytes → string) (st : Patcher.state)
    (new_build : manifest) : list string :=
  PatchData.get_files_to_patch new_build
    (_get_local_file_hashes sha256 (Patcher.install st))
    (ChangeLog.is_valid (Patcher.install st) (default ∅ (Patcher.changelog_json st))).



(** Every block of the pool is the published payload of its hash. *)
Definition pool_sound (bs : list (string * bytes)) (pool : gmap string bytes) : Prop :=
  ∀ h d, pool !! h = Some d → od.get h bs = Some d.

(** A published build of one file of two blocks, in one bundle, and the
    local directory that holds it. *)
Definition published_build : manifest :=
  {| compression_enabled := false;
     files := {[ "bin/app" := FileRecord "r" ["h1"; "h2"] ]};
     bundles := {[ "b1" := ab_bundle ]} |}.



(** An installation that already holds the build: the record hash is the
    digest of the installed content and the changelog entry is valid. *)
Definition current_build : manifest :=
  {| compression_enabled := false;
     files := {[ "bin/app" := FileRecord "abc" ["h1"; "h2"] ]};
     bundles := {[ "b1" := ab_bundle ]} |}.

Definition current_install : Patcher.state :=
  {| Patcher.install := {[ "bin/app" := File (list_byte_of_string "abc") "1.0" true ]};
     Patcher.changelog_json := Some {[ "bin/app" := ChangeLog.Metadata "3" "1.0" ]} |}.

(** A remote source that has the manifest and nothing else. *)
Definition bare_source : world :=
  {| patch_data_json := Some current_build;
     dictionary := None;
     session_get := λ url _, Raise (ClientError url);
     read_file := λ _, None;
     cwd := ∅ |}.

(** A server that answers every request for the bundle with the whole
    file and status 200, whatever ranges are asked for. *)
Definition range_deaf_server : world :=
  {| patch_data_json := Some published_build;
     dictionary := None;
     session_get := λ url _,
       if bool_decide (url = "http://host/app/bundles/b1")
       then Ok (Response 200 "application/octet-stream" ab_file)
       else Raise (ClientError url);
     read_file := λ _, None;
     cwd := ∅ |}.

(** A working directory that holds one of the two listed paths. *)
Definition local_checkout : world :=
  {| patch_data_json := Some published_build;
     dictionary := None;
     session_get := λ url _, Raise (ClientError url);
     read_file := λ _, None;
     cwd := app_in_cwd |}.

End MoreSpec.

Import PatchDataSpec.

(** * Properties of the planner *)

Module PatchDataFacts.
Import PatchData.

Lemma analyze_loop missing_blocks (b : bundle) n acc :
  foldl (λ '(bundle_size, blocks_needed) (kv : string * member),
           let block_hash := bm_hash kv.2 in
           (bundle_size + 1,
            if bool_decide (block_hash ∈ missing_blocks)
            then blocks_needed ++ [block_hash] else blocks_needed))
        (n, acc) b
  = (n + length b, acc ++ needed_of missing_blocks b).
Proof.
  revert n acc. induction b as [|kv b IH]; intros n acc; simpl.
  - by rewrite Nat.add_0_r, app_nil_r.
  - rewrite IH. unfold needed_of. simpl. rewrite filter_cons.
    f_equal; [lia|]. case_bool_decide; case_decide; try done.
    by rewrite <- app_assoc.
Qed.

Lemma analyze_bundle_eq missing_blocks b :
  analyze_bundle missing_blocks b = Ok (info_of missing_blocks b).
Proof.
  unfold analyze_bundle. rewrite analyze_loop. simpl.
  destruct b as [|kv b]; [done|].
  simpl length. case_bool_decide; [|lia]. done.
Qed.

Lemma analyze_bundles_eq new_build missing_blocks :
  ∃ bi, _analyze_bundles new_build missing_blocks = Ok bi
        ∧ ∀ id, bi !! id = bundles new_build !! id ≫= info_of missing_blocks.
Proof.
  unfold _analyze_bundles.
  apply (map_fold_weak_ind (λ r (m : gmap string bundle),
           ∃ bi, r = Ok bi ∧ ∀ id, bi !! id = m !! id ≫= info_of missing_blocks)).
  - exists ∅. split; [done|]. intros id. by rewrite !lookup_empty.
  - intros i b m r Hi (bi & -> & Hbi). simpl. rewrite analyze_bundle_eq. simpl.
    destruct (info_of missing_blocks b) as [info|] eqn:Hinfo.
    + eexists. split; [done|]. intros id.
      destruct (decide (i = id)) as [->|Hne].
      * by rewrite !lookup_insert_eq.
      * by rewrite !lookup_insert_ne.
    + exists bi. split; [done|]. intros id.
      destruct (decide (i = id)) as [->|Hne].
      * rewrite lookup_insert_eq. simpl. rewrite Hinfo, Hbi, Hi. done.
      * by rewrite lookup_insert_ne.
Qed.

Lemma elem_of_discard_all (s : gset string) l h :
  h ∈ discard_all s l ↔ h ∈ s ∧ h ∉ l.
Proof.
  unfold discard_all. revert s. induction l as [|x l IH]; intros s; simpl.
  - set_solver.
  - rewrite IH. set_solver.
Qed.

Lemma bundles_to_download_eq (bi : gmap string bundle_info) missing_blocks :
  (∀ id, (_bundles_to_download bi missing_blocks).1 !! id = bi !! id ≫= selected)
  ∧ (∀ h, h ∈ (_bundles_to_download bi missing_blocks).2 ↔
          h ∈ missing_blocks
          ∧ ∀ id l, bi !! id ≫= selected = Some l → h ∉ l).
Proof.
  unfold _bundles_to_download.
  apply (map_fold_weak_ind (λ (r : gmap string (list string) * gset string)
                              (m : gmap string bundle_info),
           (∀ id, r.1 !! id = m !! id ≫= selected)
           ∧ (∀ h, h ∈ r.2 ↔ h ∈ missing_blocks
                    ∧ ∀ id l, m !! id ≫= selected = Some l → h ∉ l))).
  - split.
    + intros id. by rewrite !lookup_empty.
    + intros h. simpl. split; [|tauto]. intros ?. split; [done|].
      intros id l. by rewrite lookup_empty.
  - intros i info m [plan rem] Hi [Hplan Hrem]. simpl in *.
    destruct (Qle_bool (1 # 2) (percentNeeded info)) eqn:Hsel; simpl; split.
    + intros id. destruct (decide (i = id)) as [->|Hne].
      * rewrite !lookup_insert_eq. simpl. unfold selected. by rewrite Hsel.
      * by rewrite !lookup_insert_ne.
    + intros h. rewrite elem_of_discard_all, Hrem. split.
      * intros [[Hm Hall] Hnot]. split; [done|]. intros id l.
        destruct (decide (i = id)) as [->|Hne].
        -- rewrite lookup_insert_eq. simpl. unfold selected. rewrite Hsel.
           by intros [= <-].
        -- rewrite lookup_insert_ne by done. apply Hall.
      * intros [Hm Hall]. split; [split; [done|]|].
        -- intros id l Hl. apply (Hall id).
           destruct (decide (i = id)) as [->|Hne].
           ++ by rewrite Hi in Hl.
           ++ by rewrite lookup_insert_ne.
        -- apply (Hall i). rewrite lookup_insert_eq. simpl.
           unfold selected. by rewrite Hsel.
    + intros id. destruct (decide (i = id)) as [->|Hne].
      * rewrite lookup_insert_eq, Hplan, Hi. simpl. unfold selected. by rewrite Hsel.
      * by rewrite lookup_insert_ne.
    + intros h. rewrite Hrem. split; intros [Hm Hall]; (split; [done|]); intros id l.
      * destruct (decide (i = id)) as [->|Hne].
        -- rewrite lookup_insert_eq. simpl. unfold selected. by rewrite Hsel.
        -- rewrite lookup_insert_ne by done. apply Hall.
      * intros Hl. apply (Hall id).
        destruct (decide (i = id)) as [->|Hne].
        -- by rewrite Hi in Hl.
        -- by rewrite lookup_insert_ne.
Qed.

(** *** Bundle analysis is total *)

(** C10. The needed fraction of a bundle is computed only when the bundle
    has at least one member: the analysis never raises
    [ZeroDivisionError], every analysed bundle has a positive member
    count, and a bundle whose member map is empty is neither analysed nor
    placed in the fetch plan. *)
Theorem analyze_bundles_division_guarded new_build (missing_blocks : gset string) :
  ∃ bi plan rem,
    _analyze_bundles new_build missing_blocks = Ok bi
    ∧ find_bundles_and_blocks_to_fetch new_build missing_blocks = Ok (plan, rem)
    ∧ (∀ id info, bi !! id = Some info →
         ∃ b, bundles new_build !! id = Some b ∧ 0 < length b
              ∧ truediv (length (blocksNeeded info)) (length b)
                = Ok (percentNeeded info))
    ∧ (∀ id, bundles new_build !! id = Some ([] : bundle) →
         bi !! id = None ∧ plan !! id = None).
Proof.
  destruct (analyze_bundles_eq new_build missing_blocks) as (bi & Hbi & Hlook).
  destruct (_bundles_to_download bi missing_blocks) as [plan rem] eqn:Hdl.
  pose proof (bundles_to_download_eq bi missing_blocks) as [Hplan _].
  rewrite Hdl in Hplan. simpl in Hplan.
  exists bi, plan, rem. split; [done|]. split; [|split].
  - unfold find_bundles_and_blocks_to_fetch. rewrite Hbi. simpl. by rewrite Hdl.
  - intros id info Hinfo. rewrite Hlook in Hinfo.
    destruct (bundles new_build !! id) as [b|]; [|done]. simpl in Hinfo.
    exists b. split; [done|]. destruct b as [|kv b]; [done|].
    injection Hinfo as <-. split; [simpl; lia|]. done.
  - intros id Hid. split; [by rewrite Hlook, Hid|by rewrite Hplan, Hlook, Hid].
Qed.

(** *** The threshold policy *)

Lemma selected_info_of missing_blocks (b : bundle) :
  b ≠ [] →
  info_of missing_blocks b ≫= selected
  = if Qle_bool (1 # 2) (fraction_needed missing_blocks b)
    then Some (needed_of missing_blocks b) else None.
Proof. destruct b; [done|]. intros _. reflexivity. Qed.

Lemma selected_needed missing_blocks (b : bundle) l :
  info_of missing_blocks b ≫= selected = Some l → l = needed_of missing_blocks b.
Proof.
  destruct b as [|kv b]; [done|]. simpl. unfold selected. simpl.
  case_match; [|done]. by intros [= <-].
Qed.

Lemma needed_of_spec missing_blocks b h :
  h ∈ needed_of missing_blocks b ↔ h ∈ bundle_hashes b ∧ h ∈ missing_blocks.
Proof. unfold needed_of. rewrite list_elem_of_filter. tauto. Qed.

(** Whether some selected bundle lists [h] is decidable. *)
Lemma classic_selected new_build (missing_blocks : gset string) h :
  (∃ id l, (bundles new_build !! id ≫= info_of missing_blocks) ≫= selected = Some l
           ∧ h ∈ l)
  ∨ ¬ (∃ id l, (bundles new_build !! id ≫= info_of missing_blocks) ≫= selected = Some l
               ∧ h ∈ l).
Proof.
  induction (bundles new_build) as [|i b m Hi IH] using map_ind.
  - right. intros (id & l & Hl & _). by rewrite lookup_empty in Hl.
  - destruct IH as [(id & l & Hl & Hin)|Hno].
    + left. exists id, l. split; [|done].
      destruct (decide (i = id)) as [->|Hne]; [by rewrite Hi in Hl|].
      by rewrite lookup_insert_ne.
    + destruct (info_of missing_blocks b ≫= selected) as [l|] eqn:Hsel.
      * destruct (decide (h ∈ l)) as [Hin|Hnin].
        -- left. exists i, l. by rewrite lookup_insert_eq.
        -- right. intros (id & l' & Hl & Hin).
           destruct (decide (i = id)) as [->|Hne].
           ++ rewrite lookup_insert_eq in Hl. simpl in Hl. congruence.
           ++ rewrite lookup_insert_ne in Hl by done. apply Hno. by exists id, l'.
      * right. intros (id & l' & Hl & Hin).
        destruct (decide (i = id)) as [->|Hne].
        -- rewrite lookup_insert_eq in Hl. simpl in Hl. congruence.
        -- rewrite lookup_insert_ne in Hl by done. apply Hno. by exists id, l'.
Qed.

(** The parts of the policy that hold for every manifest. *)
Lemma planner_plan_and_cover new_build (missing_blocks : gset string) :
  ∃ plan rem,
    find_bundles_and_blocks_to_fetch new_build missing_blocks = Ok (plan, rem)
    ∧ (∀ id, plan !! id
             = (bundles new_build !! id ≫= info_of missing_blocks) ≫= selected)
    ∧ (∀ h, h ∈ rem ↔
            h ∈ missing_blocks
            ∧ ∀ id l, (bundles new_build !! id ≫= info_of missing_blocks) ≫= selected
                      = Some l → h ∉ l).
Proof.
  destruct (analyze_bundles_eq new_build missing_blocks) as (bi & Hbi & Hlook).
  destruct (_bundles_to_download bi missing_blocks) as [plan rem] eqn:Hdl.
  pose proof (bundles_to_download_eq bi missing_blocks) as [Hplan Hrem].
  rewrite Hdl in Hplan, Hrem. simpl in Hplan, Hrem.
  exists plan, rem. split; [|split].
  - unfold find_bundles_and_blocks_to_fetch. rewrite Hbi. simpl. by rewrite Hdl.
  - intros id. by rewrite Hplan, Hlook.
  - intros h. rewrite Hrem. split; intros [Hm Hall]; (split; [done|]); intros id l.
    + rewrite <- Hlook. apply Hall.
    + rewrite Hlook. apply Hall.
Qed.

(** C2 (amended). In a manifest where no block hash is a member of two
    bundles: a non-empty bundle whose needed fraction is at least 1/2 is in
    the plan with exactly its needed member hashes, none of which is left
    in the residual set; any other non-empty bundle is not in the plan and
    all its needed members are in the residual set; and the needed lists
    of the plan together with the residual set cover exactly the missing
    set. *)
Theorem planner_threshold_policy new_build (missing_blocks : gset string) :
  bundles_disjoint new_build →
  ∃ plan rem,
    find_bundles_and_blocks_to_fetch new_build missing_blocks = Ok (plan, rem)
    ∧ threshold_policy new_build missing_blocks plan rem.
Proof.
  intros Hdisj.
  destruct (planner_plan_and_cover new_build missing_blocks)
    as (plan & rem & Hfind & Hplan & Hrem).
  exists plan, rem. split; [done|]. split.
  - intros id b Hb Hne. split.
    + intros Hle. apply Qle_bool_iff in Hle. split.
      * rewrite Hplan, Hb. simpl. rewrite selected_info_of by done. by rewrite Hle.
      * intros h Hh Hin. apply Hrem in Hin as [_ Hall].
        apply (Hall id (needed_of missing_blocks b)); [|done].
        rewrite Hb. simpl. rewrite selected_info_of by done. by rewrite Hle.
    + intros Hnle.
      assert (Qle_bool (1 # 2) (fraction_needed missing_blocks b) = false) as Hf.
      { destruct (Qle_bool _ _) eqn:E; [|done]. by apply Qle_bool_iff in E. }
      split.
      * rewrite Hplan, Hb. simpl. rewrite selected_info_of by done. by rewrite Hf.
      * intros h Hh. apply Hrem. apply needed_of_spec in Hh as [Hhb Hhm].
        split; [done|]. intros id' l Hl Hin.
        destruct (bundles new_build !! id') as [b'|] eqn:Hb'; [|done].
        simpl in Hl. pose proof (selected_needed _ _ _ Hl) as ->.
        apply needed_of_spec in Hin as [Hin _].
        assert (id = id') as <- by (by eapply Hdisj).
        rewrite Hb in Hb'. injection Hb' as <-.
        rewrite selected_info_of, Hf in Hl by done. done.
  - intros h. split.
    + intros Hm.
      destruct (decide (h ∈ rem)) as [|Hnot]; [by left|]. right.
      destruct (classic_selected new_build missing_blocks h) as [(id & l & Hl & Hin)|Hnone].
      * exists id, l. by rewrite Hplan.
      * exfalso. apply Hnot. apply Hrem. split; [done|]. intros id l Hl Hin.
        apply Hnone. by exists id, l.
    + intros [Hin|(id & l & Hl & Hin)].
      * by apply Hrem in Hin as [? _].
      * rewrite Hplan in Hl.
        destruct (bundles new_build !! id) as [b|]; [|done]. simpl in Hl.
        apply selected_needed in Hl as ->. by apply needed_of_spec in Hin as [_ ?].
Qed.

Lemma planner_threshold_policy_witness :
  bundles_disjoint s4_build
  ∧ ∃ plan rem,
      find_bundles_and_blocks_to_fetch s4_build {[ "x" ]} = Ok (plan, rem)
      ∧ threshold_policy s4_build {[ "x" ]} plan rem.
Proof.
  assert (bundles_disjoint s4_build) as Hd.
  { intros id1 id2 b1 b2 h H1 H2 _ _. simpl in H1, H2.
    apply lookup_singleton_Some in H1 as [<- _].
    by apply lookup_singleton_Some in H2 as [<- _]. }
  split; [exact Hd|]. exact (planner_threshold_policy s4_build {[ "x" ]} Hd).
Defined.

(** C2 as stated fails when a hash is a member of two bundles: bundle [A]
    needs one member of three and is not selected, but its needed member
    [x] is removed from the residual set because bundle [B] is selected. *)
Lemma planner_threshold_policy_overlap_counterexample :
  ¬ ∃ plan rem,
      find_bundles_and_blocks_to_fetch overlapping_build {[ "x" ]} = Ok (plan, rem)
      ∧ threshold_policy overlapping_build {[ "x" ]} plan rem.
Proof.
  intros (plan & rem & Hfind & Hpol & _).
  destruct (planner_plan_and_cover overlapping_build {[ "x" ]})
    as (plan' & rem' & Hfind' & _ & Hrem).
  rewrite Hfind in Hfind'. injection Hfind' as <- <-.
  destruct (Hpol "A" [("0", Member "x" 1 0); ("1", Member "y" 1 1);
                      ("2", Member "z" 1 2)]) as [_ Hlow]; [done..|].
  destruct Hlow as [_ Hin].
  { intros Hle. vm_compute in Hle. by apply Hle. }
  specialize (Hin "x"). apply Hrem in Hin as [_ Hall].
  - apply (Hall "B" ["x"]); [reflexivity|]. apply list_elem_of_here.
  - apply needed_of_spec. split; [apply list_elem_of_here|set_solver].
Qed.

End PatchDataFacts.

(** * Which files are patched *)

Section FilesToPatch.
Import PatchData.

Variable sha256 : bytes → string.

Lemma get_local_file_hashes_lookup (fs : tree) p :
  _get_local_file_hashes sha256 fs !! p
  = f ← fs !! p; if f_readable f then Some (_hash_file sha256 f) else None.
Proof.
  unfold _get_local_file_hashes.
  apply (map_fold_weak_ind (λ (r : gmap string string) (m : tree),
           r !! p = f ← m !! p; if f_readable f then Some (_hash_file sha256 f) else None)).
  - by rewrite !lookup_empty.
  - intros i f m r Hi IH. destruct (decide (i = p)) as [->|Hne].
    + rewrite lookup_insert_eq. simpl. destruct (f_readable f).
      * by rewrite lookup_insert_eq.
      * by rewrite IH, Hi.
    + rewrite (lookup_insert_ne m) by done. destruct (f_readable f); [|done].
      by rewrite lookup_insert_ne.
Qed.

Lemma get_files_to_patch_elem new_build (local_files : gmap string string)
    change_log filename :
  filename ∈ get_files_to_patch new_build local_files change_log
  ↔ ∃ rec, files new_build !! filename = Some rec
           ∧ (local_files !! filename = None
              ∨ Some (fr_hash rec) ≠ local_files !! filename
              ∨ change_log filename = false).
Proof.
  unfold get_files_to_patch.
  apply (map_fold_weak_ind (λ (r : list string) (m : gmap string file_record),
           filename ∈ r
           ↔ ∃ rec, m !! filename = Some rec
                    ∧ (local_files !! filename = None
                       ∨ Some (fr_hash rec) ≠ local_files !! filename
                       ∨ change_log filename = false))).
  - split; [by intros ?%elem_of_nil|]. intros (rec & Hrec & _).
    by rewrite lookup_empty in Hrec.
  - intros i rec m r Hi IH.
    assert ((bool_decide (local_files !! i = None)
             || negb (bool_decide (Some (fr_hash rec) = local_files !! i))
             || negb (change_log i)) = true
            ↔ (local_files !! i = None
               ∨ Some (fr_hash rec) ≠ local_files !! i
               ∨ change_log i = false)) as Hcond.
    { rewrite !orb_true_iff, !negb_true_iff, bool_decide_eq_true,
        bool_decide_eq_false. tauto. }
    destruct (bool_decide (local_files !! i = None)
             || negb (bool_decide (Some (fr_hash rec) = local_files !! i))
             || negb (change_log i)) eqn:Hc.
    + rewrite elem_of_app, list_elem_of_singleton, IH. split.
      * intros [(rec' & Hrec' & Hcase)| ->].
        -- exists rec'. split; [|done].
           rewrite lookup_insert_ne; [done|]. intros ->. congruence.
        -- exists rec. rewrite lookup_insert_eq. split; [done|]. by apply Hcond.
      * intros (rec' & Hrec' & Hcase).
        destruct (decide (i = filename)) as [->|Hne]; [by right|]. left.
        rewrite lookup_insert_ne in Hrec' by done. by exists rec'.
    + rewrite IH. split.
      * intros (rec' & Hrec' & Hcase). exists rec'. split; [|done].
        rewrite lookup_insert_ne; [done|]. intros ->. congruence.
      * intros (rec' & Hrec' & Hcase).
        destruct (decide (i = filename)) as [->|Hne].
        -- rewrite lookup_insert_eq in Hrec'. injection Hrec' as <-.
           apply Hcond in Hcase. congruence.
        -- rewrite lookup_insert_ne in Hrec' by done. by exists rec'.
Qed.

Lemma is_valid_iff fs log filename :
  ChangeLog.is_valid fs log filename = true ↔ changelog_entry_valid fs log filename.
Proof.
  unfold ChangeLog.is_valid, changelog_entry_valid.
  destruct (fs !! filename) as [f|]; [|split; [done|by intros (? & ? & ? & _)]].
  destruct (log !! filename) as [e|]; [|split; [done|by intros (? & ? & ? & ? & _)]].
  simpl. rewrite andb_true_iff, !bool_decide_eq_true. split.
  - intros [? ?]. by exists f, e.
  - intros (f' & e' & [= <-] & [= <-] & ? & ?). done.
Qed.

(** C1. A file of the manifest is selected for patching exactly when it is
    not present in the local install tree, or its file-record hash differs
    from the hash derived from the installed file, or its changelog entry
    is invalid (missing, or size or modification time changed); no other
    path is selected. In particular a present file with a matching derived
    hash and a valid changelog entry is not selected. *)
Theorem files_to_patch_iff (fs : tree) (log : ChangeLog.data) new_build filename :
  filename ∈ get_files_to_patch new_build (_get_local_file_hashes sha256 fs)
                                (ChangeLog.is_valid fs log)
  ↔ ∃ rec, files new_build !! filename = Some rec
           ∧ (¬ present_locally fs filename
              ∨ (∃ f, fs !! filename = Some f ∧ f_readable f = true
                      ∧ fr_hash rec ≠ _hash_file sha256 f)
              ∨ ¬ changelog_entry_valid fs log filename).
Proof.
  rewrite get_files_to_patch_elem. rewrite get_local_file_hashes_lookup.
  unfold present_locally.
  split; intros (rec & Hrec & Hcase); exists rec; (split; [done|]).
  - destruct Hcase as [Hnone|[Hdiff|Hinv]].
    + left. intros (f & Hf & Hr). rewrite Hf in Hnone. simpl in Hnone.
      by rewrite Hr in Hnone.
    + destruct (fs !! filename) as [f|] eqn:Hf.
      * simpl in Hdiff. destruct (f_readable f) eqn:Hr.
        -- right; left. exists f. repeat split; [done|]. congruence.
        -- left. intros (f' & [= <-] & Hr'). congruence.
      * left. by intros (f' & ? & _).
    + right; right. rewrite <- is_valid_iff. by rewrite Hinv.
  - destruct Hcase as [Hnot|[(f & Hf & Hr & Hdiff)|Hinv]].
    + left. destruct (fs !! filename) as [f|]; [|done]. simpl.
      destruct (f_readable f) eqn:Hr; [|done]. exfalso. apply Hnot. by exists f.
    + right; left. rewrite Hf. simpl. rewrite Hr. congruence.
    + right; right. rewrite <- is_valid_iff in Hinv.
      by destruct (ChangeLog.is_valid fs log filename).
Qed.

End FilesToPatch.

Import ProducerSpec.

(** * Ordered dictionaries *)

Module od_facts.
Section od_facts.
Context {V : Type}.
Implicit Types (d : list (string * V)) (k : string) (v : V).

Lemma get_is_Some k d : is_Some (od.get k d) ↔ k ∈ od.keys d.
Proof.
  unfold od.keys. induction d as [|[k' v'] d IH]; simpl.
  - split; [by intros [? ?]|by intros ?%elem_of_nil].
  - rewrite elem_of_cons. case_decide as Hk; simpl.
    + split; [by left|by eexists].
    + rewrite IH. naive_solver.
Qed.

Lemma get_None k d : od.get k d = None ↔ k ∉ od.keys d.
Proof. rewrite <- get_is_Some, eq_None_not_Some. done. Qed.

Lemma keys_set k v d :
  od.keys (od.set k v d)
  = if decide (k ∈ od.keys d) then od.keys d else od.keys d ++ [k].
Proof.
  unfold od.keys. induction d as [|[k' v'] d IH].
  - cbn [od.set fmap list_fmap]. by rewrite decide_False by apply not_elem_of_nil.
  - cbn [od.set]. destruct (decide (k = k')) as [->|Hne].
    + rewrite !fmap_cons. cbn [fst].
      by rewrite decide_True by apply list_elem_of_here.
    + rewrite !fmap_cons. cbn [fst]. rewrite IH.
      destruct (decide (k ∈ d.*1)) as [Hin|Hnin].
      * by rewrite decide_True by (by apply list_elem_of_further).
      * rewrite decide_False; [done|]. by intros [?|?]%elem_of_cons.
Qed.

Lemma elem_of_keys_set k k' v d :
  k' ∈ od.keys (od.set k v d) ↔ k' = k ∨ k' ∈ od.keys d.
Proof.
  rewrite keys_set. case_decide as Hin.
  - naive_solver.
  - rewrite elem_of_app, list_elem_of_singleton. tauto.
Qed.

Lemma NoDup_keys_set k v d : NoDup (od.keys d) → NoDup (od.keys (od.set k v d)).
Proof.
  intros Hnd. rewrite keys_set. case_decide as Hin; [done|].
  apply NoDup_app. split; [done|]. split; [|apply NoDup_singleton].
  intros x Hx ->%list_elem_of_singleton. done.
Qed.

Lemma keys_del k d : od.keys (od.del k d) = filter (λ k', k' ≠ k) (od.keys d).
Proof.
  unfold od.keys, od.del. induction d as [|[k' v'] d IH]; [done|].
  rewrite fmap_cons, !filter_cons. cbn [fst].
  destruct (decide (k' ≠ k)); [rewrite fmap_cons|]; by rewrite IH.
Qed.

Lemma NoDup_keys_del k d : NoDup (od.keys d) → NoDup (od.keys (od.del k d)).
Proof. rewrite keys_del. apply NoDup_filter. Qed.

Lemma keys_del_perm k d :
  NoDup (od.keys d) → k ∈ od.keys d → od.keys d ≡ₚ k :: od.keys (od.del k d).
Proof.
  rewrite keys_del. generalize (od.keys d). clear d.
  intros l. induction l as [|x l IH]; intros Hnd Hin.
  - by apply elem_of_nil in Hin.
  - apply NoDup_cons in Hnd as [Hx Hnd]. rewrite filter_cons.
    apply elem_of_cons in Hin as [->|Hin].
    + rewrite decide_False by (by intros ?). f_equiv.
      clear IH Hnd. induction l as [|y l IH]; [done|].
      rewrite filter_cons. rewrite not_elem_of_cons in Hx. destruct Hx as [? ?].
      rewrite decide_True by done. f_equiv. by apply IH.
    + rewrite decide_True by (intros ->; done).
      rewrite (IH Hnd Hin) at 1. apply Permutation_swap.
Qed.

Lemma elem_of_keys_del k k' d : k' ∈ od.keys (od.del k d) ↔ k' ∈ od.keys d ∧ k' ≠ k.
Proof. rewrite keys_del, list_elem_of_filter. tauto. Qed.

Lemma get_del k k' d :
  od.get k' (od.del k d) = if decide (k' = k) then None else od.get k' d.
Proof.
  unfold od.del. induction d as [|[k0 v0] d IH].
  - by case_decide.
  - rewrite filter_cons. cbn [fst od.get].
    destruct (decide (k0 ≠ k)) as [Hne|Heq%dec_stable].
    + cbn [od.get]. rewrite IH. repeat case_decide; congruence.
    + subst k0. rewrite IH. repeat case_decide; congruence.
Qed.

Lemma keys_map (f : string → V → V) d :
  od.keys (map (λ '(k, v), (k, f k v)) d) = od.keys d.
Proof.
  unfold od.keys. induction d as [|[k v] d IH]; [done|]. simpl. f_equal. apply IH.
Qed.
End od_facts.
End od_facts.

(** * The bundler *)

Module BundleBuilderFacts.
Import BundleBuilder.

Lemma emitted_hashes_snoc ws id l :
  emitted_hashes (ws ++ [(id, l)]) = emitted_hashes ws ++ hashes_of l.
Proof.
  unfold emitted_hashes. rewrite map_app, concat_app. simpl. by rewrite app_nil_r.
Qed.

Lemma emitted_hashes_app ws ws' :
  emitted_hashes (ws ++ ws') = emitted_hashes ws ++ emitted_hashes ws'.
Proof. unfold emitted_hashes. by rewrite map_app, concat_app. Qed.

Lemma rebuild_ext bs bs' offset hs :
  (∀ h, h ∈ hs → od.get h bs' = od.get h bs) →
  rebuild bs' offset hs = rebuild bs offset hs.
Proof.
  revert offset. induction hs as [|h hs IH]; intros offset Hext; [done|].
  simpl. rewrite Hext by apply list_elem_of_here.
  destruct (od.get h bs); [|done]. f_equal. apply IH.
  intros h' Hh'. apply Hext. by apply list_elem_of_further.
Qed.

Lemma hashes_of_rebuild bs offset hs :
  (∀ h, h ∈ hs → h ∈ od.keys bs) → hashes_of (rebuild bs offset hs) = hs.
Proof.
  revert offset. induction hs as [|h hs IH]; intros offset Hin; [done|].
  simpl. destruct (od.get h bs) as [r|] eqn:Hget.
  - simpl. f_equal. apply IH. intros h' Hh'. apply Hin. by apply list_elem_of_further.
  - apply od_facts.get_None in Hget. destruct Hget. apply Hin, list_elem_of_here.
Qed.

Section Facts.
Variable sha256 : bytes → string.

Lemma canMakeBundle_true st (b : bundle) :
  canMakeBundle st b = true ↔ ∀ h, h ∈ bundle_hashes b → h ∈ od.keys (blockSet st).
Proof.
  unfold canMakeBundle, bundle_hashes. rewrite forallb_forall. split.
  - intros Hall h Hh. apply list_elem_of_In, in_map_iff in Hh as (kv & <- & Hkv).
    apply Hall in Hkv. apply bool_decide_eq_true in Hkv.
    by apply od_facts.get_is_Some.
  - intros Hall kv Hkv. apply bool_decide_eq_true, od_facts.get_is_Some, Hall.
    apply list_elem_of_In, in_map_iff. by exists kv.
Qed.

Lemma makeBundle_loop (b : bundle) bs bl bd len :
  NoDup (od.keys bs) → NoDup (bundle_hashes b) →
  (∀ h, h ∈ bundle_hashes b → h ∈ od.keys bs) →
  ∃ bs' bd' len',
    foldl makeBundle_step (Ok (bs, bl, bd, len)) b
    = Ok (bs', bl ++ rebuild bs len (bundle_hashes b), bd', len')
    ∧ NoDup (od.keys bs')
    ∧ od.keys bs ≡ₚ bundle_hashes b ++ od.keys bs'
    ∧ (∀ h, h ∉ bundle_hashes b → od.get h bs' = od.get h bs).
Proof.
  revert bs bl bd len. induction b as [|kv b IH]; intros bs bl bd len Hnd Hndb Hin.
  - exists bs, bd, len. simpl. by rewrite app_nil_r.
  - simpl in Hndb. apply NoDup_cons in Hndb as [Hkv Hndb].
    assert (bm_hash kv.2 ∈ od.keys bs) as Hhere by apply Hin, list_elem_of_here.
    pose proof Hhere as Hsome. apply od_facts.get_is_Some in Hsome as [r Hr].
    cbn [foldl]. unfold makeBundle_step at 2. cbn [rbind]. rewrite Hr.
    destruct (IH (od.del (bm_hash kv.2) bs)
                 (bl ++ [Member (bm_hash kv.2) (length r) len])
                 (bd ++ [r]) (len + length r))
      as (bs' & bd' & len' & Hfold & Hnd' & Hperm & Hget).
    { by apply od_facts.NoDup_keys_del. }
    { done. }
    { intros h Hh. apply od_facts.elem_of_keys_del. split.
      - apply Hin. by apply list_elem_of_further.
      - intros ->. done. }
    exists bs', bd', len'. split; [|split; [done|split]].
    + rewrite Hfold. f_equal. f_equal. f_equal. f_equal.
      rewrite <- app_assoc. f_equal. simpl. rewrite Hr. f_equal.
      apply rebuild_ext. intros h Hh. rewrite od_facts.get_del.
      case_decide as Heq; [|done]. subst h. done.
    + rewrite (od_facts.keys_del_perm (bm_hash kv.2) bs Hnd Hhere).
      simpl. by f_equiv.
    + intros h Hh. simpl in Hh. apply not_elem_of_cons in Hh as [Hne Hh].
      rewrite (Hget h Hh), od_facts.get_del. by case_decide.
Qed.

Lemma makeBundle_ok st (b : bundle) :
  NoDup (od.keys (blockSet st)) → NoDup (bundle_hashes b) →
  canMakeBundle st b = true →
  ∃ st',
    makeBundle sha256 st b = Ok st'
    ∧ data st' = data st ++ [(getBundleId sha256 (rebuild (blockSet st) 0 (bundle_hashes b)),
                              rebuild (blockSet st) 0 (bundle_hashes b))]
    ∧ NoDup (od.keys (blockSet st'))
    ∧ od.keys (blockSet st) ≡ₚ bundle_hashes b ++ od.keys (blockSet st')
    ∧ (∀ h, h ∉ bundle_hashes b → od.get h (blockSet st') = od.get h (blockSet st)).
Proof.
  intros Hnd Hndb Hcan.
  pose proof (proj1 (canMakeBundle_true st b) Hcan) as Hin.
  destruct (makeBundle_loop b (blockSet st) [] [] 0 Hnd Hndb Hin)
    as (bs' & bd' & len' & Hfold & Hnd' & Hperm & Hget).
  unfold makeBundle. rewrite Hfold. cbn [rbind app].
  eexists. split; [done|]. done.
Qed.

(** What the first loop maintains. *)
Lemma reuse_old_bundles_ok (olds : list (string * bundle)) st :
  NoDup (od.keys (blockSet st)) →
  Forall (λ o, NoDup (bundle_hashes o.2)) olds →
  ∃ st',
    reuse_old_bundles sha256 st olds = Ok st'
    ∧ NoDup (od.keys (blockSet st'))
    ∧ emitted_hashes (data st') ++ od.keys (blockSet st')
      ≡ₚ emitted_hashes (data st) ++ od.keys (blockSet st)
    ∧ (∃ new, data st' = data st ++ new)
    ∧ (∀ h, h ∉ concat (map (λ o, bundle_hashes o.2) olds) →
            od.get h (blockSet st') = od.get h (blockSet st)).
Proof.
  unfold reuse_old_bundles. revert st.
  induction olds as [|o olds IH]; intros st Hnd Hall.
  - exists st. simpl. repeat split; try done. exists []. by rewrite app_nil_r.
  - apply Forall_cons in Hall as [Ho Hall]. cbn [foldl].
    unfold reuse_step at 2. cbn [rbind].
    destruct (canMakeBundle st o.2) eqn:Hcan.
    + destruct (makeBundle_ok st o.2 Hnd Ho Hcan)
        as (st1 & Hmk & Hdata & Hnd1 & Hperm & Hget).
      rewrite Hmk.
      destruct (IH st1 Hnd1 Hall) as (st' & Hrun & Hnd' & Hperm' & [new Hnew] & Hget').
      exists st'. split; [done|]. split; [done|]. split; [|split].
      * rewrite Hperm', Hdata, emitted_hashes_snoc, Hperm.
        rewrite hashes_of_rebuild by (by apply canMakeBundle_true).
        by rewrite <- app_assoc.
      * eexists. rewrite Hnew, Hdata, <- app_assoc. done.
      * intros h Hh. simpl in Hh. apply not_elem_of_app in Hh as [Hh1 Hh2].
        by rewrite Hget', Hget.
    + destruct (IH st Hnd Hall) as (st' & Hrun & Hnd' & Hperm' & Hnew & Hget').
      exists st'. repeat split; try done.
      intros h Hh. simpl in Hh. apply not_elem_of_app in Hh as [Hh1 Hh2].
      by apply Hget'.
Qed.

Lemma pack_loop entries st bl bd n len :
  ∃ st' bl' bd' n' len',
    foldl (pack_step sha256) (st, bl, bd, n, len) entries = (st', bl', bd', n', len')
    ∧ blockSet st' = blockSet st
    ∧ (∃ new, data st' = data st ++ new)
    ∧ emitted_hashes (data st') ++ hashes_of bl'
      = emitted_hashes (data st) ++ hashes_of bl ++ od.keys entries.
Proof.
  revert st bl bd n len.
  induction entries as [|[block r] entries IH]; intros st bl bd n len.
  - exists st, bl, bd, n, len. simpl. repeat split; try done.
    + exists []. by rewrite app_nil_r.
    + by rewrite app_nil_r.
  - cbn [foldl]. unfold pack_step at 2. case_bool_decide as H59.
    + destruct (IH (createBundle sha256 st (bl ++ [Member block (length r) len])
                      (concat (bd ++ [r]))) [] [] 0 0)
        as (st' & bl' & bd' & n' & len' & Hfold & Hbs & [new Hnew] & Hem).
      exists st', bl', bd', n', len'. split; [done|]. split; [done|]. split.
      * eexists. rewrite Hnew. simpl. rewrite <- app_assoc. done.
      * rewrite Hem. simpl. rewrite emitted_hashes_snoc.
        unfold hashes_of. rewrite map_app. simpl. by rewrite <- !app_assoc.
    + destruct (IH st (bl ++ [Member block (length r) len]) (bd ++ [r])
                   (n + 1) (len + length r))
        as (st' & bl' & bd' & n' & len' & Hfold & Hbs & Hnew & Hem).
      exists st', bl', bd', n', len'. repeat split; try done.
      rewrite Hem. unfold hashes_of. rewrite map_app. simpl.
      by rewrite <- !app_assoc.
Qed.

Lemma bundle_remaining_ok st :
  blockSet (bundle_remaining sha256 st) = blockSet st
  ∧ (∃ new, data (bundle_remaining sha256 st) = data st ++ new)
  ∧ emitted_hashes (data (bundle_remaining sha256 st))
    = emitted_hashes (data st) ++ od.keys (blockSet st).
Proof.
  unfold bundle_remaining.
  destruct (pack_loop (blockSet st) st [] [] 0 0)
    as (st' & bl' & bd' & n' & len' & Hfold & Hbs & [new Hnew] & Hem).
  rewrite Hfold. simpl in Hem. case_bool_decide as Hlen.
  - simpl. split; [done|]. split.
    + eexists. rewrite Hnew, <- app_assoc. done.
    + by rewrite emitted_hashes_snoc.
  - split; [done|]. split; [by exists new|].
    destruct bl'; [|simpl in Hlen; lia]. simpl in Hem.
    by rewrite app_nil_r in Hem.
Qed.

Lemma buildBundles_ok bs0 (olds : list (string * bundle)) :
  NoDup (od.keys bs0) →
  Forall (λ o, NoDup (bundle_hashes o.2)) olds →
  ∃ st1 st',
    reuse_old_bundles sha256 (init bs0) olds = Ok st1
    ∧ buildBundles sha256 (init bs0) olds
      = Ok (st', normalize <$> data_table (data st'))
    ∧ (∃ new, data st' = data st1 ++ new)
    ∧ emitted_hashes (data st') ≡ₚ od.keys bs0.
Proof.
  intros Hnd Hall.
  destruct (reuse_old_bundles_ok olds (init bs0) Hnd Hall)
    as (st1 & Hrun & Hnd1 & Hperm & _ & _).
  destruct (bundle_remaining_ok st1) as (Hbs & Hnew & Hem).
  exists st1, (cleanup (bundle_remaining sha256 st1)).
  unfold buildBundles. rewrite Hrun. cbn [rbind]. split; [done|]. split; [done|].
  split; [done|]. simpl. rewrite Hem, Hperm. done.
Qed.

(** *** Reuse of one prior bundle *)

Lemma rebuild_exact bs offset (l : list member) :
  offsets_from offset l →
  (∀ m, m ∈ l → ∃ r, od.get (bm_hash m) bs = Some r ∧ length r = bm_length m) →
  rebuild bs offset (hashes_of l) = l.
Proof.
  revert offset. induction l as [|m l IH]; intros offset Hoff Hlen; [done|].
  destruct Hoff as [Hm Hoff]. simpl.
  destruct (Hlen m) as (r & -> & Hr); [apply list_elem_of_here|].
  rewrite Hr. f_equal.
  - destruct m; simpl in *; congruence.
  - apply IH; [done|]. intros m' Hm'. apply Hlen. by apply list_elem_of_further.
Qed.

Lemma bundle_hashes_members (b : bundle) : bundle_hashes b = hashes_of b.*2.
Proof. unfold bundle_hashes, hashes_of. induction b as [|kv b IH]; [done|]. simpl. by f_equal. Qed.

Lemma reuse_contains (pre post : list (string * bundle)) (o : string * bundle) st :
  NoDup (od.keys (blockSet st)) →
  NoDup (concat (map (λ o, bundle_hashes o.2) (pre ++ o :: post))) →
  (∀ h, h ∈ bundle_hashes o.2 → h ∈ od.keys (blockSet st)) →
  ∃ st',
    reuse_old_bundles sha256 st (pre ++ o :: post) = Ok st'
    ∧ (getBundleId sha256 (rebuild (blockSet st) 0 (bundle_hashes o.2)),
       rebuild (blockSet st) 0 (bundle_hashes o.2)) ∈ data st'.
Proof.
  intros Hnd Hpart Hin.
  rewrite map_app, concat_app in Hpart. simpl in Hpart.
  apply NoDup_app in Hpart as (Hpre & Hdisj & Hrest).
  apply NoDup_app in Hrest as (Ho & _ & Hpost).
  assert (Forall (λ o, NoDup (bundle_hashes o.2)) pre) as Hpre'.
  { clear -Hpre. induction pre as [|x pre IH]; [done|].
    simpl in Hpre. apply NoDup_app in Hpre as (? & _ & ?). constructor; auto. }
  assert (Forall (λ o, NoDup (bundle_hashes o.2)) post) as Hpost'.
  { clear -Hpost. induction post as [|x post IH]; [done|].
    simpl in Hpost. apply NoDup_app in Hpost as (? & _ & ?). constructor; auto. }
  destruct (reuse_old_bundles_ok pre st Hnd Hpre')
    as (st1 & Hrun1 & Hnd1 & _ & _ & Hget1).
  assert (∀ h, h ∈ bundle_hashes o.2 → od.get h (blockSet st1) = od.get h (blockSet st))
    as Hsame.
  { intros h Hh. apply Hget1. intros Hhp. apply (Hdisj h Hhp).
    apply elem_of_app. by left. }
  assert (canMakeBundle st1 o.2 = true) as Hcan.
  { apply canMakeBundle_true. intros h Hh. apply od_facts.get_is_Some.
    rewrite (Hsame h Hh). by apply od_facts.get_is_Some, Hin. }
  destruct (makeBundle_ok st1 o.2 Hnd1 Ho Hcan) as (st2 & Hmk & Hdata & Hnd2 & _ & _).
  destruct (reuse_old_bundles_ok post st2 Hnd2 Hpost')
    as (st' & Hrun' & _ & _ & [new Hnew] & _).
  exists st'. split.
  - unfold reuse_old_bundles in *. rewrite foldl_app, Hrun1. cbn [foldl].
    unfold reuse_step at 2. cbn [rbind]. by rewrite Hcan, Hmk.
  - rewrite Hnew, Hdata, (rebuild_ext (blockSet st) (blockSet st1)) by done.
    apply elem_of_app. left. apply elem_of_app. right. apply list_elem_of_here.
Qed.

(** *** The bundle table *)

Lemma data_table_snoc ws id (l : list member) :
  data_table (ws ++ [(id, l)]) = <[id := l]> (data_table ws).
Proof. unfold data_table. by rewrite foldl_app. Qed.

Lemma data_table_lookup ws id (l : list member) :
  no_collisions ws → data_table ws !! id = Some l ↔ (id, l) ∈ ws.
Proof.
  induction ws as [|[i x] ws IH] using rev_ind; intros Hnc.
  - unfold data_table. simpl. rewrite lookup_empty. split; [done|].
    by intros ?%elem_of_nil.
  - assert (no_collisions ws) as Hnc'.
    { intros id0 l0 l0' H0 H0'. apply (Hnc id0); apply elem_of_app; by left. }
    rewrite data_table_snoc, elem_of_app, list_elem_of_singleton.
    destruct (decide (i = id)) as [->|Hne].
    + rewrite lookup_insert_eq. split.
      * intros [= ->]. by right.
      * intros [Hin|[= ->]]; [|done]. f_equal. apply (Hnc id).
        -- apply elem_of_app. right. apply list_elem_of_here.
        -- apply elem_of_app. by left.
    + rewrite lookup_insert_ne by done. rewrite (IH Hnc'). split; [by left|].
      intros [?|[= ? ?]]; [done|congruence].
Qed.

Lemma emitted_hashes_elem ws h :
  h ∈ emitted_hashes ws ↔ ∃ w, w ∈ ws ∧ h ∈ hashes_of w.2.
Proof.
  induction ws as [|w0 ws IH].
  - split; [by intros ?%elem_of_nil|]. by intros (w & ?%elem_of_nil & _).
  - change (emitted_hashes (w0 :: ws)) with (hashes_of w0.2 ++ emitted_hashes ws).
    rewrite elem_of_app, IH. split.
    + intros [Hh|(w & Hw & Hh)].
      * exists w0. split; [apply list_elem_of_here|done].
      * exists w. split; [by apply list_elem_of_further|done].
    + intros (w & [->|Hw]%elem_of_cons & Hh); [by left|]. right. by exists w.
Qed.

Lemma unique_emitter (ws : list (string * list member)) w w' h :
  NoDup (emitted_hashes ws) → w ∈ ws → w' ∈ ws →
  h ∈ hashes_of w.2 → h ∈ hashes_of w'.2 → w = w'.
Proof.
  induction ws as [|w0 ws IH]; intros Hnd Hw Hw' Hh Hh'.
  - by apply elem_of_nil in Hw.
  - change (emitted_hashes (w0 :: ws))
      with (hashes_of w0.2 ++ emitted_hashes ws) in Hnd.
    apply NoDup_app in Hnd as (_ & Hdisj & Hnd).
    apply elem_of_cons in Hw as [->|Hw]; apply elem_of_cons in Hw' as [->|Hw'].
    + done.
    + destruct (Hdisj h Hh). apply emitted_hashes_elem. by exists w'.
    + destruct (Hdisj h Hh'). apply emitted_hashes_elem. by exists w.
    + by apply IH.
Qed.

Lemma NoDup_emitted_member (ws : list (string * list member)) w :
  NoDup (emitted_hashes ws) → w ∈ ws → NoDup (hashes_of w.2).
Proof.
  induction ws as [|w0 ws IH]; intros Hnd Hw.
  - by apply elem_of_nil in Hw.
  - change (emitted_hashes (w0 :: ws))
      with (hashes_of w0.2 ++ emitted_hashes ws) in Hnd.
    apply NoDup_app in Hnd as (Hnd0 & _ & Hnd).
    apply elem_of_cons in Hw as [->|Hw]; [done|by apply IH].
Qed.

Lemma bundle_hashes_imap (g : nat → string) (l : list member) :
  bundle_hashes (imap (λ idx meta, (g idx, meta)) l) = hashes_of l.
Proof.
  revert g. induction l as [|m l IH]; intros g; [done|].
  simpl. f_equal. apply (IH (g ∘ S)).
Qed.

Lemma bundle_hashes_normalize (l : list member) :
  bundle_hashes (normalize l) = hashes_of l.
Proof. apply bundle_hashes_imap. Qed.

Lemma table_partitions_of_writes keys (ws : list (string * list member)) :
  no_collisions ws → emitted_hashes ws ≡ₚ keys → NoDup keys →
  table_partitions keys (normalize <$> data_table ws).
Proof.
  intros Hnc Hperm Hnd h Hh. rewrite <- Hperm in Hh, Hnd.
  apply emitted_hashes_elem in Hh as ([id l] & Hw & Hhl). simpl in Hhl.
  exists id, (normalize l). split; [|split; [|split]].
  - rewrite lookup_fmap. apply (data_table_lookup _ _ _ Hnc) in Hw.
    by rewrite Hw.
  - by rewrite bundle_hashes_normalize.
  - rewrite bundle_hashes_normalize.
    apply (NoDup_emitted_member ws (id, l) Hnd Hw).
  - intros id' b' Hb' Hhb'. rewrite lookup_fmap in Hb'.
    destruct (data_table ws !! id') as [l'|] eqn:Hl'; [|done].
    injection Hb' as <-. rewrite bundle_hashes_normalize in Hhb'.
    apply (data_table_lookup _ _ _ Hnc) in Hl'.
    by injection (unique_emitter ws (id, l) (id', l') h Hnd Hw Hl' Hhl Hhb').
Qed.

End Facts.
End BundleBuilderFacts.

(** * The producer pipeline *)

Module BlockBuilderFacts.
Import BlockBuilder.

Lemma covers_init n : covers (init n).
Proof.
  split; [apply NoDup_nil_2|]. intros p rec h Hp. simpl in Hp.
  by rewrite lookup_empty in Hp.
Qed.

Lemma block_loop (blocks : list (string * bytes)) unc bs fh :
  NoDup (od.keys bs) →
  ∃ unc' bs',
    foldl block_step (unc, bs, fh) blocks = (unc', bs', fh ++ od.keys blocks)
    ∧ NoDup (od.keys bs')
    ∧ (∀ h, h ∈ od.keys bs → h ∈ od.keys bs')
    ∧ (∀ h, h ∈ od.keys blocks → h ∈ od.keys bs').
Proof.
  revert unc bs fh. induction blocks as [|[bh bd] blocks IH]; intros unc bs fh Hnd.
  - exists unc, bs. simpl. rewrite app_nil_r. repeat split; try done.
    by intros h ?%elem_of_nil.
  - cbn [foldl block_step].
    destruct (IH (unc ++ [bd]) (od.set bh bd bs) (fh ++ [bh]))
      as (unc' & bs' & Hfold & Hnd' & Hold & Hnew).
    { by apply od_facts.NoDup_keys_set. }
    exists unc', bs'. split; [|split; [done|split]].
    + rewrite Hfold. unfold od.keys. simpl. by rewrite <- app_assoc.
    + intros h Hh. apply Hold, od_facts.elem_of_keys_set. by right.
    + intros h Hh. unfold od.keys in Hh. simpl in Hh.
      apply elem_of_cons in Hh as [->|Hh]; [|by apply Hnew].
      apply Hold, od_facts.elem_of_keys_set. by left.
Qed.

Section Facts.
Variable sha256 : bytes → string.
Variable fastcdc : N → N → N → bytes → result (list bytes).

Lemma processFile_covers st relPath content :
  covers st →
  match __processFile sha256 fastcdc st relPath content with
  | Ok st' => covers st'
  | Raise _ => True
  end.
Proof.
  intros [Hnd Hcov]. unfold __processFile.
  destruct (extract_blocks sha256 fastcdc content (blockSize st)) as [blocks|e];
    cbn [rbind]; [|done].
  destruct (block_loop blocks (uncompressed_block_data st) (blockSet st) [] Hnd)
    as (unc' & bs' & Hfold & Hnd' & Hold & Hnew).
  rewrite Hfold. split; [done|]. simpl. intros p rec h Hp Hh.
  destruct (decide (relPath = p)) as [->|Hne].
  - rewrite lookup_insert_eq in Hp. injection Hp as <-. simpl in Hh. by apply Hnew.
  - rewrite lookup_insert_ne in Hp by done. eapply Hold, Hcov; eauto.
Qed.

Lemma processDir_covers st (directory : tree) :
  covers st →
  match processDir sha256 fastcdc st directory with
  | Ok st' => covers st'
  | Raise _ => True
  end.
Proof.
  intros Hcov. unfold processDir.
  apply (map_fold_weak_ind (λ (r : result state) (m : tree),
           match r with
           | Ok st' => covers st'
           | Raise _ => True
           end)); [done|].
  intros p f m [st'|e] _ IH; simpl; [|done].
  destruct (f_readable f); [by apply processFile_covers|done].
Qed.

(** The keys of the block set stay distinct, whatever the class held. *)
Lemma processDir_NoDup st (directory : tree) :
  NoDup (od.keys (blockSet st)) →
  match processDir sha256 fastcdc st directory with
  | Ok st' => NoDup (od.keys (blockSet st'))
  | Raise _ => True
  end.
Proof.
  intros Hnd. unfold processDir.
  apply (map_fold_weak_ind (λ (r : result state) (m : tree),
           match r with
           | Ok st' => NoDup (od.keys (blockSet st'))
           | Raise _ => True
           end)); [done|].
  intros p f m [st'|e] _ IH; simpl; [|done].
  destruct (f_readable f); [|done]. unfold __processFile.
  destruct (extract_blocks sha256 fastcdc (f_content f) (blockSize st')) as [blocks|e];
    cbn [rbind]; [|done].
  destruct (block_loop blocks (uncompressed_block_data st') (blockSet st') [] IH)
    as (unc' & bs' & Hfold & Hnd' & _). by rewrite Hfold.
Qed.
End Facts.
End BlockBuilderFacts.

Section CreatePatchFacts.
Import BundleBuilderFacts.

Variable sha256 : bytes → string.
Variable fastcdc : N → N → N → bytes → result (list bytes).
Variable train_dictionary : N → list bytes → result bytes.
Variable random_sample : list bytes → nat → list bytes.
Variable zstd_compress : bytes → Z → bytes → bytes.

Lemma partitioned_each_NoDup (olds : list (string * bundle)) :
  NoDup (concat (map (λ o, bundle_hashes o.2) olds)) →
  Forall (λ o, NoDup (bundle_hashes o.2)) olds.
Proof.
  induction olds as [|o olds IH]; intros Hnd; [done|].
  simpl in Hnd. apply NoDup_app in Hnd as (? & _ & ?). constructor; auto.
Qed.

Lemma writeBlockFiles_keys st disk compress regen level dict_path st' disk' :
  BlockBuilder.writeBlockFiles train_dictionary random_sample zstd_compress
    st disk compress regen level dict_path = Ok (st', disk') →
  BlockBuilder.data st' = BlockBuilder.data st
  ∧ od.keys (BlockBuilder.blockSet st') = od.keys (BlockBuilder.blockSet st).
Proof.
  unfold BlockBuilder.writeBlockFiles.
  destruct (match dict_path with Some _ => _ | None => _ end) as [[]|e];
    cbn [rbind]; [|done].
  destruct compress; [|by intros [= <- <-]].
  destruct dict_path as [path|]; cbn [rbind]; [|done].
  destruct (load_or_train_dict _ _ _ _ _ _ _) as [[dict_data disk2]|e];
    cbn [rbind]; [|done].
  intros [= <- <-]. simpl. split; [done|].
  apply (od_facts.keys_map (λ _ v, zstd_compress dict_data level v)).
Qed.

(** The bundler from any bundle table of the class. *)
Lemma buildBundles_from (st : BundleBuilder.state) (olds : list (string * bundle)) :
  NoDup (od.keys (BundleBuilder.blockSet st)) →
  Forall (λ o, NoDup (bundle_hashes o.2)) olds →
  ∃ st1 st',
    BundleBuilder.reuse_old_bundles sha256 st olds = Ok st1
    ∧ BundleBuilder.buildBundles sha256 st olds
      = Ok (st', BundleBuilder.normalize
                   <$> BundleBuilder.data_table (BundleBuilder.data st'))
    ∧ (∃ new, BundleBuilder.data st' = BundleBuilder.data st1 ++ new).
Proof.
  intros Hnd Holds.
  destruct (reuse_old_bundles_ok sha256 olds st Hnd Holds)
    as (st1 & Hreuse & _ & _ & _ & _).
  destruct (bundle_remaining_ok sha256 st1) as (_ & Hnew & _).
  exists st1, (BundleBuilder.cleanup (BundleBuilder.bundle_remaining sha256 st1)).
  split; [done|]. split; [|done].
  unfold BundleBuilder.buildBundles. rewrite Hreuse. reflexivity.
Qed.

(** The first call of a process, with a prior manifest whose bundles
    partition their members, either raises or produces a manifest with
    the partition property: every block hash referenced by a file record
    is a member of exactly one bundle. SHA-256 is taken to be
    collision-free on the member lists of the run. *)
Lemma producer_partition directory disk old_patch_data block_size compress
    compression_level dict_path regen_dict :
  bundles_partitioned old_patch_data →
  match create_patch sha256 fastcdc train_dictionary random_sample zstd_compress
          fresh_process directory disk old_patch_data block_size compress
          compression_level dict_path regen_dict with
  | Ok (m, bst, _, _) => no_collisions (BundleBuilder.data bst) → partition_property m
  | Raise _ => True
  end.
Proof.
  intros Hold. unfold create_patch.
  change (BlockBuilder.new (block_builder fresh_process) block_size)
    with (BlockBuilder.init block_size).
  change (bundle_builder fresh_process) with (@nil (string * list member)).
  pose proof (BlockBuilderFacts.processDir_covers sha256 fastcdc
                (BlockBuilder.init block_size) directory
                (BlockBuilderFacts.covers_init block_size)) as Hcov.
  destruct (BlockBuilder.processDir _ _ _ _) as [st|e]; cbn [rbind]; [|done].
  destruct (_ || _); [done|].
  destruct (BlockBuilder.writeBlockFiles _ _ _ _ _ _ _ _ _) as [[st2 disk2]|e]
    eqn:Hwrite; cbn [rbind]; [|done].
  destruct (writeBlockFiles_keys _ _ _ _ _ _ _ _ Hwrite) as [Hdata Hkeys].
  destruct Hcov as [Hnd Hcov]. rewrite <- Hkeys in Hnd.
  change (BundleBuilder.new [] (BlockBuilder.blockSet st2))
    with (BundleBuilder.init (BlockBuilder.blockSet st2)).
  destruct (buildBundles_ok sha256 (BlockBuilder.blockSet st2)
              (map_to_list (bundles old_patch_data)) Hnd
              (partitioned_each_NoDup _ Hold))
    as (st1 & st' & _ & Hbuild & _ & Hperm).
  rewrite Hbuild. cbn [rbind]. intros Hnc p rec h Hp Hh. simpl in *.
  rewrite Hdata in Hp.
  apply (table_partitions_of_writes _ _ Hnc Hperm Hnd).
  rewrite Hkeys. by eapply Hcov.
Qed.

(** C5 (amended). Let V2 be produced by a call with V1 as the prior
    manifest, V1's bundles partitioning their members, and let every hash
    of a bundle B of V1 be a key of the block set that the call hands to
    the bundler. Then V2's bundle map holds, under the id that is the
    digest of its rendering, the member list rebuilt from B's hash
    sequence with the lengths of V2's payloads and their running sums as
    offsets; its ordered hash sequence is that of B. If B is in the form
    the bundler writes and every member's recorded length is the length
    of that block's payload in V2, this entry is B under B's own id.
    SHA-256 is taken to be collision-free on the member lists of the
    bundle table. *)
Theorem bundle_reuse cls directory disk old_patch_data block_size compress
    compression_level dict_path regen_dict bs m bst disk' cls' idB (B : bundle) :
  NoDup (od.keys (BlockBuilder.blockSet (block_builder cls))) →
  bundles_partitioned old_patch_data →
  bundles old_patch_data !! idB = Some B →
  bundler_input sha256 fastcdc train_dictionary random_sample zstd_compress
    cls directory disk block_size compress compression_level dict_path regen_dict
  = Ok bs →
  (∀ h, h ∈ bundle_hashes B → h ∈ od.keys bs) →
  create_patch sha256 fastcdc train_dictionary random_sample zstd_compress
    cls directory disk old_patch_data block_size compress compression_level
    dict_path regen_dict = Ok (m, bst, disk', cls') →
  no_collisions (BundleBuilder.data bst) →
  bundles m !! BundleBuilder.getBundleId sha256 (rebuild bs 0 (bundle_hashes B))
  = Some (BundleBuilder.normalize (rebuild bs 0 (bundle_hashes B)))
  ∧ bundle_hashes (BundleBuilder.normalize (rebuild bs 0 (bundle_hashes B)))
    = bundle_hashes B
  ∧ (emitted_form sha256 idB B → lengths_match bs B → bundles m !! idB = Some B).
Proof.
  intros Hcls Hold HB Hbs Hin Hrun Hnc.
  unfold bundler_input in Hbs. unfold create_patch in Hrun.
  pose proof (BlockBuilderFacts.processDir_NoDup sha256 fastcdc
                (BlockBuilder.new (block_builder cls) block_size) directory Hcls)
    as Hnd.
  destruct (BlockBuilder.processDir _ _ _ _) as [st|e]; cbn [rbind] in *; [|done].
  destruct (_ || _); [done|].
  destruct (BlockBuilder.writeBlockFiles _ _ _ _ _ _ _ _ _) as [[st2 disk2]|e]
    eqn:Hwrite; cbn [rbind] in *; [|done].
  destruct (writeBlockFiles_keys _ _ _ _ _ _ _ _ Hwrite) as [_ Hkeys].
  simpl in Hbs. injection Hbs as <-.
  rewrite <- Hkeys in Hnd.
  apply elem_of_map_to_list, list_elem_of_split in HB as (pre & post & Hsplit).
  unfold bundles_partitioned in Hold. rewrite Hsplit in *.
  destruct (BundleBuilderFacts.reuse_contains sha256 pre post (idB, B)
              (BundleBuilder.new (bundle_builder cls) (BlockBuilder.blockSet st2))
              Hnd Hold Hin)
    as (st1 & Hrun1 & Hmem).
  destruct (buildBundles_from
              (BundleBuilder.new (bundle_builder cls) (BlockBuilder.blockSet st2))
              (pre ++ (idB, B) :: post) Hnd (partitioned_each_NoDup _ Hold))
    as (st1' & st' & Hrun1' & Hbuild & [new Hnew]).
  unfold BundleBuilder.reuse_old_bundles in Hrun1, Hrun1'.
  rewrite Hrun1 in Hrun1'. injection Hrun1' as <-.
  rewrite Hbuild in Hrun. cbn [rbind] in Hrun. injection Hrun as <- <- <- <-.
  simpl in Hmem |- *.
  assert (BundleBuilder.data_table (BundleBuilder.data st')
            !! BundleBuilder.getBundleId sha256
                 (rebuild (BlockBuilder.blockSet st2) 0 (bundle_hashes B))
          = Some (rebuild (BlockBuilder.blockSet st2) 0 (bundle_hashes B))) as Hlook.
  { apply (data_table_lookup _ _ _ Hnc). rewrite Hnew. apply elem_of_app. by left. }
  split; [|split].
  - rewrite lookup_fmap, Hlook. done.
  - rewrite bundle_hashes_normalize. by apply hashes_of_rebuild.
  - intros (Hnorm & Hoff & Hid) Hlen.
    rewrite bundle_hashes_members, (rebuild_exact _ _ _ Hoff Hlen) in Hlook.
    rewrite lookup_fmap, Hid, Hlook. simpl. by rewrite <- Hnorm.
Qed.

End CreatePatchFacts.

(** *** The runs on the S1 tree *)

Lemma v1_partitioned : bundles_partitioned v1.
Proof.
  unfold bundles_partitioned. apply (bool_decide_unpack _). vm_compute. exact I.
Qed.

Lemma no_collisions_singleton id (l : list member) : no_collisions [(id, l)].
Proof.
  intros id' x x' Hx Hx'. apply list_elem_of_singleton in Hx, Hx'. congruence.
Qed.

Lemma bundle_reuse_witness :
  let l := [Member "another file content" 20 0; Member "hello world" 11 20] in
  let idB := BundleBuilder.getBundleId text_digest l in
  let B := BundleBuilder.normalize l in
  let bs := [("another file content", list_byte_of_string "another file content");
             ("hello world", list_byte_of_string "hello world")] in
  bundles_partitioned v1
  ∧ bundles v1 !! idB = Some B
  ∧ emitted_form text_digest idB B
  ∧ bundler_input text_digest whole_file training_fails first_samples framed
      fresh_process s1_tree ∅ 1024%N false 5 "patchData/dictionary" false = Ok bs
  ∧ (∀ h, h ∈ bundle_hashes B → h ∈ od.keys bs)
  ∧ lengths_match bs B
  ∧ succeeded (run fresh_process ∅ s1_tree v1 false) = true
  ∧ no_collisions (bundler_writes (run fresh_process ∅ s1_tree v1 false))
  ∧ bundles v2_plain !! BundleBuilder.getBundleId text_digest
                          (rebuild bs 0 (bundle_hashes B))
    = Some (BundleBuilder.normalize (rebuild bs 0 (bundle_hashes B)))
  ∧ bundle_hashes (BundleBuilder.normalize (rebuild bs 0 (bundle_hashes B)))
    = bundle_hashes B
  ∧ bundles v2_plain !! idB = Some B.
Proof.
  intros l idB B bs.
  assert (bundles v1 !! idB = Some B) as HB by (vm_compute; reflexivity).
  assert (emitted_form text_digest idB B) as Hform.
  { split; [vm_compute; reflexivity|]. split; [|reflexivity].
    vm_compute. auto. }
  assert (bundler_input text_digest whole_file training_fails first_samples framed
            fresh_process s1_tree ∅ 1024%N false 5 "patchData/dictionary" false
          = Ok bs) as Hbs
    by (vm_compute; reflexivity).
  assert (∀ h, h ∈ bundle_hashes B → h ∈ od.keys bs) as Hin.
  { apply Forall_forall. apply (bool_decide_unpack _). vm_compute. exact I. }
  assert (lengths_match bs B) as Hlen.
  { unfold lengths_match. apply Forall_forall.
    repeat constructor; (eexists; split; vm_compute; reflexivity). }
  assert (succeeded (run fresh_process ∅ s1_tree v1 false) = true) as Hok
    by (vm_compute; reflexivity).
  assert (bundler_writes (run fresh_process ∅ s1_tree v1 false) = [(idB, l)]) as Hw
    by (vm_compute; reflexivity).
  assert (no_collisions (bundler_writes (run fresh_process ∅ s1_tree v1 false))) as Hnc.
  { rewrite Hw. apply no_collisions_singleton. }
  do 8 (split; [assumption || exact v1_partitioned|]).
  pose proof (bundle_reuse text_digest whole_file training_fails first_samples framed
                fresh_process s1_tree ∅ v1 1024%N false 5 "patchData/dictionary" false
                bs) as Hreuse.
  unfold v2_plain, produced. clear Hw.
  destruct (run fresh_process ∅ s1_tree v1 false) as [[[[m bst] d] cls']|e];
    [|discriminate Hok].
  destruct (Hreuse m bst d cls' idB B (NoDup_nil_2 (A:=string)) v1_partitioned HB Hbs Hin eq_refl Hnc)
    as (Hentry & Hseq & Hid).
  split; [exact Hentry|]. split; [exact Hseq|exact (Hid Hform Hlen)].
Defined.

(** C5 as stated fails when the payload lengths change between the two
    runs: V1 is produced without compression, V2 from the same tree with
    V1 as the prior manifest and compression enabled, the dictionary file
    being on the disk. Every block of V1's bundle is in V2's block set,
    but the id of the reused bundle is the digest of a member list with
    the new lengths, and V2's bundle map has no entry for the id it had in
    V1. *)
Lemma bundle_reuse_id_counterexample :
  let l := [Member "another file content" 20 0; Member "hello world" 11 20] in
  let idB := BundleBuilder.getBundleId text_digest l in
  let B := BundleBuilder.normalize l in
  succeeded (run fresh_process ∅ s1_tree empty_manifest false) = true
  ∧ succeeded (run fresh_process dictionary_disk s1_tree v1 true) = true
  ∧ bundles_partitioned v1
  ∧ bundles v1 !! idB = Some B
  ∧ (∃ bs, bundler_input text_digest whole_file training_fails first_samples framed
             fresh_process s1_tree dictionary_disk 1024%N true 5
             "patchData/dictionary" false = Ok bs
           ∧ ∀ h, h ∈ bundle_hashes B → h ∈ od.keys bs)
  ∧ (∀ h, h ∈ bundle_hashes B → referenced v2_compressed h)
  ∧ bundles v2_compressed !! idB = None.
Proof.
  intros l idB B. split; [|split; [|split; [|split; [|split; [|split]]]]].
  - vm_compute. reflexivity.
  - vm_compute. reflexivity.
  - exact v1_partitioned.
  - vm_compute. reflexivity.
  - eexists. split; [vm_compute; reflexivity|].
    apply Forall_forall. apply (bool_decide_unpack _). vm_compute. exact I.
  - apply Forall_forall. repeat constructor.
    + exists "bar.txt", (FileRecord "another file content" ["another file content"]).
      split; [vm_compute; reflexivity|apply list_elem_of_here].
    + exists "foo.txt", (FileRecord "hello world" ["hello world"]).
      split; [vm_compute; reflexivity|apply list_elem_of_here].
  - vm_compute. reflexivity.
Qed.

(** *** Two calls in one process *)

(** C3, at a failing input: [create_patch] is called on a tree with the
    file [a.txt], then, in the same process, on a tree with the file
    [b.txt] and an output directory of its own. The class attributes of
    the first call are still there: the second manifest has the record of
    [a.txt], and the block of [a.txt] is a member of two bundles, the one
    of the first call and the one that the second call packs. *)
Theorem repeated_call_breaks_partition :
  bundles_partitioned empty_manifest
  ∧ succeeded first_call = true
  ∧ succeeded second_call = true
  ∧ files (produced second_call) !! "a.txt" = Some (FileRecord "alpha" ["alpha"])
  ∧ bundles (produced second_call)
      !! BundleBuilder.getBundleId text_digest [Member "alpha" 5 0]
    = Some (BundleBuilder.normalize [Member "alpha" 5 0])
  ∧ bundles (produced second_call)
      !! BundleBuilder.getBundleId text_digest [Member "alpha" 5 0; Member "beta" 4 5]
    = Some (BundleBuilder.normalize [Member "alpha" 5 0; Member "beta" 4 5])
  ∧ ¬ partition_property (produced second_call).
Proof.
  assert (files (produced second_call) !! "a.txt"
          = Some (FileRecord "alpha" ["alpha"])) as Hfile
    by (vm_compute; reflexivity).
  assert (bundles (produced second_call)
            !! BundleBuilder.getBundleId text_digest [Member "alpha" 5 0]
          = Some (BundleBuilder.normalize [Member "alpha" 5 0])) as Hone
    by (vm_compute; reflexivity).
  assert (bundles (produced second_call)
            !! BundleBuilder.getBundleId text_digest
                 [Member "alpha" 5 0; Member "beta" 4 5]
          = Some (BundleBuilder.normalize [Member "alpha" 5 0; Member "beta" 4 5]))
    as Htwo by (vm_compute; reflexivity).
  split; [apply (bool_decide_unpack _); vm_compute; exact I|].
  split; [vm_compute; reflexivity|]. split; [vm_compute; reflexivity|].
  split; [exact Hfile|]. split; [exact Hone|]. split; [exact Htwo|].
  intros Hpart.
  destruct (Hpart "a.txt" _ "alpha" Hfile (list_elem_of_here _ _))
    as (id & b & _ & _ & _ & Honly).
  assert (BundleBuilder.getBundleId text_digest [Member "alpha" 5 0] = id) as H1.
  { apply (Honly _ _ Hone). apply list_elem_of_here. }
  assert (BundleBuilder.getBundleId text_digest [Member "alpha" 5 0; Member "beta" 4 5]
          = id) as H2.
  { apply (Honly _ _ Htwo). apply list_elem_of_here. }
  rewrite <- H2 in H1. vm_compute in H1. discriminate H1.
Qed.

Import ApplierSpec.

(** * The applier *)

Module FilePatcherFacts.
Import FilePatcher.

Section Facts.
Variable mkstemp : tree → string → string.
Variable clock : string.







End Facts.
End FilePatcherFacts.


Import CleanerSpec.

(** * The cleaner *)

Module CleanerFacts.
Import Cleaner.

Lemma cleanup_file_lookup (fs : tree) (log : ChangeLog.data) new_build i p :
  (_cleanup_file (fs, log) i new_build).1 !! p
  = (if decide (i = p) then file_after new_build p (fs !! p) else fs !! p)
  ∧ (_cleanup_file (fs, log) i new_build).2 !! p
    = (if decide (i = p) then entry_after new_build p (fs !! p) (log !! p)
       else log !! p).
Proof.
  unfold _cleanup_file, file_after, entry_after, ChangeLog.update_metadata,
    ChangeLog.remove_file.
  destruct (decide (i = p)) as [->|Hne].
  - destruct (files new_build !! p).
    + simpl. split; [done|]. destruct (py.str_contains _ _); [done|].
      destruct (fs !! p); [|done]. by rewrite lookup_insert_eq.
    + case_bool_decide; [done|]. simpl. by rewrite !lookup_delete_eq.
  - destruct (files new_build !! i).
    + simpl. split; [done|]. destruct (py.str_contains _ _); [done|].
      destruct (fs !! i); [|done]. by rewrite lookup_insert_ne.
    + case_bool_decide; [done|]. simpl. by rewrite !lookup_delete_ne.
Qed.

Lemma run_fold (fs : tree) (log : ChangeLog.data) new_build p (m : tree) :
  (map_fold (λ rel_path _ st, _cleanup_file st rel_path new_build) (fs, log) m).1 !! p
  = match m !! p with
    | Some _ => file_after new_build p (fs !! p)
    | None => fs !! p
    end
  ∧ (map_fold (λ rel_path _ st, _cleanup_file st rel_path new_build) (fs, log) m).2 !! p
    = match m !! p with
      | Some _ => entry_after new_build p (fs !! p) (log !! p)
      | None => log !! p
      end.
Proof.
  apply (map_fold_weak_ind (λ (r : tree * ChangeLog.data) (m : tree),
           r.1 !! p = match m !! p with
                      | Some _ => file_after new_build p (fs !! p)
                      | None => fs !! p
                      end
           ∧ r.2 !! p = match m !! p with
                        | Some _ => entry_after new_build p (fs !! p) (log !! p)
                        | None => log !! p
                        end)).
  - by rewrite lookup_empty.
  - intros i f m' [fs' log'] Hi [Hfs Hlog]. simpl in Hfs, Hlog.
    destruct (cleanup_file_lookup fs' log' new_build i p) as [-> ->].
    destruct (decide (i = p)) as [->|Hne].
    + rewrite lookup_insert_eq. rewrite Hi in Hfs, Hlog. by rewrite Hfs, Hlog.
    + by rewrite lookup_insert_ne.
Qed.

(** The tree and the changelog after the walk, path by path. *)
Lemma run_lookup (fs : tree) (log : ChangeLog.data) new_build p :
  (run fs log new_build).1 !! p
  = match fs !! p with
    | Some _ => file_after new_build p (fs !! p)
    | None => None
    end
  ∧ (run fs log new_build).2 !! p
    = match fs !! p with
      | Some _ => entry_after new_build p (fs !! p) (log !! p)
      | None => log !! p
      end.
Proof.
  unfold run. destruct (run_fold fs log new_build p fs) as [-> ->].
  by destruct (fs !! p).
Qed.

(** A file that is not in the manifest is removed, with its changelog
    entry, unless its path is exactly [.DS_Store]. *)
Lemma run_removes (fs : tree) (log : ChangeLog.data) new_build p :
  is_Some (fs !! p) → files new_build !! p = None → p ≠ ".DS_Store" →
  (run fs log new_build).1 !! p = None ∧ (run fs log new_build).2 !! p = None.
Proof.
  intros [f Hf] Hp Hne. destruct (run_lookup fs log new_build p) as [-> ->].
  rewrite Hf. unfold file_after, entry_after. rewrite Hp.
  by rewrite bool_decide_eq_false_2.
Qed.

(** A file of the manifest stays; its changelog entry is the fresh size
    and modification time, unless its path contains [.DS_Store]. *)
Lemma run_keeps (fs : tree) (log : ChangeLog.data) new_build p f rec :
  fs !! p = Some f → files new_build !! p = Some rec →
  py.str_contains ".DS_Store" p = false →
  (run fs log new_build).1 !! p = Some f
  ∧ (run fs log new_build).2 !! p = Some (ChangeLog._get_file_metadata f).
Proof.
  intros Hf Hp Hds. destruct (run_lookup fs log new_build p) as [-> ->].
  rewrite Hf. unfold file_after, entry_after. by rewrite Hp, Hds.
Qed.

(** C9, at a failing input: an install tree with a [.DS_Store] at the root
    and one in the directory [assets], neither in the manifest. The
    cleaner keeps the one at the root and its changelog entry; it deletes
    the one in [assets] and drops its changelog entry. *)
Theorem cleaner_deletes_nested_DS_Store :
  Cleaner.run mac_tree mac_log empty_manifest
  = ({[ ".DS_Store" := ds_store ]}, {[ ".DS_Store" := ChangeLog.Metadata "4" "1.0" ]}).
Proof. vm_compute. reflexivity. Qed.

End CleanerFacts.

Import ApplySpec.

(** * Dictionary training *)

Section DictionaryFacts.
Variable train_dictionary : N → list bytes → result bytes.
Variable random_sample : list bytes → nat → list bytes.
Variable zstd_compress : bytes → Z → bytes → bytes.

(** An existing dictionary file is returned as it is, whatever [samples]. *)
Lemma load_or_train_dict_existing (disk : gmap string bytes) dict_path data block_size
    samples d :
  disk !! dict_path = Some d →
  load_or_train_dict train_dictionary random_sample disk dict_path data block_size samples
  = Ok (d, disk).
Proof. intros Hd. unfold load_or_train_dict. by rewrite Hd. Qed.

(** Without a dictionary file, an unbounded sample trains on all blocks;
    the trained dictionary is written when its directory can be made. *)
Lemma load_or_train_dict_unbounded (disk : gmap string bytes) dict_path data block_size :
  disk !! dict_path = None →
  load_or_train_dict train_dictionary random_sample disk dict_path data block_size None
  = (dict_bytes ←r train_dictionary block_size data;
     _ ←r makedirs_dirname dict_path;
     Ok (dict_bytes, <[dict_path := dict_bytes]> disk)).
Proof. intros Hd. unfold load_or_train_dict. by rewrite Hd. Qed.

(** Without a dictionary file, a bounded sample trains on [random.sample]
    of the bound when there are more blocks, on all blocks otherwise. *)
Lemma load_or_train_dict_bounded (disk : gmap string bytes) dict_path data block_size n :
  disk !! dict_path = None →
  load_or_train_dict train_dictionary random_sample disk dict_path data block_size (Some n)
  = let training_sample :=
      if decide (n < length data) then random_sample data n else data in
    (dict_bytes ←r train_dictionary block_size training_sample;
     _ ←r makedirs_dirname dict_path;
     Ok (dict_bytes, <[dict_path := dict_bytes]> disk)).
Proof.
  intros Hd. unfold load_or_train_dict. rewrite Hd.
  case_bool_decide; case_decide; done.
Qed.

(** C8, at a failing input: compression is enabled, [regen_dict] is
    requested and a dictionary file exists at the configured path. No
    dictionary is trained: the blocks are compressed with the existing
    dictionary and the file is left as it is. *)
Theorem regen_dict_keeps_existing_dictionary :
  BlockBuilder.writeBlockFiles train_dictionary random_sample zstd_compress
    scanned disk_with_dictionary true true 5 (Some "patchData/dictionary")
  = Ok ({| BlockBuilder.blockSize := 1024;
        BlockBuilder.uncompressed_block_data := [ascii "hello world"];
        BlockBuilder.data := {[ "foo.txt" := FileRecord "r" ["h"] ]};
        BlockBuilder.blockSet :=
          [("h", zstd_compress (ascii "old dictionary") 5 (ascii "hello world"))] |},
        disk_with_dictionary).
Proof. reflexivity. Qed.

End DictionaryFacts.

(** * The fetcher *)

Section DownloaderFacts.
Variable zstd_decompress : bytes → bytes → bytes.

(** Scenario S5: the two parts are stored under their block hashes. *)
Lemma multipart_s5 :
  Downloader._process_multipart_response zstd_decompress plain_downloader
    s5_body "test_boundary" s5_ranges ∅
  = Ok {[ "block1" := ascii "block1_data"; "block2" := ascii "block2_data" ]}.
Proof. vm_compute. reflexivity. Qed.

(** C6, at a failing input: the part for the requested range 0-2 carries
    the three bytes [a b LF]; the pool receives the two bytes [a b]. *)
Theorem multipart_strips_content_line_feed :
  Downloader._process_multipart_response zstd_decompress plain_downloader
    lf_body "B" [Downloader.Range 0 2 "h"] ∅
  = Ok {[ "h" := [x61; x62] ]}.
Proof. vm_compute. reflexivity. Qed.

End DownloaderFacts.

(** * The apply operation *)

Section PatcherFacts.
Variable sha256 : bytes → string.
Variable fastcdc : N → N → N → bytes → result (list bytes).
Variable zstd_decompress : bytes → bytes → bytes.
Variable mkstemp : tree → string → string.
Variable clock : string.

Lemma getPatchData_unavailable (w : world) loc :
  patch_data_json w = None → getPatchData w loc = empty_manifest.
Proof.
  intros Hnone. unfold getPatchData. rewrite Hnone.
  case_bool_decide; [done|]. by destruct (isURL loc).
Qed.

(** When the manifest cannot be loaded, the apply goes on with the empty
    manifest: nothing is fetched or patched, the cleaner runs against the
    empty manifest and the changelog is saved. *)
Lemma patch_without_manifest (w : world) loc (st : Patcher.state) :
  patch_data_json w = None →
  Patcher.patch sha256 fastcdc zstd_decompress mkstemp clock w loc st
  = let '(fs, log) :=
      Cleaner.run (Patcher.install st) (default ∅ (Patcher.changelog_json st))
        empty_manifest in
    ({| Patcher.install := fs; Patcher.changelog_json := Some log |}, Ok ()).
Proof.
  intros Hnone. unfold Patcher.patch, Downloader.new.
  rewrite (getPatchData_unavailable w loc Hnone). cbn [compression_enabled empty_manifest rbind].
  assert (∀ lf cl, PatchData.get_files_to_patch empty_manifest lf cl = []) as ->.
  { intros lf cl. unfold PatchData.get_files_to_patch. apply map_fold_empty. }
  cbn [Patcher.scan PatchData.get_missing_blocks foldl rbind].
  unfold PatchData.find_bundles_and_blocks_to_fetch, PatchData._analyze_bundles,
    PatchData._bundles_to_download.
  change (bundles empty_manifest) with (∅ : gmap string bundle).
  rewrite !map_fold_empty. cbn [rbind]. rewrite map_fold_empty.
  unfold Downloader.fetch_all, Downloader._fetch_remote, Downloader._fetch_local.
  destruct (isURL _); rewrite ?map_fold_empty; cbn [rbind];
    rewrite ?set_fold_empty; reflexivity.
Qed.

(** C4, at a failing input: the source is a URL and fetching the manifest
    fails in transport. The apply does not raise: it continues with the
    empty manifest, the cleaner removes the installed file, and the
    emptied changelog is saved. *)
Theorem manifest_transport_error_is_swallowed :
  isURL "http://patches.example/app" = true
  ∧ Patcher.patch sha256 fastcdc zstd_decompress mkstemp clock unreachable
      "http://patches.example/app" app_installed
    = ({| Patcher.install := ∅; Patcher.changelog_json := Some ∅ |}, Ok ()).
Proof.
  split; [reflexivity|]. rewrite patch_without_manifest by reflexivity.
  reflexivity.
Qed.

(** A transport error on a block does abort the apply: nothing is patched
    or cleaned and the changelog is not saved. *)
Lemma block_transport_error_aborts :
  Patcher.patch sha256 fastcdc zstd_decompress mkstemp clock blocks_unreachable
    "http://patches.example/app"
    {| Patcher.install := ∅; Patcher.changelog_json := None |}
  = ({| Patcher.install := ∅; Patcher.changelog_json := None |},
     Raise (ClientError "http://patches.example/app/blocks/h1")).
Proof. vm_compute. reflexivity. Qed.

End PatcherFacts.

Import PatchDataSpec MoreSpec.

(** * The changelog and the validation of an installation *)

Module ChangeLogFacts.
Import ChangeLog.

(** The fold of [validate_current_installation] over any set of entries. *)
Lemma validate_fold (fs : tree) (d m : data) :
  map_fold (λ filename (_ : metadata) ok,
              if py.str_contains ".DS_Store" filename then ok
              else ok && is_valid fs d filename)
           true m = true
  ↔ ∀ p, is_Some (m !! p) → py.str_contains ".DS_Store" p = false →
         is_valid fs d p = true.
Proof.
  apply (map_fold_weak_ind (λ (r : bool) (m : data),
           r = true ↔ ∀ p, is_Some (m !! p) → py.str_contains ".DS_Store" p = false →
                          is_valid fs d p = true)).
  - split; [|done]. intros _ p [e He]. by rewrite lookup_empty in He.
  - intros i e m' r Hi IH. split.
    + intros Hr p Hp Hds. destruct (decide (i = p)) as [->|Hne].
      * rewrite Hds in Hr. by apply andb_true_iff in Hr as [_ ?].
      * rewrite lookup_insert_ne in Hp by done. apply IH; [|done..].
        destruct (py.str_contains _ i); [done|]. by apply andb_true_iff in Hr as [? _].
    + intros Hall.
      assert (r = true) as ->.
      { apply IH. intros p Hp Hds. apply Hall; [|done].
        destruct (decide (i = p)) as [->|Hne].
        - rewrite lookup_insert_eq. by eexists.
        - by rewrite lookup_insert_ne. }
      destruct (py.str_contains _ i) eqn:Hds; [done|]. simpl.
      apply Hall; [|done]. rewrite lookup_insert_eq. by eexists.
Qed.

(** X1. [validate_current_installation] returns [True] exactly when every
    recorded path that does not contain [.DS_Store] names an existing file
    whose size and modification time are the recorded ones; an empty
    changelog validates. *)
Theorem validate_current_installation_iff (fs : tree) (d : data) :
  validate_current_installation fs d = true
  ↔ ∀ p, is_Some (d !! p) → py.str_contains ".DS_Store" p = false →
         changelog_entry_valid fs d p.
Proof.
  unfold validate_current_installation. rewrite validate_fold.
  split; intros Hall p Hp Hds.
  - apply is_valid_iff. by apply Hall.
  - apply is_valid_iff. by apply Hall.
Qed.

Lemma is_valid_inv (fs : tree) (d : data) p :
  is_valid fs d p = true →
  ∃ f e, fs !! p = Some f ∧ d !! p = Some e
         ∧ size e = pretty (length (f_content f)) ∧ lastMod e = f_lastMod f.
Proof. intros H. by apply is_valid_iff in H. Qed.

(** X2. A tracked file that validates stops validating, and the whole
    installation with it, as soon as the file is replaced by one of another
    length or another modification time. *)
Theorem validate_detects_tampering (fs : tree) (d : data) p (f' : file) :
  py.str_contains ".DS_Store" p = false →
  is_valid fs d p = true →
  (∀ f, fs !! p = Some f →
        length (f_content f') ≠ length (f_content f) ∨ f_lastMod f' ≠ f_lastMod f) →
  is_valid (<[p := f']> fs) d p = false
  ∧ validate_current_installation (<[p := f']> fs) d = false.
Proof.
  intros Hds Hvalid Hdiff.
  destruct (is_valid_inv fs d p Hvalid) as (f & e & Hf & He & Hsize & Hmod).
  assert (is_valid (<[p := f']> fs) d p = false) as Hinvalid.
  { unfold is_valid. rewrite lookup_insert_eq, He. simpl.
    apply andb_false_iff. destruct (Hdiff f Hf) as [Hlen|Hm].
    - left. apply bool_decide_eq_false. rewrite Hsize. intros Heq.
      by apply (inj pretty) in Heq.
    - right. apply bool_decide_eq_false. congruence. }
  split; [done|]. apply not_true_is_false. intros Hval.
  unfold validate_current_installation in Hval.
  rewrite validate_fold in Hval. rewrite Hval in Hinvalid; [done| |done].
  by eexists.
Qed.

(** X3. Recording a file makes it valid: after [update_metadata] for an
    existing file whose path does not contain [.DS_Store], [is_valid]
    holds for that path, whatever the changelog held before. *)
Theorem update_metadata_valid (fs : tree) (d : data) p :
  is_Some (fs !! p) → py.str_contains ".DS_Store" p = false →
  is_valid fs (update_metadata fs d p) p = true.
Proof.
  unfold update_metadata, is_valid.
  intros [f Hf] Hds. rewrite Hds, Hf, lookup_insert_eq. simpl.
  by rewrite !bool_decide_eq_true_2.
Qed.

End ChangeLogFacts.

(** * The cleaner and the validation *)

Module CleanerValidation.
Import ChangeLog CleanerSpec.

(** X4. When every changelog entry names a file of the install tree, the
    changelog that the cleaner leaves validates against the tree that it
    leaves, whatever the manifest. *)
Theorem cleaner_result_validates (fs : tree) (d : data) new_build :
  (∀ p, is_Some (d !! p) → is_Some (fs !! p)) →
  validate_current_installation (Cleaner.run fs d new_build).1
                                (Cleaner.run fs d new_build).2 = true.
Proof.
  intros Hdom. unfold validate_current_installation.
  apply ChangeLogFacts.validate_fold. intros p Hp Hds.
  destruct (CleanerFacts.run_lookup fs d new_build p) as [Hfs Hlog].
  unfold is_valid. rewrite Hfs. rewrite Hlog in Hp |- *.
  destruct (fs !! p) as [f|] eqn:Hf.
  - unfold file_after, entry_after in *. rewrite Hds in *.
    destruct (files new_build !! p).
    + simpl. by rewrite !bool_decide_eq_true_2.
    + case_bool_decide as Hroot; [by subst p|]. by destruct Hp.
  - destruct (Hdom p Hp) as [? ?]. congruence.
Qed.

(** X5. The cleaner only visits files that exist: a changelog entry for a
    path that is not in the install tree is left as it is, and the
    installation does not validate after the cleaning. *)
Theorem cleaner_keeps_stale_entry (fs : tree) (d : data) new_build p e :
  d !! p = Some e → fs !! p = None → py.str_contains ".DS_Store" p = false →
  (Cleaner.run fs d new_build).2 !! p = Some e
  ∧ validate_current_installation (Cleaner.run fs d new_build).1
                                  (Cleaner.run fs d new_build).2 = false.
Proof.
  intros He Hf Hds.
  destruct (CleanerFacts.run_lookup fs d new_build p) as [Hfs Hlog].
  rewrite Hf in Hfs, Hlog. rewrite He in Hlog. split; [done|].
  apply not_true_is_false. intros Hval. unfold validate_current_installation in Hval.
  rewrite ChangeLogFacts.validate_fold in Hval.
  specialize (Hval p). rewrite Hlog in Hval.
  assert (is_valid (Cleaner.run fs d new_build).1 (Cleaner.run fs d new_build).2 p
          = true) as Hv by (apply Hval; [by eexists|done]).
  unfold is_valid in Hv. by rewrite Hfs in Hv.
Qed.

End CleanerValidation.

Lemma validate_detects_tampering_witness :
  ChangeLog.validate_current_installation tracked_tree tracked_log = true
  ∧ ChangeLog.validate_current_installation (<["bin/app" := touched_file]> tracked_tree)
      tracked_log = false.
Proof.
  split; [vm_compute; reflexivity|].
  apply (ChangeLogFacts.validate_detects_tampering tracked_tree tracked_log
           "bin/app" touched_file).
  - vm_compute. reflexivity.
  - vm_compute. reflexivity.
  - intros f Hf. right. vm_compute in Hf. injection Hf as <-. discriminate.
Defined.

Lemma cleaner_result_validates_witness :
  ChangeLog.validate_current_installation (Cleaner.run tracked_tree tracked_log tracked_build).1
    (Cleaner.run tracked_tree tracked_log tracked_build).2 = true.
Proof.
  apply CleanerValidation.cleaner_result_validates.
  intros p [e He]. unfold tracked_log in He.
  apply lookup_singleton_Some in He as [<- _]. by eexists.
Defined.

Lemma cleaner_keeps_stale_entry_witness :
  (Cleaner.run tracked_tree stale_log tracked_build).2 !! "bin/gone"
    = Some (ChangeLog.Metadata "3" "1.0")
  ∧ ChangeLog.validate_current_installation (Cleaner.run tracked_tree stale_log tracked_build).1
      (Cleaner.run tracked_tree stale_log tracked_build).2 = false.
Proof.
  apply CleanerValidation.cleaner_keeps_stale_entry; vm_compute; reflexivity.
Defined.

Lemma update_metadata_valid_witness :
  ChangeLog.is_valid tracked_tree (ChangeLog.update_metadata tracked_tree ∅ "bin/app")
    "bin/app" = true.
Proof.
  apply ChangeLogFacts.update_metadata_valid; [by eexists|vm_compute; reflexivity].
Defined.

Import PatchDataSpec MoreSpec.

(** * More on the planner *)

Module MissingBlocks.
Import PatchData.

Lemma missing_of_record (local_blocks : gmap string bytes) (blocks : list string)
    (s : gset string) h :
  h ∈ foldl (λ (s : gset string) block,
               if bool_decide (local_blocks !! block = None)
               then s ∪ {[block]} else s) s blocks
  ↔ h ∈ s ∨ (h ∈ blocks ∧ local_blocks !! h = None).
Proof.
  revert s. induction blocks as [|b blocks IH]; intros s; simpl.
  - split; [by left|]. intros [?|[Hnil _]]; [done|by apply elem_of_nil in Hnil].
  - rewrite IH, elem_of_cons. case_bool_decide as Hb.
    + rewrite elem_of_union, elem_of_singleton. split.
      * intros [[? | ->]|[? ?]]; auto.
      * intros [?|[[-> | ?] ?]]; auto.
    + split.
      * intros [?|[? ?]]; auto.
      * intros [?|[[-> | ?] ?]]; auto. done.
Qed.

Lemma get_missing_blocks_raise files_to_patch new_build
    (local_blocks : gmap string bytes) e :
  foldl (λ acc filename,
           missing_blocks ←r acc;
           rec ←r getitem (files new_build) filename;
           Ok (foldl (λ (s : gset string) block,
                        if bool_decide (local_blocks !! block = None)
                        then s ∪ {[block]} else s)
                     missing_blocks (fr_blocks rec)))
        (Raise e) files_to_patch = Raise e.
Proof. induction files_to_patch as [|f l IH]; [done|]. simpl. apply IH. Qed.

(** The loop of [get_missing_blocks] from any set collected so far. *)
Lemma get_missing_blocks_loop files_to_patch new_build
    (local_blocks : gmap string bytes) (s : gset string) :
  (∀ f, f ∈ files_to_patch → is_Some (files new_build !! f)) →
  ∃ missing,
    foldl (λ acc filename,
             missing_blocks ←r acc;
             rec ←r getitem (files new_build) filename;
             Ok (foldl (λ (s : gset string) block,
                          if bool_decide (local_blocks !! block = None)
                          then s ∪ {[block]} else s)
                       missing_blocks (fr_blocks rec)))
          (Ok s) files_to_patch = Ok missing
    ∧ ∀ h, h ∈ missing
           ↔ h ∈ s ∨ (local_blocks !! h = None
                      ∧ ∃ f rec, f ∈ files_to_patch ∧ files new_build !! f = Some rec
                                 ∧ h ∈ fr_blocks rec).
Proof.
  revert s. induction files_to_patch as [|f l IH]; intros s Hall.
  - exists s. split; [done|]. intros h. split; [by left|].
    intros [?|[_ (f & rec & Hnil & _)]]; [done|by apply elem_of_nil in Hnil].
  - destruct (Hall f) as [rec Hrec]; [apply list_elem_of_here|].
    cbn [foldl rbind]. unfold getitem at 2. rewrite Hrec. cbn [rbind].
    destruct (IH (foldl (λ (s : gset string) block,
                           if bool_decide (local_blocks !! block = None)
                           then s ∪ {[block]} else s) s (fr_blocks rec)))
      as (missing & Hrun & Hchar).
    { intros f' Hf'. apply Hall. by apply list_elem_of_further. }
    exists missing. split; [done|]. intros h. rewrite Hchar, missing_of_record.
    split.
    + intros [[?|[Hin Hnone]]|[Hnone (f' & rec' & Hf' & Hrec' & Hin)]].
      * by left.
      * right. split; [done|]. exists f, rec. split; [apply list_elem_of_here|done].
      * right. split; [done|]. exists f', rec'.
        split; [by apply list_elem_of_further|done].
    + intros [?|[Hnone (f' & rec' & Hf' & Hrec' & Hin)]]; [by left; left|].
      apply elem_of_cons in Hf' as [-> | Hf'].
      * left; right. rewrite Hrec in Hrec'. injection Hrec' as <-. done.
      * right. split; [done|]. by exists f', rec'.
Qed.

(** X6. The missing set of the files that the planner selected is computed
    without a [KeyError] and holds exactly the block hashes of the selected
    files' records that the local pool lacks. *)
Theorem missing_blocks_of_selected_files new_build (local_files : gmap string string)
    change_log (local_blocks : gmap string bytes) :
  ∃ missing,
    get_missing_blocks (get_files_to_patch new_build local_files change_log)
      new_build local_blocks = Ok missing
    ∧ ∀ h, h ∈ missing
           ↔ local_blocks !! h = None
             ∧ ∃ f rec, f ∈ get_files_to_patch new_build local_files change_log
                        ∧ files new_build !! f = Some rec ∧ h ∈ fr_blocks rec.
Proof.
  destruct (get_missing_blocks_loop
              (get_files_to_patch new_build local_files change_log)
              new_build local_blocks ∅) as (missing & Hrun & Hchar).
  { intros f Hf. apply get_files_to_patch_elem in Hf as (rec & Hrec & _).
    by eexists. }
  exists missing. split; [exact Hrun|]. intros h. rewrite Hchar.
  split; [intros [Hempty|?]; [by apply not_elem_of_empty in Hempty|done]|by right].
Qed.

(** X7. A file name that is not in the manifest makes
    [get_missing_blocks] raise [KeyError] for the first such name. *)
Theorem get_missing_blocks_unknown_file (pre post : list string) f new_build
    (local_blocks : gmap string bytes) :
  (∀ f', f' ∈ pre → is_Some (files new_build !! f')) →
  files new_build !! f = None →
  get_missing_blocks (pre ++ f :: post) new_build local_blocks = Raise (KeyError f).
Proof.
  intros Hpre Hf. unfold get_missing_blocks. rewrite foldl_app.
  destruct (get_missing_blocks_loop pre new_build local_blocks ∅ Hpre)
    as (missing & -> & _).
  cbn [foldl rbind]. unfold getitem at 2. rewrite Hf. cbn [rbind].
  apply get_missing_blocks_raise.
Qed.

(** X30. The list that [get_files_to_patch] returns names manifest
    paths only, each of them once: no file is patched twice in one
    apply. *)
Theorem get_files_to_patch_NoDup new_build (local_files : gmap string string) change_log :
  NoDup (get_files_to_patch new_build local_files change_log)
  ∧ ∀ f, f ∈ get_files_to_patch new_build local_files change_log →
         is_Some (files new_build !! f).
Proof.
  unfold get_files_to_patch.
  apply (map_fold_weak_ind (λ (r : list string) (m : gmap string file_record),
           NoDup r ∧ ∀ f, f ∈ r → is_Some (m !! f))).
  - split; [apply NoDup_nil_2|]. by intros f ?%elem_of_nil.
  - intros i rec m r Hi [Hnd Hin]. destruct (_ || _).
    + split.
      * apply NoDup_app. split; [done|]. split; [|apply NoDup_singleton].
        intros x Hx ->%list_elem_of_singleton. apply Hin in Hx as [? ?]. congruence.
      * intros f [Hf| ->%list_elem_of_singleton]%elem_of_app.
        -- destruct (decide (i = f)) as [->|]; [rewrite lookup_insert_eq; by eexists|].
           rewrite lookup_insert_ne by done. by apply Hin.
        -- rewrite lookup_insert_eq. by eexists.
    + split; [done|]. intros f Hf.
      destruct (decide (i = f)) as [->|]; [rewrite lookup_insert_eq; by eexists|].
      rewrite lookup_insert_ne by done. by apply Hin.
Qed.

End MissingBlocks.

Lemma get_missing_blocks_unknown_file_witness :
  PatchData.get_missing_blocks ["bin/app"; "bin/other"; "bin/app"] tracked_build ∅
  = Raise (KeyError "bin/other").
Proof.
  apply (MissingBlocks.get_missing_blocks_unknown_file ["bin/app"] ["bin/app"]
           "bin/other" tracked_build ∅).
  - intros f ->%list_elem_of_singleton. by eexists.
  - reflexivity.
Defined.

Import ProducerSpec MoreSpec.

(** * More on the producer *)

Module od_more.
Section od_more.
Context {V : Type}.
Implicit Types (d : list (string * V)) (k : string) (v : V).

Lemma get_set k k' v d :
  od.get k' (od.set k v d) = if decide (k' = k) then Some v else od.get k' d.
Proof.
  induction d as [|[k0 v0] d IH]; simpl.
  - by destruct (decide (k' = k)).
  - destruct (decide (k = k0)) as [->|Hne]; simpl.
    + by destruct (decide (k' = k0)).
    + destruct (decide (k' = k0)) as [->|Hne'].
      * by rewrite decide_False by done.
      * done.
Qed.

Lemma get_elem_of k v d : od.get k d = Some v → (k, v) ∈ d.
Proof.
  induction d as [|[k0 v0] d IH]; simpl; [done|].
  destruct (decide (k = k0)) as [->|Hne].
  - intros [= ->]. apply list_elem_of_here.
  - intros H. apply list_elem_of_further. by apply IH.
Qed.


Lemma get_app k d d' :
  od.get k (d ++ d') = match od.get k d with
                       | Some v => Some v
                       | None => od.get k d'
                       end.
Proof.
  induction d as [|[k0 v0] d IH]; simpl; [done|].
  by destruct (decide (k = k0)).
Qed.


(** The assignments [d[k] = v] of a loop, in order. *)
Lemma get_set_loop (l : list (string * V)) d k :
  od.get k (foldl (λ d kv, od.set kv.1 kv.2 d) d l)
  = match od.get k (reverse l) with
    | Some v => Some v
    | None => od.get k d
    end.
Proof.
  revert d. induction l as [|[k0 v0] l IH]; intros d; [done|].
  cbn [foldl]. rewrite IH, reverse_cons. clear IH. simpl.
  generalize (reverse l). intros r. induction r as [|[k1 v1] r IHr]; simpl.
  - rewrite get_set. by destruct (decide (k = k0)).
  - by destruct (decide (k = k1)).
Qed.
End od_more.
End od_more.

Module ScanFacts.
Import BlockBuilder.

Lemma block_loop_eq (blocks : list (string * bytes)) unc bs fh :
  foldl block_step (unc, bs, fh) blocks
  = (unc ++ blocks.*2, foldl (λ bs blk, od.set blk.1 blk.2 bs) bs blocks,
     fh ++ od.keys blocks).
Proof.
  revert unc bs fh. induction blocks as [|[bh bd] blocks IH]; intros unc bs fh.
  - simpl. unfold od.keys. simpl. by rewrite !app_nil_r.
  - cbn [foldl block_step]. rewrite IH. unfold od.keys. simpl.
    by rewrite <- !app_assoc.
Qed.

Section Facts.
Variable sha256 : bytes → string.
Variable fastcdc : N → N → N → bytes → result (list bytes).

Lemma keys_chunks (l : list bytes) :
  od.keys (map (λ c, (sha256 c, c)) l) = map sha256 l.
Proof. unfold od.keys. rewrite <- list_fmap_compose. reflexivity. Qed.

Lemma payloads_chunks (l : list bytes) : (map (λ c, (sha256 c, c)) l).*2 = l.
Proof. rewrite <- list_fmap_compose. apply list_fmap_id. Qed.

Lemma processFile_eq st relPath content :
  __processFile sha256 fastcdc st relPath content
  = (chunks ←r chunks_of fastcdc (blockSize st) content;
     Ok {| blockSize := blockSize st;
           uncompressed_block_data := uncompressed_block_data st ++ chunks;
           data := <[relPath := record_of sha256 chunks]> (data st);
           blockSet := foldl (λ bs blk, od.set blk.1 blk.2 bs) (blockSet st)
                             (map (λ c, (sha256 c, c)) chunks) |}).
Proof.
  unfold __processFile, extract_blocks, chunks_of.
  destruct (fastcdc _ _ _ _) as [chunks|e]; cbn [rbind]; [|done].
  rewrite block_loop_eq. rewrite keys_chunks, payloads_chunks. reflexivity.
Qed.

Lemma NoDup_keys_set_loop (l : list (string * bytes)) bs :
  NoDup (od.keys bs) → NoDup (od.keys (foldl (λ d kv, od.set kv.1 kv.2 d) bs l)).
Proof.
  revert bs. induction l as [|[k v] l IH]; intros bs Hnd; [done|].
  cbn [foldl]. apply IH. by apply od_facts.NoDup_keys_set.
Qed.

Lemma chunk_of_tree_insert block_size (m : tree) i x c :
  m !! i = None →
  chunk_of_tree fastcdc block_size (<[i := x]> m) c
  ↔ (∃ chunks, chunks_of fastcdc block_size (f_content x) = Ok chunks ∧ c ∈ chunks)
    ∨ chunk_of_tree fastcdc block_size m c.
Proof.
  intros Hi. split.
  - intros (p & f & chunks & Hp & Hc & Hin).
    destruct (decide (i = p)) as [->|Hne].
    + rewrite lookup_insert_eq in Hp. injection Hp as <-. left. by exists chunks.
    + rewrite lookup_insert_ne in Hp by done. right. by exists p, f, chunks.
  - intros [(chunks & Hc & Hin)|(p & f & chunks & Hp & Hc & Hin)].
    + exists i, x, chunks. by rewrite lookup_insert_eq.
    + exists p, f, chunks. split; [|done].
      rewrite lookup_insert_ne; [done|]. intros ->. congruence.
Qed.

Lemma get_chunk_loop (chunks : list bytes) h v :
  od.get h (reverse (map (λ c, (sha256 c, c)) chunks)) = Some v →
  h = sha256 v ∧ v ∈ chunks.
Proof.
  intros H. apply od_more.get_elem_of in H.
  apply elem_of_reverse, list_elem_of_fmap in H as (c & [= -> ->] & Hc). done.
Qed.

Lemma get_chunk_loop_None (chunks : list bytes) c :
  c ∈ chunks → od.get (sha256 c) (reverse (map (λ c, (sha256 c, c)) chunks)) ≠ None.
Proof.
  intros Hc Hnone. apply od_facts.get_None in Hnone. apply Hnone.
  unfold od.keys. rewrite fmap_reverse, elem_of_reverse.
  fold (od.keys (map (λ c, (sha256 c, c)) chunks)).
  rewrite keys_chunks. apply list_elem_of_fmap. by exists c.
Qed.

(** The scan from any class attributes. *)
Lemma processDir_state st0 (directory : tree) :
  scan_outcome sha256 fastcdc st0 (processDir sha256 fastcdc st0 directory) directory.
Proof.
  unfold processDir.
  apply (map_fold_weak_ind (λ (r : result state) (m : tree),
                              scan_outcome sha256 fastcdc st0 r m)).
  - split; [done|]. split; [intros p f Hp; by rewrite lookup_empty in Hp|].
    split; [intros p; unfold records_after; by rewrite lookup_empty|].
    split; [done|]. split; [|split; [|done]].
    + intros h d Hget. right. split; [done|].
      intros c (p & f & chunks & Hp & _). by rewrite lookup_empty in Hp.
    + intros c (p & f & chunks & Hp & _). by rewrite lookup_empty in Hp.
  - intros i x m [st|e] Hi IH; cbn [rbind].
    + destruct IH as (Hsize & Hread & Hdata & Hnd & Hpay & Hall & Hold).
      destruct (f_readable x) eqn:Hx.
      * rewrite processFile_eq, Hsize.
        destruct (chunks_of fastcdc (blockSize st0) (f_content x))
          as [chunks|e] eqn:Hchunks; cbn [rbind].
        -- split; [done|]. split.
           { intros p f Hp. destruct (decide (i = p)) as [->|Hne].
             - rewrite lookup_insert_eq in Hp. injection Hp as <-.
               split; [done|]. by exists chunks.
             - rewrite lookup_insert_ne in Hp by done. by eapply Hread. }
           split.
           { intros p. unfold records_after. cbn [data].
             destruct (decide (i = p)) as [->|Hne].
             - rewrite !lookup_insert_eq. unfold record_at. by rewrite Hchunks.
             - rewrite !lookup_insert_ne by done. apply Hdata. }
           split; [intros Hnd0; by apply NoDup_keys_set_loop, Hnd|]. split.
           { intros h d. cbn [blockSet]. rewrite od_more.get_set_loop.
             destruct (od.get h (reverse _)) as [v|] eqn:Hrev.
             - intros [= ->]. apply get_chunk_loop in Hrev as [-> Hd].
               left. split; [done|]. apply chunk_of_tree_insert; [done|].
               left. by exists chunks.
             - intros Hget. destruct (Hpay h d Hget) as [[-> Hc]|[Hget0 Hno]].
               + left. split; [done|]. apply chunk_of_tree_insert; [done|]. by right.
               + right. split; [done|]. intros c Hc.
                 apply chunk_of_tree_insert in Hc; [|done].
                 destruct Hc as [(chunks' & Heq & Hin)|Hc]; [|by apply Hno].
                 rewrite Hchunks in Heq. injection Heq as <-. intros Hh. subst h.
                 by apply (get_chunk_loop_None chunks c). }
           split.
           { intros c Hc. cbn [blockSet]. rewrite od_more.get_set_loop.
             destruct (od.get (sha256 c) (reverse _)) as [v|] eqn:Hrev; [by eexists|].
             apply chunk_of_tree_insert in Hc; [|done].
             destruct Hc as [(chunks' & Heq & Hin)|Hc].
             - rewrite Hchunks in Heq. injection Heq as <-.
               by apply get_chunk_loop_None in Hrev.
             - by apply Hall. }
           intros h Hh. cbn [blockSet]. rewrite od_more.get_set_loop.
           destruct (od.get h (reverse _)) as [v|]; [by eexists|]. by apply Hold.
        -- exists i, x. rewrite lookup_insert_eq. split; [done|]. by right.
      * exists i, x. rewrite lookup_insert_eq. split; [done|]. by left.
    + destruct IH as (q & f & Hq & Hf). exists q, f. split; [|done].
      rewrite lookup_insert_ne; [done|]. intros ->. congruence.
Qed.

(** A scan of files that can all be opened and cut returns. *)
Lemma processDir_returns st0 (directory : tree) :
  (∀ p f, directory !! p = Some f → scannable fastcdc (blockSize st0) f) →
  ∃ st, processDir sha256 fastcdc st0 directory = Ok st
        ∧ scan_outcome sha256 fastcdc st0 (Ok st) directory.
Proof.
  intros Hscan. pose proof (processDir_state st0 directory) as H.
  destruct (processDir _ _ _ _) as [st|e]; [by exists st|].
  destruct H as (q & f & Hq & [[Hf _]|[_ Hf]]);
    destruct (Hscan q f Hq) as [Hr [chunks Hc]]; congruence.
Qed.

(** X12. On a source tree whose files can all be opened and cut by the
    chunker, the scan returns, whatever the class attributes held before.
    The table of records then holds, for every path of the tree, the record
    of that file (the digests of its chunks in order as the block list, and
    the digest of the UTF-8 text of those hashes joined as the record
    hash), and for every other path the record that the class dictionary
    held before the scan; from freshly loaded classes these are exactly one
    record per file of the tree. *)
Theorem processDir_records st0 (directory : tree) :
  (∀ p f, directory !! p = Some f → scannable fastcdc (blockSize st0) f) →
  ∃ st, processDir sha256 fastcdc st0 directory = Ok st
        ∧ ∀ p, data st !! p
               = records_after sha256 fastcdc (blockSize st0) (data st0) directory p.
Proof.
  intros Hscan. destruct (processDir_returns st0 directory Hscan) as (st & Hrun & H).
  exists st. split; [done|]. apply H.
Qed.

(** X13. A file of the source tree that cannot be opened stops the scan,
    whatever the class attributes held before: the scan raises and returns
    no state. The exception is the error of opening an unreadable file of
    the tree, or the exception that the chunker raised on a readable file
    met earlier in the walk; when the chunker cuts every readable file of
    the tree, it is the error of opening one of the unreadable files. *)
Theorem processDir_unreadable st0 (directory : tree) p f :
  directory !! p = Some f → f_readable f = false →
  ∃ e, processDir sha256 fastcdc st0 directory = Raise e
       ∧ (∃ q g, directory !! q = Some g
                 ∧ ((f_readable g = false ∧ e = OSError q)
                    ∨ (f_readable g = true
                       ∧ chunks_of fastcdc (blockSize st0) (f_content g) = Raise e)))
       ∧ ((∀ q g, directory !! q = Some g → f_readable g = true →
                  ∃ chunks, chunks_of fastcdc (blockSize st0) (f_content g) = Ok chunks) →
          ∃ q g, e = OSError q ∧ directory !! q = Some g ∧ f_readable g = false).
Proof.
  intros Hp Hf. pose proof (processDir_state st0 directory) as H.
  destruct (processDir _ _ _ _) as [st|e].
  - destruct H as (_ & Hread & _). destruct (Hread p f Hp) as [Hr _]. congruence.
  - exists e. split; [done|]. split; [exact H|]. intros Hcut.
    destruct H as (q & g & Hq & [[Hg ->]|[Hg Hc]]); [by exists q, g|].
    destruct (Hcut q g Hq Hg) as [chunks Hchunks]. congruence.
Qed.

(** X14. The block set that the scan returns, on a tree whose files can
    all be opened and cut, is addressed by content up to what the class held
    before: its keys are distinct when those of the class block set were;
    every payload is a chunk of some file of the tree stored under the
    digest of that chunk, or a payload that the class block set already held
    under that key and whose key is the digest of no chunk of the tree;
    every chunk of every file has its digest among the keys; and no key of
    the class block set is lost. From freshly loaded classes every payload
    is therefore a chunk of the tree. *)
Theorem processDir_block_set st0 (directory : tree) :
  (∀ p f, directory !! p = Some f → scannable fastcdc (blockSize st0) f) →
  NoDup (od.keys (blockSet st0)) →
  ∃ st, processDir sha256 fastcdc st0 directory = Ok st
        ∧ NoDup (od.keys (blockSet st))
        ∧ (∀ h d, od.get h (blockSet st) = Some d →
                  (h = sha256 d ∧ chunk_of_tree fastcdc (blockSize st0) directory d)
                  ∨ (od.get h (blockSet st0) = Some d
                     ∧ ∀ c, chunk_of_tree fastcdc (blockSize st0) directory c →
                            sha256 c ≠ h))
        ∧ (∀ c, chunk_of_tree fastcdc (blockSize st0) directory c →
                sha256 c ∈ od.keys (blockSet st))
        ∧ (∀ h, h ∈ od.keys (blockSet st0) → h ∈ od.keys (blockSet st))
        ∧ (blockSet st0 = [] →
           ∀ h d, od.get h (blockSet st) = Some d →
                  h = sha256 d ∧ chunk_of_tree fastcdc (blockSize st0) directory d).
Proof.
  intros Hscan Hnd0.
  destruct (processDir_returns st0 directory Hscan) as (st & Hrun & H).
  destruct H as (_ & _ & _ & Hnd & Hpay & Hall & Hold). exists st.
  split; [done|]. split; [by apply Hnd|]. split; [done|]. split; [|split].
  - intros c Hc. apply od_facts.get_is_Some. by apply Hall.
  - intros h Hh. apply od_facts.get_is_Some, Hold. by apply od_facts.get_is_Some.
  - intros Hempty h d Hget. destruct (Hpay h d Hget) as [Hnew|[Hstale _]]; [done|].
    rewrite Hempty in Hstale. done.
Qed.

(** X15. The scan keeps what is needed to rebuild every file of the tree,
    whatever the class attributes held before: when every file of the tree
    can be opened and is cut into pieces whose concatenation is the file,
    and no two different chunks of the tree have the same digest, the scan
    returns, and the payloads that the block set holds for the block list
    of a file's record, concatenated in order, are the file's content. *)
Theorem processDir_reassembles st0 (directory : tree) :
  (∀ p f, directory !! p = Some f → scannable fastcdc (blockSize st0) f) →
  (∀ p f chunks, directory !! p = Some f →
                 chunks_of fastcdc (blockSize st0) (f_content f) = Ok chunks →
                 concat chunks = f_content f) →
  (∀ c1 c2, chunk_of_tree fastcdc (blockSize st0) directory c1 →
            chunk_of_tree fastcdc (blockSize st0) directory c2 →
            sha256 c1 = sha256 c2 → c1 = c2) →
  ∃ st, processDir sha256 fastcdc st0 directory = Ok st
        ∧ ∀ p f, directory !! p = Some f →
                 ∃ rec, data st !! p = Some rec
                        ∧ concat (map (payload_of (blockSet st)) (fr_blocks rec))
                          = f_content f.
Proof.
  intros Hscan Hcat Hinj.
  destruct (processDir_returns st0 directory Hscan) as (st & Hrun & H).
  destruct H as (_ & _ & Hdata & _ & Hpay & Hall & _). exists st.
  split; [done|]. intros p f Hp. destruct (Hscan p f Hp) as [_ [chunks Hchunks]].
  exists (record_of sha256 chunks). split.
  { rewrite Hdata. unfold records_after, record_at. by rewrite Hp, Hchunks. }
  simpl. rewrite <- (Hcat p f chunks Hp Hchunks). f_equal.
  rewrite <- list_fmap_compose. rewrite <- (list_fmap_id chunks) at 2.
  apply Forall_fmap_ext_1, Forall_forall. intros c Hc. simpl. unfold payload_of.
  assert (chunk_of_tree fastcdc (blockSize st0) directory c) as Htree
    by (by exists p, f, chunks).
  destruct (Hall c Htree) as [d Hd]. rewrite Hd. simpl.
  destruct (Hpay _ _ Hd) as [[Heq Hd']|[_ Hno]].
  - symmetry. by apply Hinj.
  - by destruct (Hno c Htree).
Qed.

End Facts.
End ScanFacts.

Lemma whole_file_scannable block_size (f : file) :
  f_readable f = true → f_content f ≠ [] → scannable whole_file block_size f.
Proof.
  intros Hr Hc. split; [done|]. exists [f_content f].
  unfold chunks_of, whole_file. by destruct (f_content f).
Qed.

Lemma s1_tree_scannable block_size p f :
  s1_tree !! p = Some f → scannable whole_file block_size f.
Proof.
  unfold s1_tree. intros Hp.
  apply lookup_insert_Some in Hp as [[_ <-]|[_ Hp]];
    [by apply whole_file_scannable|].
  apply lookup_singleton_Some in Hp as [_ <-]. by apply whole_file_scannable.
Qed.

Lemma tree_b_scannable block_size p f :
  tree_b !! p = Some f → scannable whole_file block_size f.
Proof.
  unfold tree_b. intros Hp. apply lookup_singleton_Some in Hp as [_ <-].
  by apply whole_file_scannable.
Qed.

Lemma whole_file_concat block_size (content : bytes) chunks :
  chunks_of whole_file block_size content = Ok chunks → concat chunks = content.
Proof.
  unfold chunks_of, whole_file. destruct content as [|b l]; [done|].
  intros [= <-]. simpl. by rewrite app_nil_r.
Qed.

Lemma text_digest_inj (c1 c2 : bytes) : text_digest c1 = text_digest c2 → c1 = c2.
Proof.
  unfold text_digest. intros H. apply (f_equal list_byte_of_string) in H.
  by rewrite !list_byte_of_string_of_list_byte in H.
Qed.

Lemma processDir_records_witness :
  ∃ st, BlockBuilder.processDir text_digest whole_file
          (BlockBuilder.new (block_builder (left_behind first_call)) 1024) tree_b
        = Ok st
        ∧ ∀ p, BlockBuilder.data st !! p
               = records_after text_digest whole_file
                   (BlockBuilder.blockSize
                      (BlockBuilder.new (block_builder (left_behind first_call)) 1024))
                   (BlockBuilder.data
                      (BlockBuilder.new (block_builder (left_behind first_call)) 1024))
                   tree_b p.
Proof.
  apply (ScanFacts.processDir_records text_digest whole_file
           (BlockBuilder.new (block_builder (left_behind first_call)) 1024) tree_b).
  exact (tree_b_scannable 1024).
Defined.

Lemma processDir_block_set_witness :
  ∃ st, BlockBuilder.processDir text_digest whole_file (BlockBuilder.init 1024) s1_tree
        = Ok st
        ∧ NoDup (od.keys (BlockBuilder.blockSet st))
        ∧ (∀ h d, od.get h (BlockBuilder.blockSet st) = Some d →
                  (h = text_digest d ∧ chunk_of_tree whole_file 1024 s1_tree d)
                  ∨ (od.get h [] = Some d
                     ∧ ∀ c, chunk_of_tree whole_file 1024 s1_tree c →
                            text_digest c ≠ h))
        ∧ (∀ c, chunk_of_tree whole_file 1024 s1_tree c →
                text_digest c ∈ od.keys (BlockBuilder.blockSet st))
        ∧ (∀ h, h ∈ od.keys (@nil (string * bytes)) →
                h ∈ od.keys (BlockBuilder.blockSet st))
        ∧ (@nil (string * bytes) = [] →
           ∀ h d, od.get h (BlockBuilder.blockSet st) = Some d →
                  h = text_digest d ∧ chunk_of_tree whole_file 1024 s1_tree d).
Proof.
  apply (ScanFacts.processDir_block_set text_digest whole_file
           (BlockBuilder.init 1024) s1_tree).
  - exact (s1_tree_scannable 1024).
  - apply NoDup_nil_2.
Defined.

Lemma processDir_reassembles_witness :
  ∃ st, BlockBuilder.processDir text_digest whole_file (BlockBuilder.init 1024) s1_tree
        = Ok st
        ∧ ∀ p f, s1_tree !! p = Some f →
                 ∃ rec, BlockBuilder.data st !! p = Some rec
                        ∧ concat (map (payload_of (BlockBuilder.blockSet st))
                                      (fr_blocks rec))
                          = f_content f.
Proof.
  apply (ScanFacts.processDir_reassembles text_digest whole_file
           (BlockBuilder.init 1024) s1_tree).
  - exact (s1_tree_scannable 1024).
  - intros p f chunks _. apply whole_file_concat.
  - intros c1 c2 _ _. apply text_digest_inj.
Defined.

Lemma processDir_unreadable_witness :
  ∃ e, BlockBuilder.processDir text_digest whole_file (BlockBuilder.init 1024)
         locked_tree = Raise e
       ∧ (∃ q g, locked_tree !! q = Some g
                 ∧ ((f_readable g = false ∧ e = OSError q)
                    ∨ (f_readable g = true
                       ∧ chunks_of whole_file 1024 (f_content g) = Raise e)))
       ∧ ((∀ q g, locked_tree !! q = Some g → f_readable g = true →
                  ∃ chunks, chunks_of whole_file 1024 (f_content g) = Ok chunks) →
          ∃ q g, e = OSError q ∧ locked_tree !! q = Some g ∧ f_readable g = false).
Proof.
  apply (ScanFacts.processDir_unreadable text_digest whole_file
           (BlockBuilder.init 1024) locked_tree "secret.bin" locked_file);
    reflexivity.
Defined.

(** * The layout of the bundle files *)

Module LayoutFacts.
Import BundleBuilder Downloader.







Lemma normalize_members (l : list member) : (normalize l).*2 = l.
Proof.
  unfold normalize. rewrite fmap_imap. unfold compose. simpl.
  induction l as [|m l IH] using rev_ind; [done|].
  rewrite imap_app. simpl. by rewrite IH.
Qed.

Section Facts.
Variable sha256 : bytes → string.















End Facts.
End LayoutFacts.



(** * The whole producer run *)

Module WriteFacts.
Section Facts.
Variable train_dictionary : N → list bytes → result bytes.
Variable random_sample : list bytes → nat → list bytes.
Variable zstd_compress : bytes → Z → bytes → bytes.



End Facts.
End WriteFacts.

Module CreateFacts.
Section Facts.
Variable sha256 : bytes → string.
Variable fastcdc : N → N → N → bytes → result (list bytes).
Variable train_dictionary : N → list bytes → result bytes.
Variable random_sample : list bytes → nat → list bytes.
Variable zstd_compress : bytes → Z → bytes → bytes.


(** X19. In a process whose class block set is empty, as it is when the
    modules have just been loaded, a tree none of whose files yields a
    chunk (a directory without files, or only files that the chunker cuts
    into nothing) is refused: the run raises [ValueError] before anything
    is written. *)
Theorem create_patch_no_blocks cls directory disk old_patch_data block_size compress
    compression_level dict_path regen_dict :
  BlockBuilder.blockSet (block_builder cls) = [] →
  (∀ p f, directory !! p = Some f →
          f_readable f = true ∧ chunks_of fastcdc block_size (f_content f) = Ok []) →
  create_patch sha256 fastcdc train_dictionary random_sample zstd_compress
    cls directory disk old_patch_data block_size compress compression_level
    dict_path regen_dict = Raise ValueError.
Proof.
  intros Hempty Hnone. unfold create_patch.
  destruct (ScanFacts.processDir_returns sha256 fastcdc
              (BlockBuilder.new (block_builder cls) block_size) directory)
    as (st & -> & Hst).
  { intros p f Hp. destruct (Hnone p f Hp) as [Hr Hc]. split; [done|]. by exists []. }
  cbn [rbind]. destruct Hst as (_ & _ & _ & _ & Hpay & _).
  cbn [BlockBuilder.new BlockBuilder.blockSize BlockBuilder.blockSet] in Hpay.
  assert (BlockBuilder.blockSet st = []) as ->.
  { destruct (BlockBuilder.blockSet st) as [|[h d] bs]; [done|].
    destruct (Hpay h d) as [[_ (p & f & chunks & Hp & Hc & Hd)]|[Hstale _]].
    - simpl. by rewrite decide_True.
    - destruct (Hnone p f Hp) as [_ Hc']. rewrite Hc' in Hc. injection Hc as <-.
      by apply elem_of_nil in Hd.
    - rewrite Hempty in Hstale. done. }
  simpl. by rewrite orb_true_r.
Qed.

End Facts.
End CreateFacts.



Lemma create_patch_no_blocks_witness :
  run fresh_process ∅ ∅ empty_manifest false = Raise ValueError.
Proof.
  apply (CreateFacts.create_patch_no_blocks text_digest whole_file training_fails
           first_samples framed fresh_process ∅ ∅ empty_manifest 1024%N false 5
           "patchData/dictionary" false).
  - reflexivity.
  - intros p f Hp. by rewrite lookup_empty in Hp.
Defined.

Import MoreSpec.

(** * More on the fetcher *)

Module DownloaderFacts.
Import Downloader.

Lemma starts_before_total : Total starts_before.
Proof. intros r1 r2. unfold starts_before. lia. Qed.

Section Facts.
Variable zstd_decompress : bytes → bytes → bytes.
Variable w : world.

Lemma process_bundle_get (self : t) bundle_id bundle_data
    (needed_blocks : list string) (local_blocks : gmap string bytes) h :
  _process_bundle zstd_decompress self bundle_id bundle_data needed_blocks local_blocks !! h
  = match local_blocks !! h with
    | Some d => Some d
    | None =>
        if decide (h ∈ needed_blocks)
        then extracted zstd_decompress self bundle_id bundle_data h
        else None
    end.
Proof.
  unfold _process_bundle. revert local_blocks.
  induction needed_blocks as [|b l IH]; intros local_blocks.
  - simpl. by destruct (local_blocks !! h).
  - cbn [foldl]. rewrite IH. clear IH.
    destruct (local_blocks !! b) as [db|] eqn:Hb.
    + destruct (local_blocks !! h) as [d|] eqn:Hh; [done|].
      destruct (decide (h = b)) as [->|Hne]; [congruence|].
      destruct (decide (h ∈ l)) as [Hin|Hnin].
      * by rewrite decide_True by (by apply list_elem_of_further).
      * rewrite decide_False; [done|]. by intros [?|?]%elem_of_cons.
    + destruct (_get_block_info self bundle_id b) as [[offset length]|] eqn:Hinfo.
      * destruct (decide (h = b)) as [->|Hne].
        -- rewrite lookup_insert_eq, Hb.
           rewrite decide_True by apply list_elem_of_here.
           unfold extracted. by rewrite Hinfo.
        -- rewrite lookup_insert_ne by done.
           destruct (local_blocks !! h) as [d|]; [done|].
           destruct (decide (h ∈ l)) as [Hin|Hnin].
           ++ by rewrite decide_True by (by apply list_elem_of_further).
           ++ rewrite decide_False; [done|]. by intros [?|?]%elem_of_cons.
      * destruct (local_blocks !! h) as [d|] eqn:Hh; [done|].
        destruct (decide (h = b)) as [->|Hne].
        -- unfold extracted. rewrite Hinfo. simpl. by repeat case_decide.
        -- destruct (decide (h ∈ l)) as [Hin|Hnin].
           ++ by rewrite decide_True by (by apply list_elem_of_further).
           ++ rewrite decide_False; [done|]. by intros [?|?]%elem_of_cons.
Qed.

(** X8. [_process_bundle] never replaces a block that is already in the
    pool; a needed hash that is not in the pool receives the slice
    [bundle_data[offset:offset+length]] (decompressed when compression is
    in use) that the bundle index gives for it, and nothing when the index
    has no entry; any other hash is left absent. *)
Theorem process_bundle_lookup (self : t) bundle_id bundle_data
    (needed_blocks : list string) (local_blocks : gmap string bytes) h :
  _process_bundle zstd_decompress self bundle_id bundle_data needed_blocks local_blocks !! h
  = match local_blocks !! h with
    | Some d => Some d
    | None =>
        if decide (h ∈ needed_blocks)
        then extracted zstd_decompress self bundle_id bundle_data h
        else None
    end.
Proof. apply process_bundle_get. Qed.

(** The index that [Downloader.__init__] builds for a bundle. *)
Lemma index_of_get (b : bundle) h :
  od.get h (index_of b)
  = match od.get h (reverse (map (λ kv, (bm_hash kv.2,
                                         (bm_blockOffset kv.2, bm_length kv.2))) b)) with
    | Some v => Some v
    | None => None
    end.
Proof.
  unfold index_of.
  transitivity (od.get h (foldl (λ d (e : string * (nat * nat)), od.set e.1 e.2 d) []
                            (map (λ kv : string * member,
                                    (bm_hash kv.2, (bm_blockOffset kv.2, bm_length kv.2)))
                                 b))).
  - f_equal. by rewrite foldl_fmap.
  - by rewrite od_more.get_set_loop.
Qed.

Lemma index_of_member (b : bundle) h o n :
  od.get h (index_of b) = Some (o, n) →
  ∃ m, m ∈ b.*2 ∧ bm_hash m = h ∧ bm_blockOffset m = o ∧ bm_length m = n.
Proof.
  rewrite index_of_get. destruct (od.get h (reverse _)) as [v|] eqn:Hget; [|done].
  intros [= ->]. apply od_more.get_elem_of in Hget.
  apply elem_of_reverse, list_elem_of_fmap in Hget as (kv & [= -> -> ->] & Hkv).
  exists kv.2. split; [|done]. apply list_elem_of_fmap. by exists kv.
Qed.

Lemma index_of_is_Some (b : bundle) h :
  h ∈ bundle_hashes b → is_Some (od.get h (index_of b)).
Proof.
  intros Hh. rewrite index_of_get.
  destruct (od.get h (reverse _)) as [v|] eqn:Hget; [by eexists|].
  exfalso. apply od_facts.get_None in Hget. apply Hget.
  unfold od.keys. rewrite fmap_reverse, elem_of_reverse, <- list_fmap_compose.
  exact Hh.
Qed.

(** X20. A bundle file that resolves is sliced back into its blocks: for
    a bundle whose index was built from its member map and whose file
    resolves against a block set, [_process_bundle] stores for every
    needed hash of the bundle that is not yet in the pool exactly the
    payload that the block set holds for it (decompressed when compression
    is in use). *)
Theorem process_bundle_round_trip (self : t) bundle_id (b : bundle) bundle_data
    (bs : list (string * bytes)) (needed_blocks : list string)
    (local_blocks : gmap string bytes) h :
  bundle_index self !! bundle_id = Some (index_of b) →
  resolves bs b bundle_data →
  h ∈ needed_blocks → h ∈ bundle_hashes b → local_blocks !! h = None →
  ∃ payload,
    od.get h bs = Some payload
    ∧ _process_bundle zstd_decompress self bundle_id bundle_data needed_blocks
        local_blocks !! h
      = Some (_decompress_if_needed zstd_decompress self payload).
Proof.
  intros Hidx Hres Hneeded Hh Hnone.
  rewrite process_bundle_get, Hnone, decide_True by done.
  unfold extracted, _get_block_info. rewrite Hidx. simpl.
  destruct (index_of_is_Some b h Hh) as [[o n] Hget]. rewrite Hget. simpl.
  destruct (index_of_member b h o n Hget) as (m & Hm & <- & <- & <-).
  destruct (Hres m Hm) as [Hpay _]. eexists. split; [exact Hpay|done].
Qed.


(** The ranges before they are sorted. *)
Lemma ranges_loop (idx : list (string * (nat * nat))) (needed_blocks : list string)
    (acc : list RangeRequest) r :
  r ∈ foldl (λ ranges block_hash,
               match od.get block_hash idx with
               | Some (offset, length) =>
                   ranges ++ [Range (Z.of_nat offset)
                                    (Z.of_nat offset + Z.of_nat length - 1) block_hash]
               | None => ranges
               end) acc needed_blocks
  ↔ r ∈ acc
    ∨ (block_hash r ∈ needed_blocks
       ∧ ∃ offset length, od.get (block_hash r) idx = Some (offset, length)
           ∧ start r = Z.of_nat offset
           ∧ end_ r = (Z.of_nat offset + Z.of_nat length - 1)%Z).
Proof.
  revert acc. induction needed_blocks as [|b l IH]; intros acc.
  - simpl. split; [by left|]. intros [?|[Hnil _]]; [done|by apply elem_of_nil in Hnil].
  - cbn [foldl]. rewrite IH. clear IH.
    destruct (od.get b idx) as [[offset length]|] eqn:Hb.
    + rewrite elem_of_app, list_elem_of_singleton. split.
      * intros [[?| ->]|[Hin Hex]].
        -- by left.
        -- right. simpl. split; [apply list_elem_of_here|]. by exists offset, length.
        -- right. split; [by apply list_elem_of_further|done].
      * intros [?|[Hin (o & n & Hget & Hs & He)]]; [by left; left|].
        apply elem_of_cons in Hin as [Heq|Hin].
        -- left; right. rewrite Heq, Hb in Hget. injection Hget as <- <-.
           destruct r; simpl in *; congruence.
        -- right. split; [done|]. by exists o, n.
    + split.
      * intros [?|[Hin Hex]]; [by left|]. right. split; [by apply list_elem_of_further|done].
      * intros [?|[Hin (o & n & Hget & Hs & He)]]; [by left|].
        apply elem_of_cons in Hin as [Heq|Hin]; [congruence|].
        right. split; [done|]. by exists o, n.
Qed.

(** X9. The range requests of a bundle are sorted by their first byte;
    there is one for a needed hash exactly when the bundle index has an
    entry for it, from [offset] to [offset + length - 1]. *)
Theorem create_range_requests_sorted (self : t) bundle_id (needed_blocks : list string) :
  Sorted starts_before (_create_range_requests self bundle_id needed_blocks)
  ∧ ∀ r, r ∈ _create_range_requests self bundle_id needed_blocks
         ↔ block_hash r ∈ needed_blocks
           ∧ ∃ offset length,
               _get_block_info self bundle_id (block_hash r) = Some (offset, length)
               ∧ start r = Z.of_nat offset
               ∧ end_ r = (Z.of_nat offset + Z.of_nat length - 1)%Z.
Proof.
  unfold _create_range_requests. pose proof starts_before_total as Htotal.
  split; [apply (Sorted_merge_sort _)|].
  intros r. rewrite merge_sort_Permutation, ranges_loop.
  unfold _get_block_info. destruct (bundle_index self !! bundle_id) as [idx|]; simpl.
  - split; [intros [Hnil|?]; [by apply elem_of_nil in Hnil|done]|by right].
  - split.
    + intros [Hnil|[_ (o & n & Hget & _)]]; [by apply elem_of_nil in Hnil|done].
    + intros [_ (o & n & Hget & _)]. done.
Qed.




(** When the bundle loop of [_fetch_local] raises, it is the error of
    reading a scheduled bundle file that does not exist. *)
Lemma fetch_local_bundles_raise (self : t) (bundles : gmap string (list string))
    (local_blocks : gmap string bytes) :
  match map_fold (λ bundle needed_blocks acc,
                    local_blocks ←r acc;
                    resp ←r loadBinFile w
                              (patch_data_path self +:+ "/bundles/" +:+ bundle);
                    Ok (_process_bundle zstd_decompress self bundle resp needed_blocks
                          local_blocks))
                 (Ok local_blocks) bundles with
  | Ok _ => True
  | Raise e =>
      ∃ id, is_Some (bundles !! id)
            ∧ e = OSError (patch_data_path self +:+ "/bundles/" +:+ id)
            ∧ read_file w (patch_data_path self +:+ "/bundles/" +:+ id) = None
  end.
Proof.
  apply (map_fold_weak_ind (λ (acc : result (gmap string bytes))
                              (m : gmap string (list string)),
           match acc with
           | Ok _ => True
           | Raise e =>
               ∃ id, is_Some (m !! id)
                     ∧ e = OSError (patch_data_path self +:+ "/bundles/" +:+ id)
                     ∧ read_file w (patch_data_path self +:+ "/bundles/" +:+ id) = None
           end)); [done|].
  intros id needed m [pool|e] Hid IH; cbn [rbind].
  - unfold loadBinFile.
    destruct (read_file w (patch_data_path self +:+ "/bundles/" +:+ id)) eqn:Hread;
      cbn [rbind]; [done|].
    exists id. rewrite lookup_insert_eq. split; [by eexists|done].
  - destruct IH as (id' & [x Hx] & -> & Hnone). exists id'. split; [|done].
    rewrite lookup_insert_ne; [by eexists|]. intros ->. congruence.
Qed.

(** The block loop of [_fetch_local] returns only when every scheduled
    block file exists, and raises the error of reading a missing one
    otherwise. *)
Lemma fetch_local_blocks_outcome (self : t) (blocks_to_download : gset string)
    (local_blocks : gmap string bytes) :
  match set_fold (λ block acc,
                    local_blocks ←r acc;
                    resp ←r loadBinFile w
                              (patch_data_path self +:+ "/blocks/" +:+ block);
                    Ok (<[block := _decompress_if_needed zstd_decompress self resp]>
                          local_blocks))
                 (Ok local_blocks) blocks_to_download with
  | Ok _ =>
      ∀ b, b ∈ blocks_to_download →
           is_Some (read_file w (patch_data_path self +:+ "/blocks/" +:+ b))
  | Raise e =>
      ∃ b, b ∈ blocks_to_download
           ∧ e = OSError (patch_data_path self +:+ "/blocks/" +:+ b)
           ∧ read_file w (patch_data_path self +:+ "/blocks/" +:+ b) = None
  end.
Proof.
  apply (set_fold_ind_L (λ (acc : result (gmap string bytes)) (X : gset string),
           match acc with
           | Ok _ =>
               ∀ b, b ∈ X →
                    is_Some (read_file w (patch_data_path self +:+ "/blocks/" +:+ b))
           | Raise e =>
               ∃ b, b ∈ X
                    ∧ e = OSError (patch_data_path self +:+ "/blocks/" +:+ b)
                    ∧ read_file w (patch_data_path self +:+ "/blocks/" +:+ b) = None
           end)).
  - intros b Hb. by apply not_elem_of_empty in Hb.
  - intros x X [pool|e] Hx IH; cbn [rbind].
    + unfold loadBinFile.
      destruct (read_file w (patch_data_path self +:+ "/blocks/" +:+ x)) eqn:Hread;
        cbn [rbind].
      * intros b [->%elem_of_singleton|Hb]%elem_of_union; [by eexists|by apply IH].
      * exists x. split; [|done]. apply elem_of_union. left. by apply elem_of_singleton.
    + destruct IH as (b & Hb & -> & Hnone). exists b. split; [|done].
      apply elem_of_union. by right.
Qed.

(** X11. A scheduled block file that is missing in a local source makes
    the fetch raise, whatever bundles are scheduled: no pool is returned,
    and the exception is the error of reading a scheduled bundle file or a
    scheduled block file that does not exist. *)
Theorem fetch_local_missing_block (self : t) (bundles : gmap string (list string))
    (blocks_to_download : gset string) (local_blocks : gmap string bytes) b :
  b ∈ blocks_to_download →
  read_file w (patch_data_path self +:+ "/blocks/" +:+ b) = None →
  ∃ p, _fetch_local zstd_decompress w self bundles blocks_to_download local_blocks
       = Raise (OSError p)
       ∧ read_file w p = None
       ∧ ((∃ id, is_Some (bundles !! id)
                 ∧ p = patch_data_path self +:+ "/bundles/" +:+ id)
          ∨ (∃ b', b' ∈ blocks_to_download
                   ∧ p = patch_data_path self +:+ "/blocks/" +:+ b')).
Proof.
  intros Hb Hnone. unfold _fetch_local.
  pose proof (fetch_local_bundles_raise self bundles local_blocks) as Hbundles.
  destruct (map_fold _ _ bundles) as [pool|e]; cbn [rbind].
  - pose proof (fetch_local_blocks_outcome self blocks_to_download pool) as Hblocks.
    destruct (set_fold _ _ blocks_to_download) as [pool'|e].
    + destruct (Hblocks b Hb) as [d Hd]. congruence.
    + destruct Hblocks as (b' & Hb' & -> & Hnone'). eexists. split; [done|].
      split; [done|]. right. by exists b'.
  - destruct Hbundles as (id & Hid & -> & Hnone'). eexists. split; [done|].
    split; [done|]. left. by exists id.
Qed.

End Facts.
End DownloaderFacts.


Lemma fetch_local_missing_block_witness :
  ∃ p, Downloader._fetch_local no_decompression local_source (downloader_for "src" ∅)
         ∅ {[ "h2" ]} ∅ = Raise (OSError p)
       ∧ read_file local_source p = None
       ∧ ((∃ id, is_Some ((∅ : gmap string (list string)) !! id)
                 ∧ p = "src" +:+ "/bundles/" +:+ id)
          ∨ (∃ b', b' ∈ ({[ "h2" ]} : gset string)
                   ∧ p = "src" +:+ "/blocks/" +:+ b')).
Proof.
  apply (DownloaderFacts.fetch_local_missing_block no_decompression local_source
           (downloader_for "src" ∅) ∅ {[ "h2" ]} ∅ "h2").
  - by apply elem_of_singleton.
  - reflexivity.
Defined.

Lemma process_bundle_round_trip_witness :
  ∃ payload,
    od.get "h2" two_blocks = Some payload
    ∧ Downloader._process_bundle no_decompression
        (downloader_for "src" {[ "b1" := ab_bundle ]}) "b1" ab_file ["h2"] ∅ !! "h2"
      = Some (Downloader._decompress_if_needed no_decompression
                (downloader_for "src" {[ "b1" := ab_bundle ]}) payload).
Proof.
  apply (DownloaderFacts.process_bundle_round_trip no_decompression
           (downloader_for "src" {[ "b1" := ab_bundle ]}) "b1" ab_bundle ab_file
           two_blocks ["h2"] ∅ "h2").
  - reflexivity.
  - intros m Hm. unfold ab_bundle in Hm. rewrite LayoutFacts.normalize_members in Hm.
    apply elem_of_cons in Hm as [->|Hm]; [by split|].
    apply list_elem_of_singleton in Hm as ->. by split.
  - apply list_elem_of_here.
  - apply list_elem_of_further, list_elem_of_here.
  - reflexivity.
Defined.

Import ProducerSpec MoreSpec.

(** * [util.slice_bundle] and the block files *)

Module UtilFacts.


Lemma slice_bundle_loop (bundle_data : bytes) (metadata : bundle)
    (blocks_needed : list string)
    (decompressor : option (bytes → bytes)) (out : gmap string bytes) h :
  foldl (λ (out : gmap string bytes) entry,
           let h := bm_hash entry.2 in
           if bool_decide (h ∈ blocks_needed) then
             let chunk := Downloader.slice bundle_data (bm_blockOffset entry.2)
                            (bm_length entry.2) in
             let chunk := match decompressor with
                          | Some d => d chunk
                          | None => chunk
                          end in
             <[h := chunk]> out
           else out)
        out metadata !! h
  = match (if decide (h ∈ blocks_needed)
           then od.get h (reverse (map (λ kv, (bm_hash kv.2,
                                               (bm_blockOffset kv.2, bm_length kv.2)))
                                       metadata))
           else None) with
    | Some info =>
        Some (match decompressor with
              | Some d => d (Downloader.slice bundle_data info.1 info.2)
              | None => Downloader.slice bundle_data info.1 info.2
              end)
    | None => out !! h
    end.
Proof.
  revert out. induction metadata as [|kv metadata IH]; intros out.
  - simpl. by destruct (decide (h ∈ blocks_needed)).
  - cbn [foldl]. rewrite IH. clear IH. cbn [map]. rewrite reverse_cons, od_more.get_app.
    destruct (decide (h ∈ blocks_needed)) as [Hin|Hnin].
    + destruct (od.get h (reverse _)) as [info|]; [done|]. simpl.
      destruct (decide (h = bm_hash kv.2)) as [->|Hne].
      * rewrite bool_decide_eq_true_2 by done. by rewrite lookup_insert_eq.
      * case_bool_decide; [by rewrite lookup_insert_ne|done].
    + case_bool_decide as Hkv; [|done].
      rewrite lookup_insert_ne; [done|]. intros <-. done.
Qed.

Section Facts.
Variable zstd_decompress : bytes → bytes → bytes.

(** X21. [util.slice_bundle] and the downloader agree: for a bundle whose
    index entry was built from the same member map, slicing the bundle file
    with [slice_bundle] gives, hash by hash, what [_process_bundle] puts in
    an empty pool. *)
Theorem slice_bundle_agrees (self : Downloader.t) bundle_id (metadata : bundle)
    bundle_data (blocks_needed : list string) (decompressor : option (bytes → bytes)) h :
  Downloader.bundle_index self !! bundle_id = Some (Downloader.index_of metadata) →
  (∀ chunk, match decompressor with Some d => d chunk | None => chunk end
            = Downloader._decompress_if_needed zstd_decompress self chunk) →
  Util.slice_bundle bundle_data metadata blocks_needed decompressor !! h
  = Downloader._process_bundle zstd_decompress self bundle_id bundle_data
      blocks_needed ∅ !! h.
Proof.
  intros Hidx Hdec. unfold Util.slice_bundle.
  rewrite slice_bundle_loop, DownloaderFacts.process_bundle_get, !lookup_empty.
  destruct (decide (h ∈ blocks_needed)) as [Hin|Hnin]; [|done].
  unfold extracted, Downloader._get_block_info. rewrite Hidx. simpl.
  rewrite DownloaderFacts.index_of_get.
  destruct (od.get h (reverse _)) as [info|]; [|done]. simpl. by rewrite Hdec.
Qed.

End Facts.

Section BlockFiles.
Variable sha256 : bytes → string.
Variable fastcdc : N → N → N → bytes → result (list bytes).
Variable train_dictionary : N → list bytes → result bytes.
Variable random_sample : list bytes → nat → list bytes.
Variable zstd_compress : bytes → Z → bytes → bytes.





End BlockFiles.
End UtilFacts.

Lemma slice_bundle_agrees_witness :
  Util.slice_bundle ab_file ab_bundle ["h2"] None !! "h2"
  = Downloader._process_bundle no_decompression
      (downloader_for "src" {[ "b1" := ab_bundle ]}) "b1" ab_file ["h2"] ∅ !! "h2".
Proof.
  apply (UtilFacts.slice_bundle_agrees no_decompression
           (downloader_for "src" {[ "b1" := ab_bundle ]}) "b1" ab_bundle ab_file
           ["h2"] None "h2").
  - reflexivity.
  - intros chunk. reflexivity.
Defined.



Import ApplierSpec MoreSpec.

(** * More on the applier *)

Module ApplyFacts.
Import FilePatcher FilePatcherFacts.

Section Facts.
Variable mkstemp : tree → string → string.
Variable clock : string.








End Facts.
End ApplyFacts.






Import PatchDataSpec ProducerSpec ApplierSpec CleanerSpec MoreSpec.

(** * A whole apply from a local source *)

Module PatchFacts.
Import Downloader.

Section Facts.
Variable sha256 : bytes → string.
Variable fastcdc : N → N → N → bytes → result (list bytes).
Variable zstd_decompress : bytes → bytes → bytes.
Variable mkstemp : tree → string → string.
Variable clock : string.
Variable w : world.

Lemma decompress_not_needed (self : t) data :
  use_compression self = false →
  _decompress_if_needed zstd_decompress self data = data.
Proof. unfold _decompress_if_needed. by intros ->. Qed.

(** One bundle of the plan, sliced into a sound pool. *)
Lemma process_bundle_sound (self : t) bs id (b : bundle) data (l : list string)
    (pool : gmap string bytes) :
  use_compression self = false →
  bundle_index self !! id = Some (index_of b) →
  resolves bs b data →
  (∀ h, h ∈ l → h ∈ bundle_hashes b) →
  pool_sound bs pool →
  pool_sound bs (_process_bundle zstd_decompress self id data l pool)
  ∧ (∀ h, h ∈ l → is_Some (_process_bundle zstd_decompress self id data l pool !! h)).
Proof.
  intros Hplain Hidx Hres Hsub Hsound. split.
  - intros h d. rewrite DownloaderFacts.process_bundle_get.
    destruct (pool !! h) as [d'|] eqn:Hp; [intros [= <-]; by apply Hsound|].
    destruct (decide (h ∈ l)); [|done].
    unfold extracted, _get_block_info. rewrite Hidx. simpl.
    destruct (od.get h (index_of b)) as [[o n]|] eqn:Hget; [|done]. simpl.
    rewrite decompress_not_needed by done. intros [= <-].
    destruct (DownloaderFacts.index_of_member b h o n Hget) as (m & Hm & <- & <- & <-).
    by destruct (Hres m Hm).
  - intros h Hh. rewrite DownloaderFacts.process_bundle_get.
    destruct (pool !! h) as [d'|]; [by eexists|].
    rewrite decide_True by done.
    unfold extracted, _get_block_info. rewrite Hidx. simpl.
    destruct (DownloaderFacts.index_of_is_Some b h (Hsub h Hh)) as [[o n] ->].
    by eexists.
Qed.



Lemma scan_file_loop (chunks : list bytes) (blocks : gmap string bytes) h :
  foldl (λ (blocks : gmap string bytes) chunk, <[sha256 chunk := chunk]> blocks)
        blocks chunks !! h
  = match od.get h (reverse (map (λ c, (sha256 c, c)) chunks)) with
    | Some d => Some d
    | None => blocks !! h
    end.
Proof.
  revert blocks. induction chunks as [|c chunks IH]; intros blocks; [done|].
  cbn [foldl map]. rewrite IH, reverse_cons, od_more.get_app. clear IH.
  destruct (od.get h (reverse _)) as [d|]; [done|]. simpl.
  destruct (decide (h = sha256 c)) as [->|Hne].
  - by rewrite lookup_insert_eq.
  - by rewrite lookup_insert_ne.
Qed.

(** What [BlockGenerator.scan] has found when it returns, and the file
    that made it raise otherwise. *)
Lemma scan_state (files_to_patch : list string) :
  match Patcher.scan sha256 fastcdc w files_to_patch with
  | Ok pool =>
      (∀ p f, p ∈ files_to_patch → cwd w !! p = Some f → scannable fastcdc 65536 f)
      ∧ ∀ h,
          (∀ d, pool !! h = Some d →
                h = sha256 d
                ∧ ∃ p f chunks, p ∈ files_to_patch ∧ cwd w !! p = Some f
                                ∧ chunks_of fastcdc 65536 (f_content f) = Ok chunks
                                ∧ d ∈ chunks)
          ∧ (∀ p f chunks c, p ∈ files_to_patch → cwd w !! p = Some f →
                             chunks_of fastcdc 65536 (f_content f) = Ok chunks →
                             c ∈ chunks → h = sha256 c → is_Some (pool !! h))
  | Raise e =>
      ∃ p f, p ∈ files_to_patch ∧ cwd w !! p = Some f
             ∧ ((f_readable f = false ∧ e = OSError p)
                ∨ (f_readable f = true
                   ∧ chunks_of fastcdc 65536 (f_content f) = Raise e))
  end.
Proof.
  unfold Patcher.scan.
  induction files_to_patch as [|p0 l IH] using rev_ind.
  - simpl. split; [intros p f Hp; by apply elem_of_nil in Hp|].
    intros h. split; [intros d; by rewrite lookup_empty|].
    intros p f chunks c Hp. by apply elem_of_nil in Hp.
  - rewrite foldl_app. cbn [foldl].
    destruct (foldl _ (Ok ∅) l) as [pool|e]; cbn [rbind].
    + destruct IH as [IHs IH].
      destruct (cwd w !! p0) as [f0|] eqn:Hf0.
      * destruct (f_readable f0) eqn:Hr0.
        -- fold (chunks_of fastcdc 65536 (f_content f0)).
           destruct (chunks_of fastcdc 65536 (f_content f0)) as [chunks0|e] eqn:Hc0;
             cbn [rbind].
           ++ split.
              { intros p f [Hp|Hp]%elem_of_app Hf; [by eapply IHs|].
                apply list_elem_of_singleton in Hp as ->.
                assert (f = f0) as -> by congruence. split; [done|]. by exists chunks0. }
              intros h. destruct (IH h) as [IH1 IH2]. split.
              ** intros d. rewrite scan_file_loop.
                 destruct (od.get h (reverse _)) as [d'|] eqn:Hget.
                 --- intros [= <-]. apply od_more.get_elem_of in Hget.
                     apply elem_of_reverse, list_elem_of_fmap in Hget
                       as (c & [= -> ->] & Hc).
                     split; [done|]. exists p0, f0, chunks0. split; [|done].
                     apply elem_of_app. right. apply list_elem_of_here.
                 --- intros Hd. destruct (IH1 d Hd) as (-> & p & f & chunks & Hp & Hrest).
                     split; [done|]. exists p, f, chunks. split; [|done].
                     apply elem_of_app. by left.
              ** intros p f chunks c Hp Hf Hchunks Hc ->. rewrite scan_file_loop.
                 destruct (od.get (sha256 c) (reverse _)) as [d'|] eqn:Hget;
                   [by eexists|].
                 apply elem_of_app in Hp as [Hp|Hp];
                   [exact (IH2 p f chunks c Hp Hf Hchunks Hc eq_refl)|].
                 apply list_elem_of_singleton in Hp as ->.
                 assert (f = f0) as -> by congruence.
                 assert (chunks = chunks0) as -> by congruence.
                 exfalso. apply od_facts.get_None in Hget. apply Hget.
                 unfold od.keys.
                 rewrite fmap_reverse, elem_of_reverse, <- list_fmap_compose.
                 apply list_elem_of_fmap. by exists c.
           ++ exists p0, f0. split; [apply elem_of_app; right; apply list_elem_of_here|].
              split; [done|]. by right.
        -- exists p0, f0. split; [apply elem_of_app; right; apply list_elem_of_here|].
           split; [done|]. by left.
      * split.
        { intros p f [Hp|Hp]%elem_of_app Hf; [by eapply IHs|].
          apply list_elem_of_singleton in Hp as ->. congruence. }
        intros h. destruct (IH h) as [IH1 IH2]. split.
        -- intros d Hd. destruct (IH1 d Hd) as (-> & p & f & chunks & Hp & Hrest).
           split; [done|]. exists p, f, chunks. split; [|done]. apply elem_of_app. by left.
        -- intros p f chunks c Hp Hf Hchunks Hc Hh.
           apply elem_of_app in Hp as [Hp|Hp];
             [exact (IH2 p f chunks c Hp Hf Hchunks Hc Hh)|].
           apply list_elem_of_singleton in Hp as ->. congruence.
    + destruct IH as (p & f & Hp & Hrest). exists p, f. split; [|done].
      apply elem_of_app. by left.
Qed.

(** The scan returns when every listed file that exists can be opened
    and cut. *)
Lemma scan_returns (files_to_patch : list string) :
  (∀ p f, p ∈ files_to_patch → cwd w !! p = Some f → scannable fastcdc 65536 f) →
  ∃ pool, Patcher.scan sha256 fastcdc w files_to_patch = Ok pool.
Proof.
  intros Hscan. pose proof (scan_state files_to_patch) as H.
  destruct (Patcher.scan _ _ _ _) as [pool|e]; [by exists pool|].
  destruct H as (p & f & Hp & Hf & [[Hr _]|[_ Hc]]);
    destruct (Hscan p f Hp Hf) as [Hr' [chunks Hc']]; congruence.
Qed.

(** X27. The local scan before a fetch opens each selected path as it is
    given, that is relative to the working directory, and skips a path
    that does not exist there. When every listed file that exists there
    can be opened and cut by the chunker, the scan returns a pool: every
    block of the pool is a chunk of such a file, stored under the digest
    of the chunk, and every chunk of every listed file that exists there
    has its digest in the pool. *)
Theorem scan_content_addressed (files_to_patch : list string) :
  (∀ p f, p ∈ files_to_patch → cwd w !! p = Some f → scannable fastcdc 65536 f) →
  ∃ pool,
    Patcher.scan sha256 fastcdc w files_to_patch = Ok pool
    ∧ ∀ h,
        (∀ d, pool !! h = Some d →
              h = sha256 d
              ∧ ∃ p f chunks, p ∈ files_to_patch ∧ cwd w !! p = Some f
                              ∧ chunks_of fastcdc 65536 (f_content f) = Ok chunks
                              ∧ d ∈ chunks)
        ∧ (∀ p f chunks c, p ∈ files_to_patch → cwd w !! p = Some f →
                           chunks_of fastcdc 65536 (f_content f) = Ok chunks →
                           c ∈ chunks → h = sha256 c → is_Some (pool !! h)).
Proof.
  intros Hscan. destruct (scan_returns files_to_patch Hscan) as [pool Hrun].
  pose proof (scan_state files_to_patch) as H. rewrite Hrun in H.
  exists pool. split; [done|]. apply H.
Qed.


Lemma getPatchData_local loc new_build :
  loc ≠ "" → patch_data_json w = Some new_build → getPatchData w loc = new_build.
Proof.
  intros Hloc Hjson. unfold getPatchData.
  rewrite bool_decide_eq_false_2, Hjson by done. by destruct (isURL loc).
Qed.


(** X28. An installation that is up to date needs nothing from the
    source: when no file is selected (and the manifest is uncompressed),
    [Patcher.patch] returns with exactly what the cleaner makes of the
    install tree and the changelog, for a local source and for a URL
    alike, whatever block and bundle files the source has or lacks. *)
Theorem patch_up_to_date loc (st : Patcher.state) new_build :
  loc ≠ "" → patch_data_json w = Some new_build →
  compression_enabled new_build = false →
  selected_files sha256 st new_build = [] →
  Patcher.patch sha256 fastcdc zstd_decompress mkstemp clock w loc st
  = ({| Patcher.install :=
          (Cleaner.run (Patcher.install st) (default ∅ (Patcher.changelog_json st))
             new_build).1;
        Patcher.changelog_json :=
          Some (Cleaner.run (Patcher.install st) (default ∅ (Patcher.changelog_json st))
                  new_build).2 |}, Ok ()).
Proof.
  intros Hloc Hjson Hplain Hnone.
  unfold Patcher.patch, Downloader.new.
  rewrite (getPatchData_local loc new_build Hloc Hjson), Hplain. cbn [rbind].
  change (PatchData.get_files_to_patch new_build
            (_get_local_file_hashes sha256 (Patcher.install st))
            (ChangeLog.is_valid (Patcher.install st)
               (default ∅ (Patcher.changelog_json st))))
    with (selected_files sha256 st new_build).
  rewrite Hnone. cbn [Patcher.scan PatchData.get_missing_blocks foldl rbind].
  destruct (PatchDataFacts.planner_plan_and_cover new_build ∅)
    as (plan & rem & Hfind & Hplan & Hrem).
  rewrite Hfind. cbn [rbind].
  assert (plan = ∅) as ->.
  { apply map_eq. intros id. rewrite Hplan, lookup_empty.
    destruct (bundles new_build !! id) as [b|]; [|done]. simpl.
    destruct b as [|kv b]; [done|]. simpl. unfold selected. simpl.
    assert (needed_of ∅ (kv :: b) = []) as ->; [|done].
    unfold needed_of. generalize (bundle_hashes (kv :: b)). intros l.
    induction l as [|h l IHl]; [done|]. rewrite filter_cons_False; [done|].
    apply not_elem_of_empty. }
  assert (rem = ∅) as ->.
  { apply set_eq. intros h. rewrite Hrem. split; [by intros [? _]|].
    intros Hin. by apply not_elem_of_empty in Hin. }
  unfold fetch_all, _fetch_remote, _fetch_local.
  rewrite !map_fold_empty. cbn [rbind]. rewrite !set_fold_empty.
  destruct (isURL _); cbn [FilePatcher.apply foldl];
    by destruct (Cleaner.run _ _ _).
Qed.

(** The requests of a bundle, by hash. *)
Lemma create_range_requests_hashes (self : t) bundle_id (needed_blocks : list string) h :
  h ∈ map block_hash (_create_range_requests self bundle_id needed_blocks)
  ↔ h ∈ needed_blocks ∧ is_Some (_get_block_info self bundle_id h).
Proof.
  unfold _create_range_requests, _get_block_info.
  rewrite list_elem_of_fmap. split.
  - intros (r & -> & Hr). rewrite merge_sort_Permutation in Hr.
    apply DownloaderFacts.ranges_loop in Hr as [Hnil|[Hin (o & n & Hget & _)]];
      [by apply elem_of_nil in Hnil|].
    split; [done|]. destruct (bundle_index self !! bundle_id); simpl in *; by eexists.
  - intros [Hin [[o n] Hget]].
    exists (Range (Z.of_nat o) (Z.of_nat o + Z.of_nat n - 1) h). split; [done|].
    rewrite merge_sort_Permutation. apply DownloaderFacts.ranges_loop. right.
    simpl. split; [done|]. exists o, n. split; [|done].
    destruct (bundle_index self !! bundle_id); simpl in *; done.
Qed.

(** X29. A server that ignores [Range]: when the answer to the range
    request of a bundle is not a 206, the bundle is requested again
    without ranges and, if that answer is a 200 whose body resolves, the
    body is sliced locally: every needed hash of the bundle ends up in the
    pool, and the pool holds nothing but published payloads. *)
Theorem fetch_bundle_ranges_falls_back (self : t) bs bundle_id (b : bundle)
    (needed_blocks : list string) (pool : gmap string bytes) (answer whole : response) :
  use_compression self = false →
  bundle_index self !! bundle_id = Some (index_of b) →
  session_get w (patch_data_path self +:+ "/bundles/" +:+ bundle_id)
    (Some (range_header (_create_range_requests self bundle_id needed_blocks)))
  = Ok answer →
  status answer ≠ 206 →
  session_get w (patch_data_path self +:+ "/bundles/" +:+ bundle_id) None = Ok whole →
  status whole = 200 →
  resolves bs b (body whole) →
  pool_sound bs pool →
  ∃ pool',
    _fetch_bundle_ranges zstd_decompress w self bundle_id
      (_create_range_requests self bundle_id needed_blocks) pool = Ok pool'
    ∧ pool_sound bs pool'
    ∧ ∀ h, h ∈ needed_blocks → h ∈ bundle_hashes b → is_Some (pool' !! h).
Proof.
  intros Hplain Hidx Hfirst Hstatus Hwhole H200 Hres Hsound.
  pose proof (create_range_requests_hashes self bundle_id needed_blocks) as Hhashes.
  assert (∀ h, h ∈ bundle_hashes b → is_Some (_get_block_info self bundle_id h)) as Hinfo.
  { intros h Hh. unfold _get_block_info. rewrite Hidx. simpl.
    by apply DownloaderFacts.index_of_is_Some. }
  unfold _fetch_bundle_ranges.
  destruct (_create_range_requests self bundle_id needed_blocks) as [|range0 ranges]
    eqn:Hranges.
  - exists pool. split; [done|]. split; [done|]. intros h Hh Hb.
    exfalso. assert (h ∈ map block_hash []) as Hnil by (apply Hhashes; auto).
    by apply elem_of_nil in Hnil.
  - rewrite Hfirst. cbn [rbind]. rewrite bool_decide_eq_false_2 by done.
    unfold fetch. rewrite Hwhole. cbn [rbind]. rewrite H200. simpl.
    destruct (process_bundle_sound self bs bundle_id b (body whole)
                (map block_hash (range0 :: ranges)) pool) as [Hs Hg]; [done..| |done|].
    { intros h Hh. apply Hhashes in Hh as [_ [[o n] Hget]].
      unfold _get_block_info in Hget. rewrite Hidx in Hget. simpl in Hget.
      destruct (DownloaderFacts.index_of_member b h o n Hget) as (m & Hm & <- & _).
      unfold bundle_hashes. apply list_elem_of_fmap in Hm as (kv & -> & Hkv).
      apply list_elem_of_fmap. by exists kv. }
    eexists. split; [done|]. split; [done|].
    intros h Hh Hb. apply Hg, Hhashes. auto.
Qed.

End Facts.
End PatchFacts.

Lemma ab_file_resolves : resolves two_blocks ab_bundle ab_file.
Proof.
  intros m Hm. unfold ab_bundle in Hm. rewrite LayoutFacts.normalize_members in Hm.
  apply elem_of_cons in Hm as [->|Hm]; [by split|].
  apply list_elem_of_singleton in Hm as ->. by split.
Qed.



Lemma scan_content_addressed_witness :
  ∃ pool,
    Patcher.scan text_digest whole_file local_checkout ["bin/app"; "bin/gone"] = Ok pool
    ∧ ∀ h,
        (∀ d, pool !! h = Some d →
              h = text_digest d
              ∧ ∃ p f chunks, p ∈ ["bin/app"; "bin/gone"]
                              ∧ cwd local_checkout !! p = Some f
                              ∧ chunks_of whole_file 65536 (f_content f) = Ok chunks
                              ∧ d ∈ chunks)
        ∧ (∀ p f chunks c, p ∈ ["bin/app"; "bin/gone"] →
                           cwd local_checkout !! p = Some f →
                           chunks_of whole_file 65536 (f_content f) = Ok chunks →
                           c ∈ chunks → h = text_digest c → is_Some (pool !! h)).
Proof.
  apply (PatchFacts.scan_content_addressed text_digest whole_file local_checkout
           ["bin/app"; "bin/gone"]).
  intros p f _ Hf. change (cwd local_checkout) with app_in_cwd in Hf.
  unfold app_in_cwd in Hf. apply lookup_singleton_Some in Hf as [_ <-].
  by apply whole_file_scannable.
Defined.

Lemma patch_up_to_date_witness :
  Patcher.patch text_digest whole_file no_decompression (unused_temp {[ "bin/app" ]})
    "2.0" bare_source "http://host/app" current_install
  = ({| Patcher.install :=
          (Cleaner.run (Patcher.install current_install)
             (default ∅ (Patcher.changelog_json current_install)) current_build).1;
        Patcher.changelog_json :=
          Some (Cleaner.run (Patcher.install current_install)
                  (default ∅ (Patcher.changelog_json current_install)) current_build).2 |},
     Ok ()).
Proof.
  apply (PatchFacts.patch_up_to_date text_digest whole_file no_decompression
           (unused_temp {[ "bin/app" ]}) "2.0" bare_source "http://host/app"
           current_install current_build).
  - discriminate.
  - reflexivity.
  - reflexivity.
  - vm_compute. reflexivity.
Defined.

Lemma fetch_bundle_ranges_falls_back_witness :
  ∃ pool',
    Downloader._fetch_bundle_ranges no_decompression range_deaf_server
      (downloader_for "http://host/app" {[ "b1" := ab_bundle ]}) "b1"
      (Downloader._create_range_requests
         (downloader_for "http://host/app" {[ "b1" := ab_bundle ]}) "b1" ["h2"]) ∅
    = Ok pool'
    ∧ pool_sound two_blocks pool'
    ∧ ∀ h, h ∈ ["h2"] → h ∈ bundle_hashes ab_bundle → is_Some (pool' !! h).
Proof.
  apply (PatchFacts.fetch_bundle_ranges_falls_back no_decompression range_deaf_server
           (downloader_for "http://host/app" {[ "b1" := ab_bundle ]}) two_blocks "b1"
           ab_bundle ["h2"] ∅
           (Response 200 "application/octet-stream" ab_file)
           (Response 200 "application/octet-stream" ab_file)).
  - reflexivity.
  - reflexivity.
  - reflexivity.
  - discriminate.
  - reflexivity.
  - reflexivity.
  - exact ab_file_resolves.
  - intros h d Hd. by rewrite lookup_empty in Hd.
Defined.
